(** * Prayer-event timeline engine of time.aishamasjid.uk

    Shallow embedding of the prayer calculation library
    ([lib/prayer-calculations.ts]), the timeline builder
    ([lib/prayer-data.ts]), the page-state hook
    ([hooks/use-prayer-page-state.ts]), the simulated clock
    ([hooks/use-simulated-time.ts]) and the event navigation of the time
    DevTools panel.

    Conventions of the embedding:
    - a JavaScript number holding a millisecond timestamp is a [Z]; its JS
      truthiness ([if (x)], [x && ...], [x || y]) is [x <> 0];
    - [number | null] is [option Z];
    - a JavaScript object used as a string-keyed map
      ([ParsedPrayerTimestamps]) is a [gmap string _];
    - time strings are [string]; [string | undefined] is [option string]. *)

From Stdlib Require Import ZArith Lia List String Ascii Sorted.
From Stdlib Require Import DecimalString DecimalN.
From stdpp Require Import base gmap strings list.

Local Open Scope string_scope.
Local Open Scope list_scope.
Local Open Scope Z_scope.
Import ListNotations.

(* ------------------------------------------------------------------ *)
(** ** JavaScript helpers *)

(** Truthiness of a number (NaN is not produced by the modelled code). *)
Definition truthy (x : Z) : bool := negb (x =? 0).

(** Truthiness of [number | null]. *)
Definition truthy_opt (x : option Z) : bool :=
  match x with Some v => truthy v | None => false end.

(** Truthiness of a string: only [""] is falsy. *)
Definition str_truthy (s : string) : bool := negb (String.eqb s "").

(* ------------------------------------------------------------------ *)
(** ** Pre-parsed timestamps ([ParsedPrayerTimestamps]) *)

(** [{ athan: number; iqamah: number | null }] *)
Record PrayerMs := mkPrayerMs { athan : Z; iqamah : option Z }.

(** [interface ParsedPrayerTimestamps { [prayer: string]: PrayerMs }] *)
Abbreviation ParsedPrayerTimestamps := (gmap string PrayerMs).

(** [const PRAYER_ORDER = ["fajr", "sunrise", "dhuhr", "jumuah1",
    "jumuah2", "asr", "maghrib", "isha"]] *)
Definition PRAYER_ORDER : list string :=
  ["fajr"; "sunrise"; "dhuhr"; "jumuah1"; "jumuah2"; "asr"; "maghrib"; "isha"].

(** [!times || (!times.athan && !times.iqamah)]: the entry is skipped. *)
Definition skipped (e : option PrayerMs) : bool :=
  match e with
  | None => true
  | Some times => negb (truthy (athan times)) && negb (truthy_opt (iqamah times))
  end.

(** The [for (const prayer of PRAYER_ORDER)] loop of [getNextPrayerMs];
    [Some p] is an early [return prayer], [None] leaving the loop. *)
Fixpoint next_loop (parsedTimes : ParsedPrayerTimestamps) (currentTimeMs : Z)
    (order : list string) : option string :=
  match order with
  | [] => None
  | prayer :: rest =>
      match parsedTimes !! prayer with
      | None => next_loop parsedTimes currentTimeMs rest
      | Some times =>
          if skipped (Some times) then next_loop parsedTimes currentTimeMs rest
          else if truthy (athan times) && (currentTimeMs <? athan times) then Some prayer
          else if (match iqamah times with
                   | Some q => truthy q && (currentTimeMs <? q)
                   | None => false end) then Some prayer
          else next_loop parsedTimes currentTimeMs rest
      end
  end.

(** [getNextPrayerMs(parsedTimes, currentTimeMs)] *)
Definition getNextPrayerMs (parsedTimes : ParsedPrayerTimestamps) (currentTimeMs : Z) : string :=
  match next_loop parsedTimes currentTimeMs PRAYER_ORDER with
  | Some prayer => prayer
  | None => "fajr"
  end.

(** [PreviousPrayerMsResult]: [{ prayer; athanMs; iqamahMs }] *)
Record PreviousPrayerMsResult := mkPrev {
  prev_prayer : string; athanMs : Z; iqamahMs : option Z }.

(** [times.athan || times.iqamah || 0] *)
Definition fallback_athan (times : PrayerMs) : Z :=
  if truthy (athan times) then athan times
  else match iqamah times with
       | Some q => if truthy q then q else 0
       | None => 0
       end.

(** The loop of [getPreviousPrayerMs] that fills [prayersWithTimes]. *)
Fixpoint collect (parsedTimes : ParsedPrayerTimestamps) (order : list string)
    : list PreviousPrayerMsResult :=
  match order with
  | [] => []
  | prayer :: rest =>
      match parsedTimes !! prayer with
      | Some times =>
          if skipped (Some times) then collect parsedTimes rest
          else mkPrev prayer (fallback_athan times) (iqamah times) :: collect parsedTimes rest
      | None => collect parsedTimes rest
      end
  end.

(** [prayersWithTimes.sort((a, b) => b.athanMs - a.athanMs)].
    [Array.prototype.sort] is stable (ECMAScript 2019), so the result is
    the unique stable permutation ordering by decreasing [athanMs]; it is
    computed here by insertion: an element is placed before the first
    later element whose [athanMs] is not larger (the comparator
    [b.athanMs - a.athanMs] is then [<= 0]). *)
Fixpoint insert_desc (x : PreviousPrayerMsResult) (s : list PreviousPrayerMsResult)
    : list PreviousPrayerMsResult :=
  match s with
  | [] => [x]
  | y :: s' => if athanMs x - athanMs y <? 0 then y :: insert_desc x s' else x :: y :: s'
  end.

Fixpoint sort_desc (l : list PreviousPrayerMsResult) : list PreviousPrayerMsResult :=
  match l with
  | [] => []
  | x :: l' => insert_desc x (sort_desc l')
  end.

(** [getPreviousPrayerMs(parsedTimes, currentTimeMs)] *)
Definition getPreviousPrayerMs (parsedTimes : ParsedPrayerTimestamps) (currentTimeMs : Z)
    : option PreviousPrayerMsResult :=
  List.find (fun p => athanMs p <=? currentTimeMs)
    (sort_desc (collect parsedTimes PRAYER_ORDER)).

(* ------------------------------------------------------------------ *)
(** ** Holding durations *)

(** [interface PrayerHoldingDurations] (milliseconds) *)
Record PrayerHoldingDurations := mkDurations {
  dur_fajr : Z; dur_sunrise : Z; dur_dhuhr : Z; dur_jumuah1 : Z;
  dur_jumuah2 : Z; dur_asr : Z; dur_maghrib : Z; dur_isha : Z }.

(** [DEFAULT_PRAYER_HOLDING_DURATIONS] *)
Definition DEFAULT_PRAYER_HOLDING_DURATIONS : PrayerHoldingDurations :=
  {| dur_fajr := 15 * 60 * 1000; dur_sunrise := 0; dur_dhuhr := 10 * 60 * 1000;
     dur_jumuah1 := 20 * 60 * 1000; dur_jumuah2 := 20 * 60 * 1000;
     dur_asr := 10 * 60 * 1000; dur_maghrib := 15 * 60 * 1000;
     dur_isha := 15 * 60 * 1000 |}.

(** The names every object inherits from [Object.prototype]. *)
Definition OBJECT_PROTOTYPE_KEYS : list string :=
  ["constructor"; "hasOwnProperty"; "isPrototypeOf"; "propertyIsEnumerable";
   "toLocaleString"; "toString"; "valueOf"; "__proto__"; "__defineGetter__";
   "__defineSetter__"; "__lookupGetter__"; "__lookupSetter__"].

(** The value a holding duration read yields: a number, or a member
    inherited from [Object.prototype] (a function, or the prototype
    object itself for ["__proto__"]), named by its key. Neither kind is
    [null] or [undefined]. *)
Inductive HoldingValue := HoldingNumber (ms : Z) | HoldingInherited (key : string).

(** [durations[prayerKey]]: an own property of the table is a number;
    otherwise the lookup goes up the prototype chain to
    [Object.prototype]; any other key reads [undefined] ([None]). *)
Definition durations_get (d : PrayerHoldingDurations) (key : string) : option HoldingValue :=
  if String.eqb key "fajr" then Some (HoldingNumber (dur_fajr d))
  else if String.eqb key "sunrise" then Some (HoldingNumber (dur_sunrise d))
  else if String.eqb key "dhuhr" then Some (HoldingNumber (dur_dhuhr d))
  else if String.eqb key "jumuah1" then Some (HoldingNumber (dur_jumuah1 d))
  else if String.eqb key "jumuah2" then Some (HoldingNumber (dur_jumuah2 d))
  else if String.eqb key "asr" then Some (HoldingNumber (dur_asr d))
  else if String.eqb key "maghrib" then Some (HoldingNumber (dur_maghrib d))
  else if String.eqb key "isha" then Some (HoldingNumber (dur_isha d))
  else if existsb (String.eqb key) OBJECT_PROTOTYPE_KEYS then Some (HoldingInherited key)
  else None.

(** [getPrayerHoldingDuration(prayer, durations = DEFAULT...)]; an
    omitted [durations] argument is [None]. The [??] keeps any value
    that is not [undefined], inherited members included. *)
Definition getPrayerHoldingDuration (prayer : string)
    (durations : option PrayerHoldingDurations) : HoldingValue :=
  let d := match durations with Some d => d | None => DEFAULT_PRAYER_HOLDING_DURATIONS end in
  match durations_get d prayer with
  | Some v => v
  | None => HoldingNumber (dur_dhuhr DEFAULT_PRAYER_HOLDING_DURATIONS)
  end.

(** [currentTimeMs >= start && currentTimeMs < start + holdingDurationMs].
    For an inherited member, [start + holdingDurationMs] concatenates
    strings (["1768...function toString() { [native code] }"] or
    ["...[object Object]"]), which converts to [NaN]: the second
    comparison is false. *)
Definition holding_window (start currentTimeMs : Z) (holdingDurationMs : HoldingValue) : bool :=
  match holdingDurationMs with
  | HoldingNumber h => (start <=? currentTimeMs) && (currentTimeMs <? start + h)
  | HoldingInherited _ => false
  end.

(** [setTimeout]'s delay for a holding duration: a non-number converts
    to [NaN], which waits 0 ms. *)
Definition holding_delay (holdingDuration : HoldingValue) : Z :=
  match holdingDuration with HoldingNumber h => h | HoldingInherited _ => 0 end.

(** [holdingDurationMsOrPrayer: number | string] *)
Inductive DurationOrPrayer := DurMs (ms : Z) | DurPrayer (prayer : string).

(** [isWithinPrayerHoldingPeriodMs(iqamahMs, currentTimeMs,
    holdingDurationMsOrPrayer = 15 * 60 * 1000, durations?)] *)
Definition isWithinPrayerHoldingPeriodMs (iqamahMs : option Z) (currentTimeMs : Z)
    (holdingDurationMsOrPrayer : DurationOrPrayer)
    (durations : option PrayerHoldingDurations) : bool :=
  match iqamahMs with
  | None => false
  | Some iq =>
      if negb (truthy iq) then false
      else
        let holdingDurationMs :=
          match holdingDurationMsOrPrayer with
          | DurPrayer p => getPrayerHoldingDuration p durations
          | DurMs ms => HoldingNumber ms
          end in
        holding_window iq currentTimeMs holdingDurationMs
  end.

(* ------------------------------------------------------------------ *)
(** ** The event locators as the spec describes them *)

(** A prayer entry has a present leg: a truthy athan or iqamah. *)
Definition has_present_leg (e : PrayerMs) : bool :=
  truthy (athan e) || truthy_opt (iqamah e).

(** [findNext]'s test: some leg present and athan or iqamah still ahead. *)
Definition next_qualifies (pt : ParsedPrayerTimestamps) (t : Z) (p : string) : bool :=
  match pt !! p with
  | None => false
  | Some e =>
      has_present_leg e &&
      ((truthy (athan e) && (t <? athan e)) ||
       (match iqamah e with Some q => truthy q && (t <? q) | None => false end))
  end.

(** The effective start of a prayer: its athan, or its iqamah when the
    athan leg is absent; [None] when both legs are absent. *)
Definition effective_start (pt : ParsedPrayerTimestamps) (p : string) : option Z :=
  match pt !! p with
  | None => None
  | Some e =>
      if truthy (athan e) then Some (athan e)
      else match iqamah e with
           | Some q => if truthy q then Some q else None
           | None => None
           end
  end.

(** Descending order on [athanMs]. *)
Definition desc (a b : PreviousPrayerMsResult) : Prop := athanMs b <= athanMs a.

(** The latest candidate at or before [t], the earliest in the list among
    candidates tied at that instant. *)
Fixpoint latest_started (t : Z) (l : list PreviousPrayerMsResult)
    : option PreviousPrayerMsResult :=
  match l with
  | [] => None
  | x :: l' =>
      match latest_started t l' with
      | Some y => if (athanMs x <=? t) && (athanMs y <=? athanMs x) then Some x else Some y
      | None => if athanMs x <=? t then Some x else None
      end
  end.

(* ------------------------------------------------------------------ *)
(** ** Raw records and the combined timeline ([lib/types/prayer-times.ts]) *)

(** [interface AthanEntry] *)
Module AthanEntry.
Record t := mk {
  date : string; fajr : string; sunrise : string; dhuhr : string;
  asr : string; maghrib : string; isha : string }.
End AthanEntry.

(** [interface IqamahEntry]; [jumuah1?] and [jumuah2?] are optional. *)
Module IqamahEntry.
Record t := mk {
  date : string; fajr : string; dhuhr : string; asr : string; isha : string;
  jumuah1 : option string; jumuah2 : option string }.
End IqamahEntry.

(** [interface PrayerTime { athan: string | undefined; iqamah: ... }] *)
Module PrayerTime.
Record t := mk { athan : option string; iqamah : option string }.
End PrayerTime.

(** [interface CombinedPrayerTimes]; [jumuah1?] and [jumuah2?] may be
    missing properties ([None]). *)
Module CombinedPrayerTimes.
Record t := mk {
  date : string; fajr : PrayerTime.t; sunrise : PrayerTime.t; dhuhr : PrayerTime.t;
  jumuah1 : option PrayerTime.t; jumuah2 : option PrayerTime.t;
  asr : PrayerTime.t; maghrib : PrayerTime.t; isha : PrayerTime.t }.
End CombinedPrayerTimes.

(** [prayerTimes[prayer]] for a prayer key; other keys read [undefined]. *)
Definition combined_get (c : CombinedPrayerTimes.t) (key : string) : option PrayerTime.t :=
  if String.eqb key "fajr" then Some (CombinedPrayerTimes.fajr c)
  else if String.eqb key "sunrise" then Some (CombinedPrayerTimes.sunrise c)
  else if String.eqb key "dhuhr" then Some (CombinedPrayerTimes.dhuhr c)
  else if String.eqb key "jumuah1" then CombinedPrayerTimes.jumuah1 c
  else if String.eqb key "jumuah2" then CombinedPrayerTimes.jumuah2 c
  else if String.eqb key "asr" then Some (CombinedPrayerTimes.asr c)
  else if String.eqb key "maghrib" then Some (CombinedPrayerTimes.maghrib c)
  else if String.eqb key "isha" then Some (CombinedPrayerTimes.isha c)
  else None.

(** [Object.entries(prayerTimes)] without the ["date"] entry, which both
    callers filter out. The property order is the one in which
    [getCombinedPrayerTimes] creates the object ([date, fajr, sunrise,
    dhuhr, jumuah1, jumuah2, asr, maghrib, isha]); a missing optional
    property has no entry. *)
Definition entries (c : CombinedPrayerTimes.t) : list (string * PrayerTime.t) :=
  flat_map (fun p => match combined_get c p with Some d => [(p, d)] | None => [] end)
    PRAYER_ORDER.

(* ------------------------------------------------------------------ *)
(** ** Data lookup ([lib/prayer-data.ts]) *)

(** The validated yearly data files: [None] when a year's JSON fails its
    schema (the data itself is an external lookup table). *)
Record PrayerData := mkPrayerData {
  athanDataByYear : Z -> option (list AthanEntry.t);
  iqamahDataByYear : Z -> option (list IqamahEntry.t) }.

(** [PrayerDataError] *)
Inductive PrayerDataError := UnsupportedYear (year : option Z) | InvalidData (year : Z).

(** A computation that returns or throws. *)
Inductive Result (A : Type) := Ok (a : A) | Throw (e : PrayerDataError).
Arguments Ok {A} a.
Arguments Throw {A} e.

(** [isSupportedYear(year)]; [None] is [NaN]. *)
Definition isSupportedYear (year : option Z) : bool :=
  match year with Some y => (y =? 2025) || (y =? 2026) | None => false end.

Definition digit_value (c : ascii) : option Z :=
  let n := Z.of_nat (nat_of_ascii c) - 48 in
  if (0 <=? n) && (n <=? 9) then Some n else None.

(** Leading decimal digits of a string ([None] if there are none). *)
Fixpoint leading_digits (s : string) (acc : option Z) : option Z :=
  match s with
  | EmptyString => acc
  | String c rest =>
      match digit_value c with
      | Some d => leading_digits rest (Some (match acc with Some a => a | None => 0 end * 10 + d))
      | None => acc
      end
  end.

(** [Number.parseInt(dateString.substring(0, 4), 10)]: the leading digits
    of the first four characters. (Leading blanks and a sign, which
    [parseInt] also accepts, cannot produce a supported year in four
    characters.) *)
Definition parse_year (dateString : string) : option Z :=
  leading_digits (substring 0 4 dateString) None.

(** [getAthanData(year)] / [getIqamahData(year)] (the cache only stores
    validated results, so it does not change what is returned). *)
Definition getAthanData (data : PrayerData) (year : option Z) : Result (list AthanEntry.t) :=
  if isSupportedYear year then
    match year with
    | Some y => match athanDataByYear data y with Some l => Ok l | None => Throw (InvalidData y) end
    | None => Throw (UnsupportedYear year)
    end
  else Throw (UnsupportedYear year).

Definition getIqamahData (data : PrayerData) (year : option Z) : Result (list IqamahEntry.t) :=
  if isSupportedYear year then
    match year with
    | Some y => match iqamahDataByYear data y with Some l => Ok l | None => Throw (InvalidData y) end
    | None => Throw (UnsupportedYear year)
    end
  else Throw (UnsupportedYear year).

(** [findAthanByDate(dateString)]: the [try]/[catch] turns a thrown error
    into [undefined]. *)
Definition findAthanByDate (data : PrayerData) (dateString : string) : option AthanEntry.t :=
  match getAthanData data (parse_year dateString) with
  | Ok l => List.find (fun e => String.eqb (AthanEntry.date e) dateString) l
  | Throw _ => None
  end.

Definition findIqamahByDate (data : PrayerData) (dateString : string) : option IqamahEntry.t :=
  match getIqamahData data (parse_year dateString) with
  | Ok l => List.find (fun e => String.eqb (IqamahEntry.date e) dateString) l
  | Throw _ => None
  end.

(** [athanTimes[prayer as keyof AthanEntry]] *)
Definition athan_get (a : AthanEntry.t) (key : string) : option string :=
  if String.eqb key "date" then Some (AthanEntry.date a)
  else if String.eqb key "fajr" then Some (AthanEntry.fajr a)
  else if String.eqb key "sunrise" then Some (AthanEntry.sunrise a)
  else if String.eqb key "dhuhr" then Some (AthanEntry.dhuhr a)
  else if String.eqb key "asr" then Some (AthanEntry.asr a)
  else if String.eqb key "maghrib" then Some (AthanEntry.maghrib a)
  else if String.eqb key "isha" then Some (AthanEntry.isha a)
  else None.

(** [iqamahTimes[prayer as keyof IqamahEntry]] *)
Definition iqamah_get (i : IqamahEntry.t) (key : string) : option string :=
  if String.eqb key "date" then Some (IqamahEntry.date i)
  else if String.eqb key "fajr" then Some (IqamahEntry.fajr i)
  else if String.eqb key "dhuhr" then Some (IqamahEntry.dhuhr i)
  else if String.eqb key "asr" then Some (IqamahEntry.asr i)
  else if String.eqb key "isha" then Some (IqamahEntry.isha i)
  else if String.eqb key "jumuah1" then IqamahEntry.jumuah1 i
  else if String.eqb key "jumuah2" then IqamahEntry.jumuah2 i
  else None.

Definition absent_time : PrayerTime.t := PrayerTime.mk None None.

(** The [empty] structure of [getCombinedPrayerTimes]. *)
Definition empty_times (dateString : string) : CombinedPrayerTimes.t :=
  CombinedPrayerTimes.mk dateString absent_time absent_time absent_time
    (Some absent_time) (Some absent_time) absent_time absent_time absent_time.

(** One iteration of the [for (const prayer of PRAYERS_WITH_IQAMAH)] loop:
    the [{ athan, iqamah }] assigned to [combined[prayer]]. *)
Definition resolve_prayer (athanTimes : AthanEntry.t) (iqamahTimes : option IqamahEntry.t)
    (hasJumuah : bool) (prayer : string) : PrayerTime.t :=
  let athan :=
    if String.eqb prayer "jumuah1" && hasJumuah then Some (AthanEntry.dhuhr athanTimes)
    else if String.eqb prayer "jumuah2" then None
    else if negb (String.eqb prayer "jumuah1") then athan_get athanTimes prayer
    else None in
  let iqamah :=
    if String.eqb prayer "dhuhr" && hasJumuah then None
    else if String.eqb prayer "maghrib" then Some (AthanEntry.maghrib athanTimes)
    else match iqamahTimes with
         | Some i => iqamah_get i prayer
         | None => None
         end in
  PrayerTime.mk athan iqamah.

(** [getCombinedPrayerTimes(dateString)] *)
Definition getCombinedPrayerTimes (data : PrayerData) (dateString : string)
    : CombinedPrayerTimes.t :=
  let athanTimes := findAthanByDate data dateString in
  let iqamahTimes := findIqamahByDate data dateString in
  match athanTimes with
  | None => empty_times dateString
  | Some a =>
      let hasJumuah :=
        match iqamahTimes with
        | Some i => match IqamahEntry.jumuah1 i with Some _ => true | None => false end
        | None => false
        end in
      let r := resolve_prayer a iqamahTimes hasJumuah in
      CombinedPrayerTimes.mk dateString (r "fajr") (r "sunrise") (r "dhuhr")
        (Some (r "jumuah1")) (Some (r "jumuah2")) (r "asr") (r "maghrib") (r "isha")
  end.

(* ------------------------------------------------------------------ *)
(** ** Date parsing and the two families of locators *)

(** Throughout, [parse s] is [new Date(s).getTime()] for the date-time
    strings [`${date}T${time}`] built by the code. *)

(** [parseTimeToMs(dateStr, timeStr)] *)
Definition parseTimeToMs (parse : string -> Z) (dateStr : string) (timeStr : option string) : Z :=
  match timeStr with
  | Some s => if str_truthy s then parse (dateStr ++ "T" ++ s)%string else 0
  | None => 0
  end.

(** [a ?? b] on [string | undefined] *)
Definition nullish {A} (a b : option A) : option A :=
  match a with Some _ => a | None => b end.

(** Truthiness of [string | undefined]. *)
Definition str_truthy_opt (s : option string) : bool :=
  match s with Some v => str_truthy v | None => false end.

(** The [times[prayer] = {...}] entry built by [parsePrayerTimesToMs]. *)
Definition parse_details (parse : string -> Z) (today : string) (details : PrayerTime.t) : PrayerMs :=
  let athanStr := nullish (PrayerTime.athan details) (PrayerTime.iqamah details) in
  mkPrayerMs (parseTimeToMs parse today athanStr)
    (if str_truthy_opt (PrayerTime.iqamah details)
     then Some (parseTimeToMs parse today (PrayerTime.iqamah details)) else None).

(** [prayerTimes.jumuah1?.iqamah !== undefined] *)
Definition jumuah1Active (c : CombinedPrayerTimes.t) : bool :=
  match CombinedPrayerTimes.jumuah1 c with
  | Some d => match PrayerTime.iqamah d with Some _ => true | None => false end
  | None => false
  end.

(** The [for (const prayer of prayers)] loop of [parsePrayerTimesToMs]. *)
Fixpoint parse_loop (parse : string -> Z) (c : CombinedPrayerTimes.t)
    (prayers : list string) (times : ParsedPrayerTimestamps) : ParsedPrayerTimestamps :=
  match prayers with
  | [] => times
  | prayer :: rest =>
      if String.eqb prayer "dhuhr" && jumuah1Active c then parse_loop parse c rest times
      else match combined_get c prayer with
           | Some details =>
               parse_loop parse c rest
                 (<[prayer := parse_details parse (CombinedPrayerTimes.date c) details]> times)
           | None => parse_loop parse c rest times
           end
  end.

(** [parsePrayerTimesToMs(prayerTimes, tomorrowDateStr)] *)
Definition parsePrayerTimesToMs (parse : string -> Z) (c : CombinedPrayerTimes.t)
    (tomorrowDateStr : string) : ParsedPrayerTimestamps :=
  let times := parse_loop parse c PRAYER_ORDER ∅ in
  <["tomorrowFajr" := mkPrayerMs
       (parseTimeToMs parse tomorrowDateStr (PrayerTime.athan (CombinedPrayerTimes.fajr c))) None]>
    times.

(** [x ? new Date(`${dateString}T${x}`) : null] on a time string. *)
Definition date_of (parse : string -> Z) (dateString : string) (x : option string) : option Z :=
  match x with
  | Some s => if str_truthy s then Some (parse (dateString ++ "T" ++ s)%string) else None
  | None => None
  end.

(** [NextPrayerResult] *)
Record NextPrayerResult := mkNext { next_prayer : string; next_athan : option string }.

(** The [find] callback of [getNextPrayer] on one entry. *)
Definition next_entry_test (parse : string -> Z) (dateString : string) (t : Z)
    (entry : string * PrayerTime.t) : bool :=
  let prayerTime := snd entry in
  if negb (str_truthy_opt (PrayerTime.athan prayerTime)) &&
     negb (str_truthy_opt (PrayerTime.iqamah prayerTime)) then false
  else
    let prayerAthanTime := date_of parse dateString (PrayerTime.athan prayerTime) in
    let prayerIqamahTime := date_of parse dateString (PrayerTime.iqamah prayerTime) in
    match prayerAthanTime with
    | Some a => if t <? a then true else
                  match prayerIqamahTime with Some q => t <? q | None => false end
    | None => match prayerIqamahTime with Some q => t <? q | None => false end
    end.

(** [getNextPrayer(prayerTimes, currentTime)] *)
Definition getNextPrayer (parse : string -> Z) (c : CombinedPrayerTimes.t) (t : Z)
    : NextPrayerResult :=
  match List.find (next_entry_test parse (CombinedPrayerTimes.date c) t) (entries c) with
  | Some (prayer, time) => mkNext prayer (PrayerTime.athan time)
  | None => mkNext "fajr" (PrayerTime.athan (CombinedPrayerTimes.fajr c))
  end.

(** [PreviousPrayerResult]: Dates as their [getTime()] values. *)
Record PreviousPrayerResult := mkPrevDate {
  pr_prayer : string; pr_athan : Z; pr_iqamah : Z }.

(** A template literal [`${x}`] on [string | undefined]. *)
Definition template (x : option string) : string :=
  match x with Some s => s | None => "undefined" end.

(** The [.filter] callback of [getPreviousPrayer]. *)
Definition prev_entry_filter (entry : string * PrayerTime.t) : bool :=
  match PrayerTime.athan (snd entry), PrayerTime.iqamah (snd entry) with
  | None, None => false
  | _, _ => true
  end.

(** The [.map] callback of [getPreviousPrayer]. *)
Definition prev_entry_map (parse : string -> Z) (dateString : string)
    (entry : string * PrayerTime.t) : PreviousPrayerResult :=
  let prayerTime := snd entry in
  let athanString := nullish (PrayerTime.athan prayerTime) (PrayerTime.iqamah prayerTime) in
  mkPrevDate (fst entry)
    (parse (dateString ++ "T" ++ template athanString)%string)
    (parse (dateString ++ "T" ++ template (PrayerTime.iqamah prayerTime))%string).

(** [.sort((a, b) => a.athan.getTime() - b.athan.getTime())], stable. *)
Fixpoint insert_asc (x : PreviousPrayerResult) (s : list PreviousPrayerResult)
    : list PreviousPrayerResult :=
  match s with
  | [] => [x]
  | y :: s' => if 0 <? pr_athan x - pr_athan y then y :: insert_asc x s' else x :: y :: s'
  end.

Fixpoint sort_asc (l : list PreviousPrayerResult) : list PreviousPrayerResult :=
  match l with
  | [] => []
  | x :: l' => insert_asc x (sort_asc l')
  end.

(** [getPreviousPrayer(prayerTimes, currentTime)] *)
Definition getPreviousPrayer (parse : string -> Z) (c : CombinedPrayerTimes.t) (t : Z)
    : option PreviousPrayerResult :=
  List.find (fun p => pr_athan p <=? t)
    (rev (sort_asc (map (prev_entry_map parse (CombinedPrayerTimes.date c))
                        (List.filter prev_entry_filter (entries c))))).

(** The timeline as [parsePrayerTimesToMs] sees it: in Friday mode its
    [dhuhr] row is left out, which is the same as both legs absent. *)
Definition friday_view (c : CombinedPrayerTimes.t) : CombinedPrayerTimes.t :=
  if jumuah1Active c then
    CombinedPrayerTimes.mk (CombinedPrayerTimes.date c) (CombinedPrayerTimes.fajr c)
      (CombinedPrayerTimes.sunrise c) absent_time (CombinedPrayerTimes.jumuah1 c)
      (CombinedPrayerTimes.jumuah2 c) (CombinedPrayerTimes.asr c)
      (CombinedPrayerTimes.maghrib c) (CombinedPrayerTimes.isha c)
  else c.

(** [new Date("YYYY-MM-DDTHH:MM").getTime()] in a runtime whose local time
    is UTC (the UK in winter): days since 1970-01-01 by the proleptic
    Gregorian calendar, plus the time of day. Only used at the concrete
    inputs of the examples below, which are all well-formed. *)
Definition days_from_civil (y m d : Z) : Z :=
  let y' := if m <=? 2 then y - 1 else y in
  let era := y' / 400 in
  let yoe := y' - era * 400 in
  let doy := (153 * (m + (if 2 <? m then -3 else 9)) + 2) / 5 + d - 1 in
  let doe := yoe * 365 + yoe / 4 - yoe / 100 + doy in
  era * 146097 + doe - 719468.

Definition digits_at (s : string) (start len : nat) : Z :=
  match leading_digits (substring start len s) None with Some v => v | None => 0 end.

Definition date_time_utc (s : string) : Z :=
  (days_from_civil (digits_at s 0 4) (digits_at s 5 2) (digits_at s 8 2) * 86400
   + digits_at s 11 2 * 3600 + digits_at s 14 2 * 60) * 1000.

(** A present leg of a well-formed timeline is a non-empty time string
    that parses to a non-zero instant (the validated [HH:MM] strings of
    2025-2026 dates). *)
Definition leg_ok (parse : string -> Z) (dateString : string) (x : option string) : Prop :=
  match x with
  | Some s => s <> "" /\ parse (dateString ++ "T" ++ s)%string <> 0
  | None => True
  end.

Definition timeline_ok (parse : string -> Z) (c : CombinedPrayerTimes.t) : Prop :=
  forall p d, combined_get c p = Some d ->
    leg_ok parse (CombinedPrayerTimes.date c) (PrayerTime.athan d) /\
    leg_ok parse (CombinedPrayerTimes.date c) (PrayerTime.iqamah d).

(** A Friday of January 2026: [dhuhr] and the two jumuah rows as
    [getCombinedPrayerTimes] builds them when the iqamah record has
    [jumuah1] and [jumuah2]. *)
Definition fri : CombinedPrayerTimes.t :=
  CombinedPrayerTimes.mk "2026-01-16"
    (PrayerTime.mk (Some "06:30") (Some "06:45"))
    (PrayerTime.mk (Some "07:50") None)
    (PrayerTime.mk (Some "12:30") None)
    (Some (PrayerTime.mk (Some "12:30") (Some "13:00")))
    (Some (PrayerTime.mk None (Some "13:45")))
    (PrayerTime.mk (Some "15:00") (Some "15:30"))
    (PrayerTime.mk (Some "17:00") (Some "17:00"))
    (PrayerTime.mk (Some "18:30") (Some "19:00")).

(** The same Friday with the second Jumu'ah iqamah at 12:30, the dhuhr
    athan: [jumuah2] (no athan, so it starts at its iqamah) and [jumuah1]
    (the dhuhr athan) start at the same instant. *)
Definition fri_tie : CombinedPrayerTimes.t :=
  CombinedPrayerTimes.mk "2026-01-16"
    (PrayerTime.mk (Some "06:30") (Some "06:45"))
    (PrayerTime.mk (Some "07:50") None)
    (PrayerTime.mk (Some "12:30") None)
    (Some (PrayerTime.mk (Some "12:30") (Some "13:00")))
    (Some (PrayerTime.mk None (Some "12:30")))
    (PrayerTime.mk (Some "15:00") (Some "15:30"))
    (PrayerTime.mk (Some "17:00") (Some "17:00"))
    (PrayerTime.mk (Some "18:30") (Some "19:00")).

(* ------------------------------------------------------------------ *)
(** ** The countdown and the holding timer ([usePrayerPageState]) *)

(** [String(n)] on an integer. *)
Definition js_String (n : Z) : string := NilZero.string_of_int (Z.to_int n).

(** [s.padStart(2, "0")]: strings shorter than two characters are
    filled on the left with ["0"]. *)
Definition padStart2 (s : string) : string :=
  match String.length s with
  | O => "00"
  | S O => ("0" ++ s)%string
  | _ => s
  end.

(** [formatTimeToGo(seconds)] on an integer number of seconds:
    [Math.floor] of an integer quotient is [Z.div], and [%] is the
    truncating remainder [Z.rem]. *)
Definition formatTimeToGo (seconds : Z) : string :=
  let hours := seconds / 3600 in
  let minutes := Z.rem seconds 3600 / 60 in
  let remainingSeconds := Z.rem seconds 60 in
  (padStart2 (js_String hours) ++ ":" ++ padStart2 (js_String minutes) ++ ":" ++
   padStart2 (js_String remainingSeconds))%string.

(** The target selection of the main timer effect: [None] is the early
    [return] when [parsedTimes[nextPrayerKey]] is missing or has neither
    leg; otherwise the target instant and the [setIsCountingToIqamah]
    argument. *)
Definition countdown_target (parsedTimes : ParsedPrayerTimestamps) (nextPrayerKey : string)
    (currentTimeMs : Z) : option (Z * bool) :=
  let times := parsedTimes !! nextPrayerKey in
  if skipped times then None
  else match times with
  | None => None
  | Some times =>
      (* [parsedTimes.isha?.iqamah ?? parsedTimes.isha?.athan ?? 0] *)
      let ishaTimeMs :=
        match parsedTimes !! "isha" with
        | Some i => match iqamah i with Some q => q | None => athan i end
        | None => 0
        end in
      let nextPrayerAthanMs := fallback_athan times in
      let nextPrayerIqamahMs := iqamah times in
      if ishaTimeMs <=? currentTimeMs then
        Some (match parsedTimes !! "tomorrowFajr" with Some f => athan f | None => 0 end, false)
      else match nextPrayerIqamahMs with
           | Some q => if (nextPrayerAthanMs <? currentTimeMs) && truthy q
                       then Some (q, true) else Some (nextPrayerAthanMs, false)
           | None => Some (nextPrayerAthanMs, false)
           end
  end.

(** The hook's mutable state: the three [useState] cells, the ref
    [prayerNowTimeoutRef] (shared by the effect body, its cleanup and the
    timeout callback), the JavaScript timer queue (outstanding timeouts
    with their delays) with its id counter, whether the last run of the
    effect returned a cleanup function, and whether the component is
    mounted. *)
Record HookState := mkHookState {
  isCountingToIqamah : bool;
  countdown : string;
  showPrayerNow : bool;
  prayerNowTimeoutRef : option nat;
  timers : list (nat * Z);
  next_timer_id : nat;
  registered_cleanup : bool;
  mounted : bool }.

Definition setIsCountingToIqamah (b : bool) (s : HookState) : HookState :=
  mkHookState b (countdown s) (showPrayerNow s) (prayerNowTimeoutRef s) (timers s)
    (next_timer_id s) (registered_cleanup s) (mounted s).

Definition setCountdown (v : string) (s : HookState) : HookState :=
  mkHookState (isCountingToIqamah s) v (showPrayerNow s) (prayerNowTimeoutRef s) (timers s)
    (next_timer_id s) (registered_cleanup s) (mounted s).

Definition setShowPrayerNow (b : bool) (s : HookState) : HookState :=
  mkHookState (isCountingToIqamah s) (countdown s) b (prayerNowTimeoutRef s) (timers s)
    (next_timer_id s) (registered_cleanup s) (mounted s).

(** [prayerNowTimeoutRef.current = r] *)
Definition set_ref (r : option nat) (s : HookState) : HookState :=
  mkHookState (isCountingToIqamah s) (countdown s) (showPrayerNow s) r (timers s)
    (next_timer_id s) (registered_cleanup s) (mounted s).

Definition set_registered (b : bool) (s : HookState) : HookState :=
  mkHookState (isCountingToIqamah s) (countdown s) (showPrayerNow s) (prayerNowTimeoutRef s)
    (timers s) (next_timer_id s) b (mounted s).

Definition set_mounted (b : bool) (s : HookState) : HookState :=
  mkHookState (isCountingToIqamah s) (countdown s) (showPrayerNow s) (prayerNowTimeoutRef s)
    (timers s) (next_timer_id s) (registered_cleanup s) b.

(** [clearTimeout(id)] *)
Definition clearTimeout (id : nat) (s : HookState) : HookState :=
  mkHookState (isCountingToIqamah s) (countdown s) (showPrayerNow s) (prayerNowTimeoutRef s)
    (List.filter (fun e => negb (Nat.eqb (fst e) id)) (timers s))
    (next_timer_id s) (registered_cleanup s) (mounted s).

(** [setTimeout(callback, delay)]: a fresh id, queued. *)
Definition setTimeout (delay : Z) (s : HookState) : nat * HookState :=
  (next_timer_id s,
   mkHookState (isCountingToIqamah s) (countdown s) (showPrayerNow s) (prayerNowTimeoutRef s)
     (timers s ++ [(next_timer_id s, delay)]) (S (next_timer_id s))
     (registered_cleanup s) (mounted s)).

(** The ["prayer now"] part of the effect, for [previousPrayerMs] present.
    Neither callee can throw here, so the [catch] branch is not reached. *)
Definition holding_update (previousPrayerMs : PreviousPrayerMsResult) (currentTimeMs : Z)
    (s : HookState) : HookState :=
  let holdingDuration := getPrayerHoldingDuration (prev_prayer previousPrayerMs) None in
  let withinHoldingPeriod :=
    isWithinPrayerHoldingPeriodMs (iqamahMs previousPrayerMs) currentTimeMs
      (DurPrayer (prev_prayer previousPrayerMs)) None in
  if negb (showPrayerNow s) && withinHoldingPeriod then
    let s1 := setShowPrayerNow true s in
    let s2 := match prayerNowTimeoutRef s1 with
              | Some id => clearTimeout id s1
              | None => s1
              end in
    let (id, s3) := setTimeout (holding_delay holdingDuration) s2 in
    set_ref (Some id) s3
  else if showPrayerNow s && negb withinHoldingPeriod then setShowPrayerNow false s
  else s.

(** The body of the main timer effect. *)
Definition effect_body (parsedTimes : ParsedPrayerTimestamps) (nextPrayerKey : string)
    (previousPrayerMs : option PreviousPrayerMsResult) (currentTimeMs : Z)
    (s : HookState) : HookState :=
  match countdown_target parsedTimes nextPrayerKey currentTimeMs with
  | None => set_registered false s
  | Some (targetTimeMs, toIqamah) =>
      let timeToGoInSeconds := (targetTimeMs - currentTimeMs) / 1000 in
      let s1 := setCountdown (formatTimeToGo (timeToGoInSeconds + 1))
                  (setIsCountingToIqamah toIqamah s) in
      let s2 := match previousPrayerMs with
                | Some p => holding_update p currentTimeMs s1
                | None => s1
                end in
      set_registered true s2
  end.

(** The cleanup returned by the effect, run before the next run and at
    unmount. *)
Definition effect_cleanup (s : HookState) : HookState :=
  if registered_cleanup s then
    set_registered false
      (match prayerNowTimeoutRef s with
       | Some id => set_ref None (clearTimeout id s)
       | None => s
       end)
  else s.

(** The timeout callback: [setShowPrayerNow(false);
    prayerNowTimeoutRef.current = null]. *)
Definition timer_fires (id : nat) (s : HookState) : HookState :=
  if existsb (fun e => Nat.eqb (fst e) id) (timers s) then
    set_ref None (setShowPrayerNow false
      (mkHookState (isCountingToIqamah s) (countdown s) (showPrayerNow s) (prayerNowTimeoutRef s)
         (List.filter (fun e => negb (Nat.eqb (fst e) id)) (timers s))
         (next_timer_id s) (registered_cleanup s) (mounted s)))
  else s.

(** What can happen to the hook: a render after which the effect runs
    (any change of [currentTimeMs], [parsedTimes], [nextPrayerKey],
    [previousPrayerMs] or [showPrayerNow]; here any render may re-run
    it), a timeout expiring, and unmounting. *)
Inductive HookEvent :=
| EffectRun (parsedTimes : ParsedPrayerTimestamps) (nextPrayerKey : string)
    (previousPrayerMs : option PreviousPrayerMsResult) (currentTimeMs : Z)
| TimerFires (id : nat)
| Unmount.

Definition hook_step (e : HookEvent) (s : HookState) : HookState :=
  match e with
  | EffectRun pt key prev t =>
      if mounted s then effect_body pt key prev t (effect_cleanup s) else s
  | TimerFires id => timer_fires id s
  | Unmount => set_mounted false (effect_cleanup s)
  end.

Definition hook_run (s : HookState) (evs : list HookEvent) : HookState :=
  fold_left (fun s e => hook_step e s) evs s.

(** Every state the hook passes through. *)
Fixpoint hook_trace (s : HookState) (evs : list HookEvent) : list HookState :=
  s :: match evs with
       | [] => []
       | e :: evs' => hook_trace (hook_step e s) evs'
       end.

Definition initial_hook_state : HookState :=
  mkHookState false "" false None [] 1 false true.

(** The countdown decision as the spec states it, on a timeline: the
    effective Isha instant (iqamah, else athan), the next prayer's
    athan and iqamah instants, and a given instant for tomorrow's fajr
    athan. "The athan instant" of step 2 is read as in step 3: the
    iqamah instant stands in for an absent athan. *)
Definition instant_of (parse : string -> Z) (dateString : string) (x : option string)
    : option Z :=
  match x with Some s => Some (parse (dateString ++ "T" ++ s)%string) | None => None end.

Definition spec_decide (ishaInstant athanInstant iqamahInstant : option Z)
    (tomorrowFajrAthan t : Z) : option (Z * bool) :=
  if match ishaInstant with Some i => i <=? t | None => false end
  then Some (tomorrowFajrAthan, false)
  else
    let start := match athanInstant with Some a => Some a | None => iqamahInstant end in
    match start with
    | None => None
    | Some st =>
        match iqamahInstant with
        | Some q => if st <? t then Some (q, true) else Some (st, false)
        | None => Some (st, false)
        end
    end.

Definition spec_countdown_target (parse : string -> Z) (c : CombinedPrayerTimes.t)
    (tomorrowFajrAthan : Z) (nextPrayer : string) (t : Z) : option (Z * bool) :=
  let today := CombinedPrayerTimes.date c in
  let isha := CombinedPrayerTimes.isha c in
  let ishaInstant :=
    match instant_of parse today (PrayerTime.iqamah isha) with
    | Some q => Some q
    | None => instant_of parse today (PrayerTime.athan isha)
    end in
  match combined_get c nextPrayer with
  | None => None
  | Some d =>
      spec_decide ishaInstant (instant_of parse today (PrayerTime.athan d))
        (instant_of parse today (PrayerTime.iqamah d)) tomorrowFajrAthan t
  end.

(** Zero-padded two-digit rendering of [0 <= v < 100]. *)
Definition two_digits (v : Z) : string :=
  String (ascii_of_nat (48 + Z.to_nat (v / 10)))
    (String (ascii_of_nat (48 + Z.to_nat (v mod 10))) EmptyString).

(** Two consecutive weekdays whose fajr athan differs by a minute. *)
Definition two_days : PrayerData :=
  mkPrayerData
    (fun y => if y =? 2026 then
       Some [AthanEntry.mk "2026-01-13" "06:31" "07:57" "12:19" "14:37" "16:17" "17:53";
             AthanEntry.mk "2026-01-14" "06:30" "07:56" "12:19" "14:39" "16:19" "17:54"]
     else None)
    (fun y => if y =? 2026 then
       Some [IqamahEntry.mk "2026-01-13" "06:45" "12:45" "15:00" "19:00" None None;
             IqamahEntry.mk "2026-01-14" "06:45" "12:45" "15:00" "19:00" None None]
     else None).

(** Ten holding cycles of the fajr prayer on consecutive days: the
    effect runs at the iqamah instant (arming the expiry timer), the
    timer fires, and the effect runs again when the window has closed;
    then the component unmounts. *)
Definition cycle_prev (i : nat) : PreviousPrayerMsResult :=
  let q := date_time_utc "2026-01-16T06:45" + Z.of_nat i * 86400000 in
  mkPrev "fajr" (q - 15 * 60 * 1000) (Some q).

Definition holding_cycle (i : nat) : list HookEvent :=
  let pt := parsePrayerTimesToMs date_time_utc fri "2026-01-17" in
  let prev := cycle_prev i in
  let q := match iqamahMs prev with Some q => q | None => 0 end in
  [EffectRun pt "fajr" (Some prev) q; TimerFires (S i);
   EffectRun pt "fajr" (Some prev) (q + 15 * 60 * 1000)].

Definition ten_cycles : list HookEvent := flat_map holding_cycle (seq 0 10) ++ [Unmount].

(* ------------------------------------------------------------------ *)
(** ** Formatting helpers ([lib/prayer-calculations.ts]) *)

(** [formatFriendlyCountdown(seconds)] on an integer number of seconds;
    a template literal [`${n}`] on an integer is [String(n)]. *)
Definition formatFriendlyCountdown (seconds : Z) : string :=
  if seconds <? 0 then "0s"
  else
    let hours := seconds / 3600 in
    let minutes := Z.rem seconds 3600 / 60 in
    let remainingSeconds := Z.rem seconds 60 in
    if 0 <? hours then
      (js_String hours ++ "h " ++ js_String minutes ++ "m " ++ js_String remainingSeconds ++ "s")%string
    else if 0 <? minutes then
      (js_String minutes ++ "m " ++ js_String remainingSeconds ++ "s")%string
    else (js_String remainingSeconds ++ "s")%string.

(** [s.split(sep)] for a one-character separator: the pieces between
    the separators, at least one. *)
Fixpoint js_split (sep : ascii) (s : string) : list string :=
  match s with
  | EmptyString => [""]
  | String c rest =>
      let pieces := js_split sep rest in
      if Ascii.eqb c sep then "" :: pieces
      else match pieces with
           | p :: ps => String c p :: ps
           | [] => [String c ""]
           end
  end.

(** The white space [parseInt] skips (the 8-bit characters among
    [StrWhiteSpaceChar]: TAB, LF, VT, FF, CR, SP and NBSP). *)
Definition js_is_space (c : ascii) : bool :=
  let n := nat_of_ascii c in
  (n =? 9)%nat || (n =? 10)%nat || (n =? 11)%nat || (n =? 12)%nat ||
  (n =? 13)%nat || (n =? 32)%nat || (n =? 160)%nat.

Fixpoint js_trim_start (s : string) : string :=
  match s with
  | String c rest => if js_is_space c then js_trim_start rest else s
  | EmptyString => EmptyString
  end.

(** The value of a digit in radix 10 or 16. *)
Definition radix_digit (radix : Z) (c : ascii) : option Z :=
  let n := Z.of_nat (nat_of_ascii c) in
  let v := if (48 <=? n) && (n <=? 57) then Some (n - 48)
           else if (97 <=? n) && (n <=? 122) then Some (n - 87)
           else if (65 <=? n) && (n <=? 90) then Some (n - 55)
           else None in
  match v with Some d => if d <? radix then Some d else None | None => None end.

(** The value of the longest prefix of radix digits ([None]: no digit). *)
Fixpoint radix_prefix (radix : Z) (s : string) (acc : option Z) : option Z :=
  match s with
  | EmptyString => acc
  | String c rest =>
      match radix_digit radix c with
      | Some d => radix_prefix radix rest
                    (Some (match acc with Some a => a | None => 0 end * radix + d))
      | None => acc
      end
  end.

(** [Number.parseInt(s)] with no radix ([None] is [NaN]): leading white
    space, an optional sign, a ["0x"] prefix selecting radix 16, then the
    longest run of digits. Values are exact (the inputs of the code are
    short digit strings). *)
Definition js_parseInt (s : string) : option Z :=
  let s1 := js_trim_start s in
  let '(sign, s2) :=
    match s1 with
    | String "-" rest => (-1, rest)
    | String "+" rest => (1, rest)
    | _ => (1, s1)
    end in
  let '(radix, s3) :=
    match s2 with
    | String "0" (String x rest) =>
        if Ascii.eqb x "x" || Ascii.eqb x "X" then (16, rest) else (10, s2)
    | _ => (10, s2)
    end in
  option_map (fun n => sign * n) (radix_prefix radix s3 None).

(** [convertTo12HourFormat(time24)]: [const [hours, minutes] =
    time24.split(":")]; [Number.parseInt(hours) % 12 || 12] ([NaN] and
    [0] are falsy); the missing second piece is [undefined]. *)
Definition convertTo12HourFormat (time24 : string) : string :=
  let pieces := js_split ":" time24 in
  let hours := match pieces with h :: _ => h | [] => "" end in
  let minutes := nth_error pieces 1 in
  let hours12 :=
    match js_parseInt hours with
    | Some n => if Z.rem n 12 =? 0 then 12 else Z.rem n 12
    | None => 12
    end in
  (js_String hours12 ++ ":" ++ template minutes)%string.

(** [formatTime(time24)] *)
Definition formatTime (time24 : option string) : string :=
  match time24 with
  | Some s => if str_truthy s then convertTo12HourFormat s else ""
  | None => ""
  end.

(** [timeStringSchema]'s pattern [/^([01]\d|2[0-3]):[0-5]\d$/]. *)
Definition char_between (lo hi : ascii) (c : ascii) : bool :=
  (nat_of_ascii lo <=? nat_of_ascii c)%nat && (nat_of_ascii c <=? nat_of_ascii hi)%nat.

Definition is_digit (c : ascii) : bool := char_between "0" "9" c.

Definition time_string_ok (s : string) : bool :=
  match s with
  | String h1 (String h2 (String colon (String m1 (String m2 EmptyString)))) =>
      ((char_between "0" "1" h1 && is_digit h2) || (Ascii.eqb h1 "2" && char_between "0" "3" h2)) &&
      Ascii.eqb colon ":" && char_between "0" "5" m1 && is_digit m2
  | _ => false
  end.

(** [dateStringSchema]'s pattern [/^\d{4}-\d{2}-\d{2}$/]. *)
Definition date_string_ok (s : string) : bool :=
  match s with
  | String y1 (String y2 (String y3 (String y4 (String d1 (String m1 (String m2
      (String d2 (String a1 (String a2 EmptyString))))))))) =>
      is_digit y1 && is_digit y2 && is_digit y3 && is_digit y4 && Ascii.eqb d1 "-" &&
      is_digit m1 && is_digit m2 && Ascii.eqb d2 "-" && is_digit a1 && is_digit a2
  | _ => false
  end.

(* ------------------------------------------------------------------ *)
(** ** Row display state and the Date-based holding check *)

(** [PrayerDisplayState = "now" | "past" | "future"] *)
Inductive PrayerDisplayState := DisplayNow | DisplayPast | DisplayFuture.

(** [getPrayerDisplayState(prayer, prayerTimes, currentTime,
    currentPrayer?)]; [currentTime >= prayerDate] compares [getTime()]. *)
Definition getPrayerDisplayState (parse : string -> Z) (prayer : string)
    (prayerTimes : CombinedPrayerTimes.t) (currentTime : Z)
    (currentPrayer : option string) : PrayerDisplayState :=
  if match currentPrayer with Some p => String.eqb p prayer | None => false end
  then DisplayNow
  else match combined_get prayerTimes prayer with
       | None => DisplayFuture
       | Some time =>
           let prayerTime := nullish (PrayerTime.athan time) (PrayerTime.iqamah time) in
           if negb (str_truthy_opt prayerTime) then DisplayFuture
           else
             let prayerDate :=
               parse (CombinedPrayerTimes.date prayerTimes ++ "T" ++ template prayerTime)%string in
             if str_truthy_opt currentPrayer && (prayerDate <=? currentTime)
             then DisplayPast else DisplayFuture
       end.

(** [holdingDurationMsOrUsePrayerDuration: number | boolean] *)
Inductive DurationOrFlag := HoldMs (ms : Z) | HoldFlag (b : bool).

(** [isWithinPrayerHoldingPeriod(previousPrayer, currentTime,
    holdingDurationMsOrUsePrayerDuration = 15 * 60 * 1000, durations?)]:
    a [Date] object is always truthy, so [!previousPrayer?.iqamah] only
    rejects a missing [previousPrayer]. *)
Definition isWithinPrayerHoldingPeriod (previousPrayer : option PreviousPrayerResult)
    (currentTime : Z) (holdingDurationMsOrUsePrayerDuration : DurationOrFlag)
    (durations : option PrayerHoldingDurations) : bool :=
  match previousPrayer with
  | None => false
  | Some p =>
      let holdingDurationMs :=
        match holdingDurationMsOrUsePrayerDuration with
        | HoldFlag true => getPrayerHoldingDuration (pr_prayer p) durations
        | HoldMs ms => HoldingNumber ms
        | HoldFlag false => HoldingNumber (15 * 60 * 1000)
        end in
      let iqamahTime := pr_iqamah p in
      holding_window iqamahTime currentTime holdingDurationMs
  end.

(** [calculateCountdownSeconds(targetTime, currentTime)] *)
Definition calculateCountdownSeconds (targetTime currentTime : Z) : Z :=
  (targetTime - currentTime) / 1000.

(* ------------------------------------------------------------------ *)
(** ** Derived values of [usePrayerPageState] *)

(** The [previousPrayer] memo: [iqamah: new Date(iqamahMs ?? athanMs)]. *)
Definition previousPrayer_of (previousPrayerMs : option PreviousPrayerMsResult)
    : option PreviousPrayerResult :=
  match previousPrayerMs with
  | None => None
  | Some r => Some (mkPrevDate (prev_prayer r) (athanMs r)
                      (match iqamahMs r with Some q => q | None => athanMs r end))
  end.

(** The [nextPrayer] memo. *)
Definition nextPrayer_of (todayPrayerTimes : CombinedPrayerTimes.t) (nextPrayerKey : string)
    : NextPrayerResult :=
  let athan := match combined_get todayPrayerTimes nextPrayerKey with
               | Some details => PrayerTime.athan details
               | None => None
               end in
  mkNext nextPrayerKey athan.

(** [hasIqamah = todayPrayerTimes.fajr.iqamah !== undefined] *)
Definition hasIqamah (todayPrayerTimes : CombinedPrayerTimes.t) : bool :=
  match PrayerTime.iqamah (CombinedPrayerTimes.fajr todayPrayerTimes) with
  | Some _ => true
  | None => false
  end.

(** [jumuah1HasIqamah = todayPrayerTimes.jumuah1?.iqamah !== undefined] *)
Definition jumuah1HasIqamah (todayPrayerTimes : CombinedPrayerTimes.t) : bool :=
  match CombinedPrayerTimes.jumuah1 todayPrayerTimes with
  | Some d => match PrayerTime.iqamah d with Some _ => true | None => false end
  | None => false
  end.

(** [parsedTimes.isha?.iqamah ?? parsedTimes.isha?.athan ?? 0] of the
    main effect. *)
Definition ishaTimeMs (parsedTimes : ParsedPrayerTimestamps) : Z :=
  match parsedTimes !! "isha" with
  | Some i => match iqamah i with Some q => q | None => athan i end
  | None => 0
  end.


(* ------------------------------------------------------------------ *)
(** ** Date strings ([hooks/use-simulated-time.ts]) *)

(** The proleptic Gregorian date [(year, month, day)] of a day number
    (days since 1970-01-01), as [Date.prototype.getUTCFullYear],
    [getUTCMonth() + 1] and [getUTCDate()] compute it. *)
Definition civil_from_days (z : Z) : Z * Z * Z :=
  let z' := z + 719468 in
  let era := z' / 146097 in
  let doe := z' - era * 146097 in
  let yoe := (doe - doe / 1460 + doe / 36524 - doe / 146096) / 365 in
  let y := yoe + era * 400 in
  let doy := doe - (365 * yoe + yoe / 4 - yoe / 100) in
  let mp := (5 * doy + 2) / 153 in
  let d := doy - (153 * mp + 2) / 5 + 1 in
  let m := if mp <? 10 then mp + 3 else mp - 9 in
  (if m <=? 2 then y + 1 else y, m, d).

Fixpoint zeros (k : nat) : string :=
  match k with O => "" | S k' => String "0" (zeros k') end.

(** [s.padStart(n, "0")] *)
Definition padStartZero (n : nat) (s : string) : string :=
  (zeros (n - String.length s) ++ s)%string.

(** The date half of [toISOString()]: a four-digit year in [0, 9999],
    otherwise a sign and six digits. *)
Definition iso_date_part (day : Z) : string :=
  let '(y, m, d) := civil_from_days day in
  let year := if (0 <=? y) && (y <=? 9999) then padStartZero 4 (js_String y)
              else ((if (y <? 0)%Z then "-" else "+") ++ padStartZero 6 (js_String (Z.abs y)))%string in
  (year ++ "-" ++ padStartZero 2 (js_String m) ++ "-" ++ padStartZero 2 (js_String d))%string.

(** The time half of [toISOString()], from the milliseconds into the day. *)
Definition iso_time_part (ms : Z) : string :=
  (padStartZero 2 (js_String (ms / 3600000)) ++ ":" ++
   padStartZero 2 (js_String (ms / 60000 mod 60)) ++ ":" ++
   padStartZero 2 (js_String (ms / 1000 mod 60)) ++ "." ++
   padStartZero 3 (js_String (ms mod 1000)) ++ "Z")%string.

(** [date.toISOString()] of a valid [Date] (the [RangeError] on an
    invalid one is not modelled). *)
Definition toISOString (date : Z) : string :=
  (iso_date_part (date / 86400000) ++ "T" ++ iso_time_part (date mod 86400000))%string.

(** [getDateString(date)]: [date.toISOString().split("T")[0]]. *)
Definition getDateString (date : Z) : string :=
  match js_split "T" (toISOString date) with p :: _ => p | [] => "" end.

(** [getDateStringFromDate(date)] of [lib/prayer-calculations.ts]: the
    same body. *)
Definition getDateStringFromDate (date : Z) : string :=
  match js_split "T" (toISOString date) with p :: _ => p | [] => "" end.

(** The runtime's time zone, as ECMAScript's abstract operations see
    it: [LocalTime t] is the local wall-clock reading of the instant [t]
    and [UTC l] the instant a local reading [l] denotes, both in
    milliseconds. Across a daylight-saving change a local day is 23 or
    25 hours long. *)
Record TimeZone := mkTimeZone { LocalTime : Z -> Z; UTC : Z -> Z }.

(** A runtime whose local time is UTC. *)
Definition utc_zone : TimeZone := mkTimeZone (fun t => t) (fun l => l).

(** [d.setDate(d.getDate() + k)]: [MakeDay] and [MakeDate] on the local
    fields give the local reading [k] days later at the same local time
    of day, which [UTC] turns back into an instant (the [TimeClip] to
    an Invalid Date past 8.64e15 ms is not modelled). *)
Definition setDate_add (zone : TimeZone) (date k : Z) : Z :=
  UTC zone (LocalTime zone date + k * 86400000).

(** [getTomorrowDateString(date)] *)
Definition getTomorrowDateString (zone : TimeZone) (date : Z) : string :=
  let tomorrow := setDate_add zone date 1 in
  match js_split "T" (toISOString tomorrow) with p :: _ => p | [] => "" end.


(* ------------------------------------------------------------------ *)
(** ** The simulated clock ([useSimulatedTime]) *)

Module SimulatedTime.

(** The hook's state cells ([currentTime], [isHydrated], [isSimulating],
    [speed]) and refs ([simulatedTimeRef], [speedRef], [isSimulatingRef],
    [lastManualSetRef]); a [Date] is its [getTime()] value. The speed
    multiplier is an integer, as every caller passes one
    ([SPEED_OPTIONS] of the DevTools panel); minutes are integers too. *)
Record t := mk {
  currentTime : Z;
  isHydrated : bool;
  isSimulating : bool;
  speed : Z;
  simulatedTimeRef : option Z;
  speedRef : Z;
  isSimulatingRef : bool;
  lastManualSetRef : Z }.

(** The first render: [useState(() => new Date())], [useState(false)],
    [useState(false)], [useState(1)] and the refs' initial values. *)
Definition initial (now : Z) : t := mk now false false 1 None 1 false 0.

(** [setSimulatedTime(time)] at real time [now] ([Date.now()]). *)
Definition setSimulatedTime (isProduction : bool) (now time : Z) (s : t) : t :=
  if isProduction then s
  else mk time (isHydrated s) true (speed s) (Some time) (speedRef s) true now.

(** [setSpeed(multiplier)]: [Math.max(1, Math.min(multiplier, 3600))]. *)
Definition setSpeed (isProduction : bool) (multiplier : Z) (s : t) : t :=
  if isProduction then s
  else
    let clamped := Z.max 1 (Z.min multiplier 3600) in
    mk (currentTime s) (isHydrated s) (isSimulating s) clamped (simulatedTimeRef s)
      clamped (isSimulatingRef s) (lastManualSetRef s).

(** [jumpForward(minutes)] at real time [now]: the base is the simulated
    time, or [new Date()] when there is none (a [Date] is truthy). *)
Definition jumpForward (isProduction : bool) (now minutes : Z) (s : t) : t :=
  if isProduction then s
  else
    let baseTime := match simulatedTimeRef s with Some b => b | None => now end in
    let newTime := baseTime + minutes * 60 * 1000 in
    mk newTime (isHydrated s) true (speed s) (Some newTime) (speedRef s) true now.

(** [reset()] at real time [now]. *)
Definition reset (isProduction : bool) (now : Z) (s : t) : t :=
  if isProduction then s
  else mk now (isHydrated s) false 1 None 1 false (lastManualSetRef s).

(** [tick()] at real time [now]. *)
Definition tick (isProduction : bool) (now : Z) (s : t) : t :=
  if isProduction then
    mk now (isHydrated s) (isSimulating s) (speed s) (simulatedTimeRef s) (speedRef s)
      (isSimulatingRef s) (lastManualSetRef s)
  else match isSimulatingRef s, simulatedTimeRef s with
       | true, Some sim =>
           let timeSinceManualSet := now - lastManualSetRef s in
           if timeSinceManualSet <? 500 then s
           else
             let newTime := sim + 1000 in
             mk newTime (isHydrated s) (isSimulating s) (speed s) (Some newTime) (speedRef s)
               (isSimulatingRef s) (lastManualSetRef s)
       | _, _ =>
           mk now (isHydrated s) (isSimulating s) (speed s) (simulatedTimeRef s) (speedRef s)
             (isSimulatingRef s) (lastManualSetRef s)
       end.

(** The main effect: [setIsHydrated(true)], an initial [tick()], and the
    interval delay [!isProduction && isSimulating ? Math.max(16,
    Math.floor(1000 / speed)) : 1000] (a positive integer speed). *)
Definition effect_run (isProduction : bool) (now : Z) (s : t) : t :=
  tick isProduction now
    (mk (currentTime s) true (isSimulating s) (speed s) (simulatedTimeRef s) (speedRef s)
       (isSimulatingRef s) (lastManualSetRef s)).

Definition interval (isProduction : bool) (s : t) : Z :=
  if negb isProduction && isSimulating s then Z.max 16 (1000 / speed s) else 1000.

(** The returned [isSimulating: !isProduction && isSimulating]. *)
Definition reported_isSimulating (isProduction : bool) (s : t) : bool :=
  negb isProduction && isSimulating s.

(** What can happen to the hook: a control call, a tick of the
    interval, or a run of the effect (on mount and whenever
    [isSimulating] or [speed] changed), each at a real time. *)
Inductive event :=
  | SetTime (now time : Z)
  | SetSpeed (multiplier : Z)
  | JumpForward (now minutes : Z)
  | Reset (now : Z)
  | Tick (now : Z)
  | EffectRun (now : Z).

Definition step (isProduction : bool) (e : event) (s : t) : t :=
  match e with
  | SetTime now time => setSimulatedTime isProduction now time s
  | SetSpeed m => setSpeed isProduction m s
  | JumpForward now minutes => jumpForward isProduction now minutes s
  | Reset now => reset isProduction now s
  | Tick now => tick isProduction now s
  | EffectRun now => effect_run isProduction now s
  end.

Definition run (isProduction : bool) (s : t) (evs : list event) : t :=
  fold_left (fun s e => step isProduction e s) evs s.

End SimulatedTime.


(** Events that only read the clock or change the speed: the interval
    ticks, the effect's runs and [setSpeed] calls. *)
Definition clock_event (e : SimulatedTime.event) : bool :=
  match e with
  | SimulatedTime.Tick _ | SimulatedTime.EffectRun _ | SimulatedTime.SetSpeed _ => true
  | _ => false
  end.

(** The real time of the last tick (of the interval or of the effect)
    in [evs], [t0] if there is none. *)
Definition last_tick_time (t0 : Z) (evs : list SimulatedTime.event) : Z :=
  fold_left (fun t e => match e with
                        | SimulatedTime.Tick n | SimulatedTime.EffectRun n => n
                        | _ => t
                        end) evs t0.

(** The number of ticks in [evs] that come at least 500 ms after the
    real time [n0]. *)
Definition late_ticks (n0 : Z) (evs : list SimulatedTime.event) : Z :=
  Z.of_nat (length (List.filter (fun e => match e with
                        | SimulatedTime.Tick n | SimulatedTime.EffectRun n => 500 <=? n - n0
                        | _ => false
                        end) evs)).


(* ------------------------------------------------------------------ *)
(** ** Event navigation of the time DevTools panel *)

Module DevTools.

(** The [prayerTimes] prop: every prayer is optional, each a
    [{ athan?: string; iqamah?: string }] ([PrayerTime.t]). *)
Record PrayerTimesProp := mkProp {
  fajr : option PrayerTime.t; sunrise : option PrayerTime.t; dhuhr : option PrayerTime.t;
  asr : option PrayerTime.t; maghrib : option PrayerTime.t; isha : option PrayerTime.t;
  jumuah1 : option PrayerTime.t; jumuah2 : option PrayerTime.t }.

(** [x?.athan] and [x?.iqamah]. *)
Definition athan_of (o : option PrayerTime.t) : option string :=
  match o with Some x => PrayerTime.athan x | None => None end.
Definition iqamah_of (o : option PrayerTime.t) : option string :=
  match o with Some x => PrayerTime.iqamah x | None => None end.

(** An entry of [orderedEvents]; [time] is the [getTime()] of its
    [Date], [None] for an Invalid Date (NaN). *)
Record Event := mkEvent { name : string; time : option Z; label : string }.

Section Panel.

(** [Date.parse], i.e. [new Date(s).getTime()], with [None] for NaN. *)
Variable parse : string -> option Z.
(** The runtime's time zone. *)
Variable zone : TimeZone.

(** [addEvent(name, timeStr, label)]: the events it pushes. *)
Definition addEvent (dateString : string) (nm : string) (timeStr : option string) (lbl : string)
    : list Event :=
  match timeStr with
  | Some ts => if str_truthy ts then [mkEvent nm (parse (dateString ++ "T" ++ ts ++ ":00")) lbl] else []
  | None => []
  end.

(** The events pushed, in the order of the source. *)
Definition pushed_events (p : PrayerTimesProp) (dateString : string) : list Event :=
  addEvent dateString "fajr-athan" (athan_of (fajr p)) "Fajr Athan" ++
  addEvent dateString "fajr-iqamah" (iqamah_of (fajr p)) "Fajr Iqamah" ++
  addEvent dateString "sunrise" (athan_of (sunrise p)) "Sunrise" ++
  addEvent dateString "dhuhr-athan" (athan_of (dhuhr p)) "Dhuhr Athan" ++
  (if str_truthy_opt (iqamah_of (jumuah1 p)) then
     addEvent dateString "jumuah1" (iqamah_of (jumuah1 p)) "Jumuah 1" ++
     addEvent dateString "jumuah2" (iqamah_of (jumuah2 p)) "Jumuah 2"
   else addEvent dateString "dhuhr-iqamah" (iqamah_of (dhuhr p)) "Dhuhr Iqamah") ++
  addEvent dateString "asr-athan" (athan_of (asr p)) "Asr Athan" ++
  addEvent dateString "asr-iqamah" (iqamah_of (asr p)) "Asr Iqamah" ++
  addEvent dateString "maghrib" (athan_of (maghrib p)) "Maghrib" ++
  addEvent dateString "isha-athan" (athan_of (isha p)) "Isha Athan" ++
  addEvent dateString "isha-iqamah" (iqamah_of (isha p)) "Isha Iqamah".

(** [getTime()] of an event, NaN read as 0 (only used on valid ones). *)
Definition ms (e : Event) : Z := match time e with Some t => t | None => 0 end.

Definition valid (e : Event) : bool := match time e with Some _ => true | None => false end.

(** [Array.prototype.sort] with the comparator [a.time - b.time]: a
    stable sort (ES2019), here as insertion sort, an element going before
    the first one that is not earlier. *)
Fixpoint insert_event (e : Event) (l : list Event) : list Event :=
  match l with
  | [] => [e]
  | x :: r => if ms e <=? ms x then e :: x :: r else x :: insert_event e r
  end.

Fixpoint sort_events (l : list Event) : list Event :=
  match l with
  | [] => []
  | x :: r => insert_event x (sort_events r)
  end.

(** The [orderedEvents] memo. *)
Definition orderedEvents (prayerTimes : option PrayerTimesProp) (dateString : option string)
    : list Event :=
  match prayerTimes, dateString with
  | Some p, Some ds =>
      if str_truthy ds then sort_events (List.filter valid (pushed_events p ds)) else []
  | _, _ => []
  end.

(** [getCurrentEventIndex()] at the current time [now]: the loop from
    the last index down. *)
Fixpoint scan_down (evs : list Event) (now : Z) (i : nat) : Z :=
  match i with
  | O => -1
  | S i' =>
      match nth_error evs i' with
      | Some e => if ms e - 5000 <=? now then Z.of_nat i' else scan_down evs now i'
      | None => scan_down evs now i'
      end
  end.

Definition getCurrentEventIndex (evs : list Event) (now : Z) : Z :=
  if (length evs =? 0)%nat then -1 else scan_down evs now (length evs).

(** What a navigation handler does: nothing, [onSetTime] with a Date
    (its [getTime()], [None] for an Invalid Date), or a thrown
    [RangeError] ([toISOString] of an Invalid Date). *)
Inductive Nav := NavNone | NavSet (t : option Z) | NavThrow.

Definition event_ms (evs : list Event) (i : Z) : Z :=
  match nth_error evs (Z.to_nat i) with Some e => ms e | None => 0 end.

(** [handlePrevEvent]. *)
Definition handlePrevEvent (prayerTimes : option PrayerTimesProp) (dateString : option string)
    (now : Z) : Nav :=
  let evs := orderedEvents prayerTimes dateString in
  if (length evs =? 0)%nat || negb (str_truthy_opt dateString) then NavNone
  else
    let currentIndex := getCurrentEventIndex evs now in
    if currentIndex <=? 0 then
      let ds := match dateString with Some d => d | None => "" end in
      match parse ds with
      | None => NavThrow
      | Some d =>
          let prevDateString := getDateString (setDate_add zone d (-1)) in
          let ishaIqamahTime := match prayerTimes with Some p => iqamah_of (isha p) | None => None end in
          match ishaIqamahTime with
          | Some it =>
              if str_truthy it then
                NavSet (option_map (fun x => x - 5000) (parse (prevDateString ++ "T" ++ it ++ ":00")))
              else NavNone
          | None => NavNone
          end
      end
    else NavSet (Some (event_ms evs (currentIndex - 1) - 5000)).

(** [handleNextEvent]. *)
Definition handleNextEvent (prayerTimes : option PrayerTimesProp) (dateString : option string)
    (now : Z) : Nav :=
  let evs := orderedEvents prayerTimes dateString in
  if (length evs =? 0)%nat || negb (str_truthy_opt dateString) then NavNone
  else
    let currentIndex := getCurrentEventIndex evs now in
    if Z.of_nat (length evs) - 1 <=? currentIndex then
      let ds := match dateString with Some d => d | None => "" end in
      match parse ds with
      | None => NavThrow
      | Some d =>
          let nextDateString := getDateString (setDate_add zone d 1) in
          let fajrAthanTime := match prayerTimes with Some p => athan_of (fajr p) | None => None end in
          match fajrAthanTime with
          | Some ft =>
              if str_truthy ft then
                NavSet (option_map (fun x => x - 5000) (parse (nextDateString ++ "T" ++ ft ++ ":00")))
              else NavNone
          | None => NavNone
          end
      end
    else NavSet (Some (event_ms evs (currentIndex + 1) - 5000)).

End Panel.

End DevTools.

(* ================================================================== *)
(** * Properties *)

(** The weekday fixture of the unit tests (times in minutes of the day). *)
Definition mock_weekday : ParsedPrayerTimestamps :=
  list_to_map [("fajr", mkPrayerMs 390 (Some 405)); ("sunrise", mkPrayerMs 470 None);
               ("dhuhr", mkPrayerMs 750 (Some 780)); ("asr", mkPrayerMs 900 (Some 930));
               ("maghrib", mkPrayerMs 1020 (Some 1020)); ("isha", mkPrayerMs 1110 (Some 1140))].

Example next_before_fajr : getNextPrayerMs mock_weekday 300 = "fajr".
Proof. reflexivity. Qed.
Example next_between_athan_iqamah : getNextPrayerMs mock_weekday 765 = "dhuhr".
Proof. reflexivity. Qed.
Example next_after_isha : getNextPrayerMs mock_weekday 1200 = "fajr".
Proof. reflexivity. Qed.
Example prev_after_isha :
  option_map prev_prayer (getPreviousPrayerMs mock_weekday 1200) = Some "isha".
Proof. reflexivity. Qed.
Example prev_before_fajr : getPreviousPrayerMs mock_weekday 300 = None.
Proof. reflexivity. Qed.

Section NextPrayer.

Lemma next_loop_find (pt : ParsedPrayerTimestamps) t order :
  next_loop pt t order = List.find (next_qualifies pt t) order.
Proof.
  induction order as [|p rest IH]; simpl; [reflexivity|].
  unfold next_qualifies. destruct (pt !! p) as [e|]; [|exact IH].
  destruct e as [a q]; unfold skipped, has_present_leg; simpl.
  destruct (truthy a) eqn:Ha; simpl.
  - destruct (t <? a); simpl; [reflexivity|].
    destruct q as [q|]; simpl; [|exact IH].
    destruct (truthy q && (t <? q)); [reflexivity|exact IH].
  - destruct q as [q|]; simpl; [|exact IH].
    destruct (truthy q) eqn:Hq; simpl; [|exact IH].
    destruct (t <? q); [reflexivity|exact IH].
Qed.

(** C2: [getNextPrayerMs] returns the first prayer of the canonical order
    [fajr, sunrise, dhuhr, jumuah1, jumuah2, asr, maghrib, isha] that has
    a present leg and whose athan or iqamah is still in the future, and
    [fajr] (next-day sentinel) when none qualifies; a prayer returned
    because it qualifies always has a present leg. *)
Theorem getNextPrayerMs_first_qualifying (pt : ParsedPrayerTimestamps) (t : Z) :
  getNextPrayerMs pt t =
    match List.find (next_qualifies pt t) PRAYER_ORDER with
    | Some p => p
    | None => "fajr"
    end
  /\ (forall p, List.find (next_qualifies pt t) PRAYER_ORDER = Some p ->
        exists e, pt !! p = Some e /\ has_present_leg e = true).
Proof.
  split.
  - unfold getNextPrayerMs. rewrite next_loop_find. reflexivity.
  - intros p Hf. apply find_some in Hf as [_ Hq].
    unfold next_qualifies in Hq. destruct (pt !! p) as [e|]; [|discriminate].
    exists e. split; [reflexivity|]. apply andb_true_iff in Hq. tauto.
Qed.

End NextPrayer.

Section PreviousPrayer.

Variable t : Z.

Lemma in_insert_desc x s z : In z (insert_desc x s) <-> z = x \/ In z s.
Proof.
  induction s as [|y s IH]; simpl.
  - intuition congruence.
  - destruct (athanMs x - athanMs y <? 0); simpl; [rewrite IH|]; intuition congruence.
Qed.

Lemma insert_desc_sorted x s :
  StronglySorted desc s -> StronglySorted desc (insert_desc x s).
Proof.
  induction s as [|y s IH]; simpl; intros Hs.
  - repeat constructor.
  - inversion Hs as [|? ? Hs' Hy]; subst.
    destruct (athanMs x - athanMs y <? 0) eqn:E.
    + apply Z.ltb_lt in E. constructor; [now apply IH|].
      apply List.Forall_forall. intros z Hz. apply in_insert_desc in Hz as [->|Hz].
      * unfold desc; lia.
      * now apply (proj1 (List.Forall_forall _ _) Hy).
    + apply Z.ltb_ge in E. constructor; [exact Hs|].
      constructor; [unfold desc; lia|].
      apply List.Forall_forall. intros z Hz.
      pose proof (proj1 (List.Forall_forall _ _) Hy z Hz). unfold desc in *; lia.
Qed.

Lemma sort_desc_sorted l : StronglySorted desc (sort_desc l).
Proof.
  induction l; simpl; [constructor|]. now apply insert_desc_sorted.
Qed.

Lemma in_sort_desc l z : In z (sort_desc l) <-> In z l.
Proof.
  induction l as [|x l IH]; simpl; [tauto|]. rewrite in_insert_desc, IH. intuition congruence.
Qed.

(** Finding the first started entry after inserting [x] into a sorted list. *)
Lemma find_insert_desc x s :
  StronglySorted desc s ->
  List.find (fun p => athanMs p <=? t) (insert_desc x s) =
    match List.find (fun p => athanMs p <=? t) s with
    | Some y => if (athanMs x <=? t) && (athanMs y <=? athanMs x) then Some x else Some y
    | None => if athanMs x <=? t then Some x else None
    end.
Proof.
  induction s as [|y s IH]; intros Hs; simpl.
  - destruct (athanMs x <=? t); reflexivity.
  - inversion Hs as [|? ? Hs' Hy]; subst.
    destruct (athanMs x - athanMs y <? 0) eqn:E; simpl.
    + apply Z.ltb_lt in E.
      destruct (athanMs y <=? t) eqn:Py.
      * replace (athanMs y <=? athanMs x) with false by (symmetry; apply Z.leb_gt; lia).
        now rewrite andb_false_r.
      * now apply IH.
    + apply Z.ltb_ge in E.
      destruct (athanMs x <=? t) eqn:Px; simpl.
      * destruct (athanMs y <=? t) eqn:Py.
        -- replace (athanMs y <=? athanMs x) with true by (symmetry; apply Z.leb_le; lia).
           reflexivity.
        -- destruct (List.find (fun p => athanMs p <=? t) s) as [z|] eqn:Fz; [|reflexivity].
           apply find_some in Fz as [Hz _].
           pose proof (proj1 (List.Forall_forall _ _) Hy z Hz) as Hzy. unfold desc in Hzy.
           replace (athanMs z <=? athanMs x) with true by (symmetry; apply Z.leb_le; lia).
           reflexivity.
      * destruct (athanMs y <=? t); [reflexivity|].
        destruct (List.find (fun p => athanMs p <=? t) s); reflexivity.
Qed.

Lemma find_sort_desc l : List.find (fun p => athanMs p <=? t) (sort_desc l) = latest_started t l.
Proof.
  induction l as [|x l IH]; simpl; [reflexivity|].
  rewrite find_insert_desc by apply sort_desc_sorted. now rewrite IH.
Qed.

End PreviousPrayer.

Section LatestStarted.

Lemma latest_started_some t l r :
  latest_started t l = Some r ->
  In r l /\ athanMs r <= t /\
  (forall x, In x l -> athanMs x <= t -> athanMs x <= athanMs r) /\
  exists pre post, l = pre ++ r :: post /\ forall x, In x pre -> athanMs x <> athanMs r.
Proof.
  revert r. induction l as [|x l IH]; simpl; intros r H; [discriminate|].
  destruct (latest_started t l) as [y|] eqn:Ey.
  - destruct (IH y eq_refl) as (Hy & Hyt & Hmax & pre & post & Hsplit & Hpre).
    destruct ((athanMs x <=? t) && (athanMs y <=? athanMs x)) eqn:C;
      injection H as <-.
    + apply andb_true_iff in C as [C1 C2]. apply Z.leb_le in C1, C2.
      repeat split; [now left|lia| |].
      * intros z [<-|Hz] Hzt; [lia|]. specialize (Hmax z Hz Hzt). lia.
      * exists [], l. split; [reflexivity|]. intros z [].
    + repeat split; [now right|lia| |].
      * intros z [<-|Hz] Hzt; [|now apply Hmax].
        apply Z.leb_le in Hzt as Hzt'. rewrite Hzt' in C. simpl in C.
        apply Z.leb_gt in C. lia.
      * exists (x :: pre), post. split; [now rewrite Hsplit|].
        intros z [<-|Hz]; [|now apply Hpre].
        intros Exy. rewrite Exy, Z.leb_refl, andb_true_r in C.
        apply Z.leb_gt in C. lia.
  - destruct (athanMs x <=? t) eqn:C; [|discriminate]. injection H as <-.
    apply Z.leb_le in C. repeat split; [now left|lia| |].
    + intros z [<-|Hz] Hzt; [lia|].
      exfalso. clear IH. induction l as [|w l IHl]; [destruct Hz|].
      simpl in Ey. destruct (latest_started t l); [destruct (_ && _); discriminate|].
      destruct (athanMs w <=? t) eqn:Cw; [discriminate|].
      apply Z.leb_gt in Cw. destruct Hz as [<-|Hz]; [lia|]. now apply IHl.
    + exists [], l. split; [reflexivity|]. intros z [].
Qed.

Lemma latest_started_none t l :
  latest_started t l = None <-> forall x, In x l -> t < athanMs x.
Proof.
  induction l as [|x l IH]; simpl; [split; [intros _ z []|reflexivity]|].
  destruct (latest_started t l) as [y|] eqn:Ey.
  - split; [destruct (_ && _); discriminate|].
    intros Hall. exfalso.
    destruct (latest_started_some t l y Ey) as (Hy & Hyt & _).
    specialize (Hall y (or_intror Hy)). lia.
  - destruct IH as [IH1 _]. specialize (IH1 eq_refl).
    destruct (athanMs x <=? t) eqn:C.
    + split; [discriminate|]. intros Hall. specialize (Hall x (or_introl eq_refl)).
      apply Z.leb_le in C. lia.
    + split; [|reflexivity]. intros _ z [<-|Hz]; [now apply Z.leb_gt|now apply IH1].
Qed.

End LatestStarted.

Section Candidates.

Variable pt : ParsedPrayerTimestamps.

Lemma effective_start_entry p e :
  pt !! p = Some e ->
  effective_start pt p = if skipped (Some e) then None else Some (fallback_athan e).
Proof.
  intros He. unfold effective_start, skipped, fallback_athan. rewrite He.
  destruct e as [a [q|]]; simpl; destruct (truthy a); simpl; try reflexivity.
  destruct (truthy q); reflexivity.
Qed.

Lemma effective_start_absent p : pt !! p = None -> effective_start pt p = None.
Proof. intros He. unfold effective_start. now rewrite He. Qed.

Lemma in_collect order r :
  In r (collect pt order) ->
  In (prev_prayer r) order /\ effective_start pt (prev_prayer r) = Some (athanMs r).
Proof.
  induction order as [|p rest IH]; cbn [collect In app]; [intros []|].
  destruct (pt !! p) as [e|] eqn:He.
  - destruct (skipped (Some e)) eqn:Hs.
    + intros Hr. destruct (IH Hr). tauto.
    + intros [<-|Hr]; cbn [prev_prayer athanMs].
      * split; [now left|]. rewrite (effective_start_entry _ _ He), Hs. reflexivity.
      * destruct (IH Hr). tauto.
  - intros Hr. destruct (IH Hr). tauto.
Qed.

Lemma collect_complete order p s :
  In p order -> effective_start pt p = Some s ->
  exists r, In r (collect pt order) /\ prev_prayer r = p /\ athanMs r = s.
Proof.
  induction order as [|p' rest IH]; cbn [collect In]; [intros []|].
  intros Hin Hs.
  destruct (String.eq_dec p' p) as [<-|Hne].
  - destruct (pt !! p') as [e|] eqn:He.
    + rewrite (effective_start_entry _ _ He) in Hs.
      destruct (skipped (Some e)); [discriminate|].
      injection Hs as <-. eexists; split; [now left|]. split; reflexivity.
    + rewrite (effective_start_absent _ He) in Hs. discriminate.
  - destruct Hin as [Heq|Hin]; [contradiction|].
    destruct (IH Hin Hs) as (r & Hr & Hp & Ha). exists r. split; [|tauto].
    destruct (pt !! p'); [destruct (skipped _); [|right]|]; exact Hr.
Qed.

Lemma collect_split order pre r post :
  collect pt order = pre ++ r :: post ->
  exists opre opost, order = opre ++ prev_prayer r :: opost /\ collect pt opre = pre.
Proof.
  revert pre. induction order as [|p rest IH]; cbn [collect In app]; intros pre H.
  - destruct pre; discriminate.
  - destruct (pt !! p) as [e|] eqn:He; [destruct (skipped (Some e)) eqn:Hs|].
    + destruct (IH pre H) as (opre & opost & -> & Hc).
      exists (p :: opre), opost. split; [reflexivity|]. cbn [collect]. now rewrite He, Hs.
    + destruct pre as [|r0 pre].
      * injection H as <- _. exists [], rest. split; reflexivity.
      * injection H as <- H. destruct (IH pre H) as (opre & opost & -> & Hc).
        exists (p :: opre), opost. split; [reflexivity|]. cbn [collect]. now rewrite He, Hs, Hc.
    + destruct (IH pre H) as (opre & opost & -> & Hc).
      exists (p :: opre), opost. split; [reflexivity|]. cbn [collect]. now rewrite He.
Qed.

End Candidates.

(** C3: [getPreviousPrayerMs] returns the prayer whose effective start
    (athan, or iqamah when the athan leg is absent) is the latest one at
    or before the current instant, the first in canonical order among
    prayers tied at that instant; it returns [undefined] exactly when
    every prayer with a present leg starts after the current instant. *)
Theorem getPreviousPrayerMs_latest_started (pt : ParsedPrayerTimestamps) (t : Z) :
  (forall r, getPreviousPrayerMs pt t = Some r ->
     effective_start pt (prev_prayer r) = Some (athanMs r) /\ athanMs r <= t /\
     (forall q s, In q PRAYER_ORDER -> effective_start pt q = Some s -> s <= t ->
        s <= athanMs r) /\
     exists pre post, PRAYER_ORDER = pre ++ prev_prayer r :: post /\
       forall q, In q pre -> effective_start pt q <> Some (athanMs r))
  /\ (getPreviousPrayerMs pt t = None <->
      forall q s, In q PRAYER_ORDER -> effective_start pt q = Some s -> t < s).
Proof.
  unfold getPreviousPrayerMs. rewrite find_sort_desc. split.
  - intros r Hr.
    destruct (latest_started_some _ _ _ Hr) as (Hin & Ht & Hmax & pre & post & Hsplit & Hpre).
    destruct (in_collect pt _ _ Hin) as [_ Heff].
    repeat split; [exact Heff|exact Ht| |].
    + intros q s Hq Hs Hst.
      destruct (collect_complete pt _ _ _ Hq Hs) as (r' & Hr' & _ & <-).
      now apply Hmax.
    + destruct (collect_split pt _ _ _ _ Hsplit) as (opre & opost & Horder & Hc).
      exists opre, opost. split; [exact Horder|].
      intros q Hq Hs.
      destruct (collect_complete pt opre q _ Hq Hs) as (r' & Hr' & _ & Ha).
      rewrite Hc in Hr'. exact (Hpre r' Hr' Ha).
  - rewrite latest_started_none. split.
    + intros Hall q s Hq Hs.
      destruct (collect_complete pt _ _ _ Hq Hs) as (r' & Hr' & _ & <-).
      now apply Hall.
    + intros Hall r Hr. destruct (in_collect pt _ _ Hr) as [Hin Heff].
      exact (Hall _ _ Hin Heff).
Qed.

Section Holding.

Lemma holding_iff (iqamahMs : option Z) (t : Z) (prayer : string)
    (durations : option PrayerHoldingDurations) :
  isWithinPrayerHoldingPeriodMs iqamahMs t (DurPrayer prayer) durations = true <->
  exists iq h, iqamahMs = Some iq /\ truthy iq = true /\
    getPrayerHoldingDuration prayer durations = HoldingNumber h /\ iq <= t < iq + h.
Proof.
  unfold isWithinPrayerHoldingPeriodMs. destruct iqamahMs as [iq|].
  - destruct (truthy iq) eqn:Hq; simpl.
    + unfold holding_window. destruct (getPrayerHoldingDuration prayer durations) as [h|k].
      * rewrite andb_true_iff, Z.leb_le, Z.ltb_lt. split.
        -- intros H. exists iq, h. auto.
        -- intros (iq' & h' & [= <-] & _ & [= <-] & H). exact H.
      * split; [discriminate|]. intros (iq' & h' & _ & _ & [=] & _).
    + split; [discriminate|]. intros (iq' & h & [= <-] & H & _). congruence.
  - split; [discriminate|]. intros (iq & h & [=] & _).
Qed.

End Holding.

(** C5: the holding predicate is the half-open window
    [[iqamah, iqamah + holdingDuration(prayer))] of a present iqamah,
    for a prayer whose holding duration is a number (for a name whose
    lookup yields a member inherited from [Object.prototype] it never
    holds); it holds at the iqamah instant itself (for a positive
    duration) and not at the expiry instant. *)
Theorem holding_half_open (iqamahMs : option Z) (t : Z) (prayer : string)
    (durations : option PrayerHoldingDurations) :
  (isWithinPrayerHoldingPeriodMs iqamahMs t (DurPrayer prayer) durations = true <->
   exists iq h, iqamahMs = Some iq /\ truthy iq = true /\
     getPrayerHoldingDuration prayer durations = HoldingNumber h /\ iq <= t < iq + h)
  /\ (forall iq h, iqamahMs = Some iq -> truthy iq = true ->
        getPrayerHoldingDuration prayer durations = HoldingNumber h -> 0 < h ->
        isWithinPrayerHoldingPeriodMs iqamahMs iq (DurPrayer prayer) durations = true)
  /\ (forall iq h, iqamahMs = Some iq ->
        getPrayerHoldingDuration prayer durations = HoldingNumber h ->
        isWithinPrayerHoldingPeriodMs iqamahMs (iq + h) (DurPrayer prayer) durations = false).
Proof.
  split; [apply holding_iff|]. split.
  - intros iq h -> Hq Hh Hd. apply holding_iff. exists iq, h. repeat split; auto; lia.
  - intros iq h -> Hh. destruct (isWithinPrayerHoldingPeriodMs _ _ _ _) eqn:E; [|reflexivity].
    apply holding_iff in E as (iq' & h' & [= <-] & _ & Hh' & H).
    rewrite Hh in Hh'. injection Hh' as <-. lia.
Qed.





(* ------------------------------------------------------------------ *)
(** ** Timeline builder *)

(** An iqamah record with a second Jumu'ah time but no first one, as the
    iqamah schema allows ([jumuah1] and [jumuah2] are independently
    optional). *)
Definition data_jumuah2_only : PrayerData :=
  mkPrayerData
    (fun _ => Some [AthanEntry.mk "2025-01-03" "06:30" "07:50" "12:30" "14:30" "16:45" "18:15"])
    (fun _ => Some [IqamahEntry.mk "2025-01-03" "06:45" "13:00" "14:45" "18:30" None (Some "13:45")]).

(** C6 (counterexample): without a [jumuah1] time the [jumuah2] row still
    carries the record's [jumuah2] iqamah, so the Jumu'ah legs are not
    all absent. *)
Lemma friday_invariant_counterexample :
  CombinedPrayerTimes.jumuah2 (getCombinedPrayerTimes data_jumuah2_only "2025-01-03")
  = Some (PrayerTime.mk None (Some "13:45")).
Proof. vm_compute. reflexivity. Qed.

(** C6 (amended): when the iqamah record of the date has a [jumuah1] time,
    [dhuhr] has no iqamah, [jumuah1]'s athan is [dhuhr]'s athan and
    [jumuah2] has no athan; otherwise [jumuah1] is fully absent,
    [jumuah2] has no athan and only the record's own [jumuah2] iqamah (if
    any), and [dhuhr] carries the athan and iqamah of the records. *)
Theorem getCombinedPrayerTimes_friday_substitution (data : PrayerData) (d : string) :
  let c := getCombinedPrayerTimes data d in
  let A := findAthanByDate data d in
  let I := findIqamahByDate data d in
  (forall i j, I = Some i -> IqamahEntry.jumuah1 i = Some j ->
     PrayerTime.iqamah (CombinedPrayerTimes.dhuhr c) = None /\
     option_map PrayerTime.athan (CombinedPrayerTimes.jumuah1 c)
       = Some (PrayerTime.athan (CombinedPrayerTimes.dhuhr c)) /\
     option_map PrayerTime.athan (CombinedPrayerTimes.jumuah2 c) = Some None)
  /\ ((forall i, I = Some i -> IqamahEntry.jumuah1 i = None) ->
     CombinedPrayerTimes.jumuah1 c = Some absent_time /\
     CombinedPrayerTimes.jumuah2 c =
       Some (PrayerTime.mk None (match A, I with
                                 | Some _, Some i => IqamahEntry.jumuah2 i
                                 | _, _ => None end)) /\
     CombinedPrayerTimes.dhuhr c =
       PrayerTime.mk (option_map AthanEntry.dhuhr A)
         (match A, I with Some _, Some i => Some (IqamahEntry.dhuhr i) | _, _ => None end)).
Proof.
  cbv zeta. unfold getCombinedPrayerTimes.
  destruct (findAthanByDate data d) as [a|];
    destruct (findIqamahByDate data d) as [i|]; split;
    unfold resolve_prayer, athan_get, iqamah_get, absent_time; simpl.
  - intros i' j [= <-] Hj. rewrite Hj. repeat split.
  - intros Hn. rewrite (Hn i eq_refl). repeat split.
  - intros i' j [=].
  - intros _. repeat split.
  - intros i' j [= <-] Hj. repeat split.
  - intros _. repeat split.
  - intros i' j [=].
  - intros _. repeat split.
Qed.

Lemma getCombinedPrayerTimes_friday_substitution_witness :
  (forall i, findIqamahByDate data_jumuah2_only "2025-01-03" = Some i ->
             IqamahEntry.jumuah1 i = None) /\
  CombinedPrayerTimes.jumuah1 (getCombinedPrayerTimes data_jumuah2_only "2025-01-03")
    = Some absent_time.
Proof.
  assert (H : forall i, findIqamahByDate data_jumuah2_only "2025-01-03" = Some i ->
                        IqamahEntry.jumuah1 i = None)
    by (vm_compute; intros i [= <-]; reflexivity).
  split; [exact H|].
  exact (proj1 (proj2 (getCombinedPrayerTimes_friday_substitution data_jumuah2_only "2025-01-03") H)).
Defined.

(** A year outside 2025-2026 has no data, whatever the data files hold. *)
Lemma findAthanByDate_unsupported (data : PrayerData) (d : string) :
  isSupportedYear (parse_year d) = false -> findAthanByDate data d = None.
Proof. intros H. unfold findAthanByDate, getAthanData. now rewrite H. Qed.

(** C7: for a date without an athan record (for instance a year outside
    the supported range), [getCombinedPrayerTimes] returns (it cannot
    throw: the lookup errors are caught) the all-absent timeline of that
    date; on it both locator families report the next-day [fajr] sentinel
    and no previous prayer. *)
Theorem getCombinedPrayerTimes_missing_record (data : PrayerData) (d : string)
    (parse : string -> Z) (tomorrow : string) (t : Z)
    (Hmissing : findAthanByDate data d = None) :
  let c := getCombinedPrayerTimes data d in
  CombinedPrayerTimes.date c = d /\
  (forall p, In p PRAYER_ORDER -> combined_get c p = Some absent_time) /\
  getNextPrayerMs (parsePrayerTimesToMs parse c tomorrow) t = "fajr" /\
  getPreviousPrayerMs (parsePrayerTimesToMs parse c tomorrow) t = None /\
  next_prayer (getNextPrayer parse c t) = "fajr" /\
  getPreviousPrayer parse c t = None.
Proof.
  cbv zeta. unfold getCombinedPrayerTimes. rewrite Hmissing.
  split; [reflexivity|]. split.
  - intros p Hp. repeat (destruct Hp as [<-|Hp]; [reflexivity|]). destruct Hp.
  - repeat split; reflexivity.
Qed.

Lemma getCombinedPrayerTimes_missing_record_witness :
  findAthanByDate data_jumuah2_only "2024-01-15" = None /\
  getNextPrayerMs (parsePrayerTimesToMs date_time_utc
                     (getCombinedPrayerTimes data_jumuah2_only "2024-01-15") "2024-01-16")
                  (date_time_utc "2024-01-15T12:00") = "fajr".
Proof.
  assert (H : findAthanByDate data_jumuah2_only "2024-01-15" = None)
    by (apply findAthanByDate_unsupported; reflexivity).
  split; [exact H|].
  exact (proj1 (proj2 (proj2 (getCombinedPrayerTimes_missing_record data_jumuah2_only
           "2024-01-15" date_time_utc "2024-01-16" (date_time_utc "2024-01-15T12:00") H)))).
Defined.

(* ------------------------------------------------------------------ *)
(** ** The timestamp locators against the Date-based ones *)

Section Refinement.

Variable parse : string -> Z.
Variable c : CombinedPrayerTimes.t.
Variable tomorrow : string.

Local Abbreviation P := (parsePrayerTimesToMs parse c tomorrow).
Local Abbreviation today := (CombinedPrayerTimes.date c).

Lemma parsed_lookup p :
  In p PRAYER_ORDER ->
  P !! p = if String.eqb p "dhuhr" && jumuah1Active c then None
           else option_map (parse_details parse today) (combined_get c p).
Proof.
  intros Hp. destruct c as [dt f sr dh j1 j2 a m i].
  destruct j1 as [[j1a [j1q|]]|]; destruct j2 as [j2d|];
    repeat (destruct Hp as [<-|Hp]; [reflexivity|]); destruct Hp.
Qed.

Lemma friday_view_get p :
  combined_get (friday_view c) p =
    if String.eqb p "dhuhr" && jumuah1Active c then Some absent_time else combined_get c p.
Proof.
  unfold friday_view. destruct (jumuah1Active c); [|now rewrite andb_false_r].
  rewrite andb_true_r. destruct c. unfold combined_get; cbn [CombinedPrayerTimes.fajr
    CombinedPrayerTimes.sunrise CombinedPrayerTimes.dhuhr CombinedPrayerTimes.jumuah1
    CombinedPrayerTimes.jumuah2 CombinedPrayerTimes.asr CombinedPrayerTimes.maghrib
    CombinedPrayerTimes.isha].
  destruct (String.eqb_spec p "dhuhr") as [->|Hne]; [reflexivity|].
  repeat match goal with |- context [if ?b then _ else _] => destruct b end; reflexivity.
Qed.

Lemma friday_view_date : CombinedPrayerTimes.date (friday_view c) = today.
Proof. unfold friday_view. now destruct (jumuah1Active c). Qed.

Lemma str_truthy_true s : s <> "" -> str_truthy s = true.
Proof. intros H. unfold str_truthy. destruct (String.eqb_spec s ""); [contradiction|reflexivity]. Qed.

Lemma truthy_true z : z <> 0 -> truthy z = true.
Proof. intros H. unfold truthy. destruct (Z.eqb_spec z 0); [contradiction|reflexivity]. Qed.

Lemma entry_next_equiv t p d :
  leg_ok parse today (PrayerTime.athan d) -> leg_ok parse today (PrayerTime.iqamah d) ->
  (let e := parse_details parse today d in
   has_present_leg e &&
   ((truthy (athan e) && (t <? athan e)) ||
    (match iqamah e with Some q => truthy q && (t <? q) | None => false end)))
  = next_entry_test parse today t (p, d).
Proof.
  destruct d as [[a|] [q|]]; cbn [leg_ok PrayerTime.athan PrayerTime.iqamah];
    intros Ha Hq; unfold parse_details, next_entry_test, date_of, has_present_leg, nullish,
    parseTimeToMs, str_truthy_opt, truthy_opt; cbn [PrayerTime.athan PrayerTime.iqamah athan iqamah snd].
  - destruct Ha as [Ha1 Ha2], Hq as [Hq1 Hq2].
    rewrite (str_truthy_true _ Ha1), (str_truthy_true _ Hq1).
    rewrite (truthy_true _ Ha2), (truthy_true _ Hq2). simpl.
    destruct (t <? _); reflexivity.
  - destruct Ha as [Ha1 Ha2]. rewrite (str_truthy_true _ Ha1), (truthy_true _ Ha2). simpl.
    destruct (t <? _); reflexivity.
  - destruct Hq as [Hq1 Hq2]. rewrite (str_truthy_true _ Hq1), (truthy_true _ Hq2). simpl.
    destruct (t <? _); reflexivity.
  - reflexivity.
Qed.

Lemma next_pointwise (Hok : timeline_ok parse c) t p :
  In p PRAYER_ORDER ->
  next_qualifies P t p =
    match combined_get (friday_view c) p with
    | Some d => next_entry_test parse today t (p, d)
    | None => false
    end.
Proof.
  intros Hp. unfold next_qualifies. rewrite (parsed_lookup p Hp), friday_view_get.
  destruct (String.eqb p "dhuhr" && jumuah1Active c); [reflexivity|].
  destruct (combined_get c p) as [d|] eqn:G; [|reflexivity].
  destruct (Hok p d G) as [Ha Hq]. exact (entry_next_equiv t p d Ha Hq).
Qed.

Lemma find_entries_fst (get : string -> option PrayerTime.t)
    (f : string * PrayerTime.t -> bool) l :
  option_map fst
    (List.find f (flat_map (fun p => match get p with Some d => [(p, d)] | None => [] end) l)) =
  List.find (fun p => match get p with Some d => f (p, d) | None => false end) l.
Proof.
  induction l as [|p l IH]; simpl; [reflexivity|].
  destruct (get p) as [d|]; simpl; [|exact IH].
  destruct (f (p, d)); [reflexivity|exact IH].
Qed.

Lemma find_ext_in {A} (f g : A -> bool) l :
  (forall x, In x l -> f x = g x) -> List.find f l = List.find g l.
Proof.
  induction l as [|x l IH]; simpl; intros H; [reflexivity|].
  rewrite (H x (or_introl eq_refl)), IH by (intros y Hy; apply H; now right). reflexivity.
Qed.

Lemma next_refines (Hok : timeline_ok parse c) t :
  getNextPrayerMs P t = next_prayer (getNextPrayer parse (friday_view c) t).
Proof.
  unfold getNextPrayerMs, getNextPrayer. rewrite next_loop_find, friday_view_date.
  rewrite (find_ext_in _ (fun p => match combined_get (friday_view c) p with
                                   | Some d => next_entry_test parse today t (p, d)
                                   | None => false end) _
             (fun p Hp => next_pointwise Hok t p Hp)).
  pose proof (find_entries_fst (combined_get (friday_view c))
                (next_entry_test parse today t) PRAYER_ORDER) as E.
  unfold entries.
  destruct (List.find (next_entry_test parse today t) (flat_map _ PRAYER_ORDER))
    as [[p d]|] eqn:F; cbn [option_map fst] in E; rewrite <- E; reflexivity.
Qed.

End Refinement.

Section SortAsc.

Definition asc (a b : PreviousPrayerResult) : Prop := pr_athan a <= pr_athan b.

Lemma in_insert_asc x s z : In z (insert_asc x s) <-> z = x \/ In z s.
Proof.
  induction s as [|y s IH]; simpl.
  - intuition congruence.
  - destruct (0 <? pr_athan x - pr_athan y); simpl; [rewrite IH|]; intuition congruence.
Qed.

Lemma in_sort_asc l z : In z (sort_asc l) <-> In z l.
Proof.
  induction l as [|x l IH]; simpl; [tauto|]. rewrite in_insert_asc, IH. intuition congruence.
Qed.

Lemma insert_asc_sorted x s :
  StronglySorted asc s -> StronglySorted asc (insert_asc x s).
Proof.
  induction s as [|y s IH]; simpl; intros Hs.
  - repeat constructor.
  - inversion Hs as [|? ? Hs' Hy]; subst.
    destruct (0 <? pr_athan x - pr_athan y) eqn:E.
    + apply Z.ltb_lt in E. constructor; [now apply IH|].
      apply List.Forall_forall. intros z Hz. apply in_insert_asc in Hz as [->|Hz].
      * unfold asc; lia.
      * now apply (proj1 (List.Forall_forall _ _) Hy).
    + apply Z.ltb_ge in E. constructor; [exact Hs|].
      constructor; [unfold asc; lia|].
      apply List.Forall_forall. intros z Hz.
      pose proof (proj1 (List.Forall_forall _ _) Hy z Hz). unfold asc in *; lia.
Qed.

Lemma sort_asc_sorted l : StronglySorted asc (sort_asc l).
Proof. induction l; simpl; [constructor|]. now apply insert_asc_sorted. Qed.

Lemma StronglySorted_snoc {A} (R : A -> A -> Prop) l x :
  StronglySorted R l -> (forall y, In y l -> R y x) -> StronglySorted R (l ++ [x]).
Proof.
  induction l as [|a l IH]; simpl; intros Hs Hx; [repeat constructor|].
  inversion Hs as [|? ? Hs' Ha]; subst. constructor.
  - apply IH; [exact Hs'|]. intros y Hy. apply Hx. now right.
  - apply Forall_app. split; [exact Ha|]. constructor; [apply Hx; now left|constructor].
Qed.

Lemma StronglySorted_rev {A} (R : A -> A -> Prop) l :
  StronglySorted R l -> StronglySorted (fun a b => R b a) (rev l).
Proof.
  induction l as [|a l IH]; simpl; intros Hs; [constructor|].
  inversion Hs as [|? ? Hs' Ha]; subst.
  apply StronglySorted_snoc; [now apply IH|].
  intros y Hy. apply in_rev in Hy. exact (proj1 (List.Forall_forall _ _) Ha y Hy).
Qed.

(** [find] of the first started entry on a list in decreasing order of
    [athan] returns a latest started entry. *)
Lemma find_started_desc t l r :
  StronglySorted (fun a b => asc b a) l ->
  List.find (fun p => pr_athan p <=? t) l = Some r ->
  In r l /\ pr_athan r <= t /\ (forall x, In x l -> pr_athan x <= t -> pr_athan x <= pr_athan r).
Proof.
  induction l as [|a l IH]; simpl; intros Hs Hf; [discriminate|].
  inversion Hs as [|? ? Hs' Ha]; subst.
  destruct (pr_athan a <=? t) eqn:E.
  - injection Hf as <-. apply Z.leb_le in E. repeat split; [now left|exact E|].
    intros x [<-|Hx] _; [lia|]. exact (proj1 (List.Forall_forall _ _) Ha x Hx).
  - destruct (IH Hs' Hf) as (Hin & Hrt & Hmax). repeat split; [now right|exact Hrt|].
    intros x [<-|Hx] Hxt; [apply Z.leb_gt in E; lia|]. now apply Hmax.
Qed.

End SortAsc.

Section PreviousMs.

Lemma in_collect_entry (pt : ParsedPrayerTimestamps) order r :
  In r (collect pt order) -> exists e, pt !! prev_prayer r = Some e /\ iqamahMs r = iqamah e.
Proof.
  induction order as [|p rest IH]; cbn [collect In]; [intros []|].
  destruct (pt !! p) as [e|] eqn:He; [destruct (skipped (Some e))|]; try exact IH.
  intros [<-|Hr]; [|now apply IH]. exists e. split; [exact He|reflexivity].
Qed.

Lemma prev_ms_some pt t r :
  getPreviousPrayerMs pt t = Some r ->
  In (prev_prayer r) PRAYER_ORDER /\ effective_start pt (prev_prayer r) = Some (athanMs r) /\
  athanMs r <= t /\
  (forall q s, In q PRAYER_ORDER -> effective_start pt q = Some s -> s <= t -> s <= athanMs r) /\
  exists e, pt !! prev_prayer r = Some e /\ iqamahMs r = iqamah e.
Proof.
  unfold getPreviousPrayerMs. rewrite find_sort_desc. intros Hr.
  destruct (latest_started_some _ _ _ Hr) as (Hin & Ht & Hmax & _).
  destruct (in_collect pt _ _ Hin) as [Hp Heff].
  repeat split; [exact Hp|exact Heff|exact Ht| |exact (in_collect_entry _ _ _ Hin)].
  intros q s Hq Hs Hst.
  destruct (collect_complete pt _ _ _ Hq Hs) as (r' & Hr' & _ & <-). now apply Hmax.
Qed.

Lemma prev_ms_none pt t :
  getPreviousPrayerMs pt t = None ->
  forall q s, In q PRAYER_ORDER -> effective_start pt q = Some s -> t < s.
Proof.
  unfold getPreviousPrayerMs. rewrite find_sort_desc, latest_started_none.
  intros Hall q s Hq Hs.
  destruct (collect_complete pt _ _ _ Hq Hs) as (r' & Hr' & _ & <-). now apply Hall.
Qed.

End PreviousMs.

Section RefinementPrevious.

Variable parse : string -> Z.
Variable c : CombinedPrayerTimes.t.
Variable tomorrow : string.

Local Abbreviation P := (parsePrayerTimesToMs parse c tomorrow).
Local Abbreviation today := (CombinedPrayerTimes.date c).
Local Abbreviation D :=
  (map (prev_entry_map parse today) (List.filter prev_entry_filter (entries (friday_view c)))).

Lemma in_candidates r' :
  In r' D -> exists p d, In p PRAYER_ORDER /\ combined_get (friday_view c) p = Some d /\
    prev_entry_filter (p, d) = true /\ r' = prev_entry_map parse today (p, d).
Proof.
  intros H. apply in_map_iff in H as (x & <- & Hx). apply filter_In in Hx as [Hx Hf].
  unfold entries in Hx. apply in_flat_map in Hx as (p & Hp & Hx).
  destruct (combined_get (friday_view c) p) as [d|] eqn:G; [|destruct Hx].
  destruct Hx as [<-|[]]. exists p, d. tauto.
Qed.

Lemma candidates_complete p d :
  In p PRAYER_ORDER -> combined_get (friday_view c) p = Some d ->
  prev_entry_filter (p, d) = true -> In (prev_entry_map parse today (p, d)) D.
Proof.
  intros Hp G Hf. apply in_map. apply filter_In. split; [|exact Hf].
  unfold entries. apply in_flat_map. exists p. split; [exact Hp|]. rewrite G. now left.
Qed.

Lemma effective_start_date (Hok : timeline_ok parse c) p d :
  In p PRAYER_ORDER -> combined_get (friday_view c) p = Some d ->
  effective_start P p =
    if prev_entry_filter (p, d) then Some (pr_athan (prev_entry_map parse today (p, d)))
    else None.
Proof.
  intros Hp G. unfold effective_start. rewrite (parsed_lookup parse c tomorrow p Hp).
  rewrite friday_view_get in G.
  destruct (String.eqb p "dhuhr" && jumuah1Active c); [injection G as <-; reflexivity|].
  rewrite G. destruct (Hok p d G) as [Ha Hq]. cbn [option_map].
  destruct d as [[a|] [q|]]; cbn [leg_ok PrayerTime.athan PrayerTime.iqamah] in Ha, Hq;
    unfold parse_details, prev_entry_filter, prev_entry_map, nullish, parseTimeToMs,
    str_truthy_opt, template; cbn [PrayerTime.athan PrayerTime.iqamah athan iqamah snd pr_athan].
  - destruct Ha as [Ha1 Ha2]. rewrite (str_truthy_true _ Ha1), (truthy_true _ Ha2). reflexivity.
  - destruct Ha as [Ha1 Ha2]. rewrite (str_truthy_true _ Ha1), (truthy_true _ Ha2). reflexivity.
  - destruct Hq as [Hq1 Hq2]. rewrite (str_truthy_true _ Hq1), (truthy_true _ Hq2). reflexivity.
  - reflexivity.
Qed.

Lemma effective_start_missing p :
  In p PRAYER_ORDER -> combined_get (friday_view c) p = None -> effective_start P p = None.
Proof.
  intros Hp G. unfold effective_start. rewrite (parsed_lookup parse c tomorrow p Hp).
  rewrite friday_view_get in G.
  destruct (String.eqb p "dhuhr" && jumuah1Active c); [discriminate|]. now rewrite G.
Qed.

Lemma iqamah_date p d e :
  In p PRAYER_ORDER -> combined_get (friday_view c) p = Some d -> P !! p = Some e ->
  forall x, iqamah e = Some x -> x = pr_iqamah (prev_entry_map parse today (p, d)).
Proof.
  intros Hp G He. rewrite (parsed_lookup parse c tomorrow p Hp) in He.
  rewrite friday_view_get in G.
  destruct (String.eqb p "dhuhr" && jumuah1Active c); [discriminate|].
  rewrite G in He. injection He as <-.
  destruct d as [a [q|]]; unfold parse_details, str_truthy_opt, parseTimeToMs;
    cbn [PrayerTime.iqamah iqamah]; [|discriminate].
  destruct (str_truthy q); [|discriminate]. intros x [= <-]. reflexivity.
Qed.

Lemma prev_refines (Hok : timeline_ok parse c) t
  (Hdistinct : forall p q s, In p PRAYER_ORDER -> In q PRAYER_ORDER ->
     effective_start P p = Some s -> effective_start P q = Some s -> p = q) :
  match getPreviousPrayerMs P t, getPreviousPrayer parse (friday_view c) t with
  | Some r, Some r' =>
      prev_prayer r = pr_prayer r' /\ athanMs r = pr_athan r' /\
      (forall q, iqamahMs r = Some q -> q = pr_iqamah r')
  | None, None => True
  | _, _ => False
  end.
Proof.
  assert (Hsorted : StronglySorted (fun a b => asc b a) (rev (sort_asc D)))
    by apply StronglySorted_rev, sort_asc_sorted.
  assert (Hmem : forall x, In x (rev (sort_asc D)) <-> In x D)
    by (intros x; now rewrite <- in_rev, in_sort_asc).
  unfold getPreviousPrayer. rewrite friday_view_date.
  destruct (getPreviousPrayerMs P t) as [r|] eqn:Hm.
  - destruct (prev_ms_some _ _ _ Hm) as (Hp & Heff & Hrt & Hmax & e & He & Hiq).
    destruct (combined_get (friday_view c) (prev_prayer r)) as [d|] eqn:G;
      [|rewrite (effective_start_missing _ Hp G) in Heff; discriminate].
    rewrite (effective_start_date Hok _ _ Hp G) in Heff.
    destruct (prev_entry_filter (prev_prayer r, d)) eqn:Hf; [|discriminate].
    assert (Heff0 : pr_athan (prev_entry_map parse today (prev_prayer r, d)) = athanMs r)
      by congruence.
    clear Heff. rename Heff0 into Heff.
    pose proof (candidates_complete _ _ Hp G Hf) as Hc.
    destruct (List.find (fun p => pr_athan p <=? t) (rev (sort_asc D))) as [r'|] eqn:Hd.
    + destruct (find_started_desc _ _ _ Hsorted Hd) as (Hin' & Hr't & Hmax').
      apply Hmem, in_candidates in Hin' as (p' & d' & Hp' & G' & Hf' & ->).
      pose proof (effective_start_date Hok _ _ Hp' G') as Heff'. rewrite Hf' in Heff'.
      assert (Hle1 : athanMs r <= pr_athan (prev_entry_map parse today (p', d'))).
      { rewrite <- Heff. apply Hmax'; [now apply Hmem|lia]. }
      assert (Hle2 : pr_athan (prev_entry_map parse today (p', d')) <= athanMs r)
        by (apply (Hmax p' _ Hp' Heff' Hr't)).
      assert (Heq : athanMs r = pr_athan (prev_entry_map parse today (p', d'))) by lia.
      rewrite <- Heq in Heff'.
      assert (Hpp : prev_prayer r = p').
      { apply (Hdistinct _ _ (athanMs r) Hp Hp'); [|exact Heff'].
        rewrite (effective_start_date Hok _ _ Hp G), Hf. now rewrite Heff. }
      subst p'. rewrite G in G'. injection G' as <-.
      split; [reflexivity|]. split; [exact Heq|].
      intros q Hq. rewrite Hiq in Hq. exact (iqamah_date _ _ _ Hp G He q Hq).
    + apply Hmem, (List.find_none _ _ Hd) in Hc.
      apply Z.leb_gt in Hc. lia.
  - destruct (List.find (fun p => pr_athan p <=? t) (rev (sort_asc D))) as [r'|] eqn:Hd;
      [|exact I].
    destruct (find_started_desc _ _ _ Hsorted Hd) as (Hin' & Hr't & _).
    apply Hmem, in_candidates in Hin' as (p' & d' & Hp' & G' & Hf' & ->).
    pose proof (effective_start_date Hok _ _ Hp' G') as Heff'. rewrite Hf' in Heff'.
    pose proof (prev_ms_none _ _ Hm _ _ Hp' Heff'). lia.
Qed.

Lemma prev_starts (Hok : timeline_ok parse c) t :
  match getPreviousPrayerMs P t, getPreviousPrayer parse (friday_view c) t with
  | Some r, Some r' => athanMs r = pr_athan r'
  | None, None => True
  | _, _ => False
  end.
Proof.
  assert (Hsorted : StronglySorted (fun a b => asc b a) (rev (sort_asc D)))
    by apply StronglySorted_rev, sort_asc_sorted.
  assert (Hmem : forall x, In x (rev (sort_asc D)) <-> In x D)
    by (intros x; now rewrite <- in_rev, in_sort_asc).
  unfold getPreviousPrayer. rewrite friday_view_date.
  destruct (getPreviousPrayerMs P t) as [r|] eqn:Hm.
  - destruct (prev_ms_some _ _ _ Hm) as (Hp & Heff & Hrt & Hmax & e & He & Hiq).
    destruct (combined_get (friday_view c) (prev_prayer r)) as [d|] eqn:G;
      [|rewrite (effective_start_missing _ Hp G) in Heff; discriminate].
    rewrite (effective_start_date Hok _ _ Hp G) in Heff.
    destruct (prev_entry_filter (prev_prayer r, d)) eqn:Hf; [|discriminate].
    assert (Heff0 : pr_athan (prev_entry_map parse today (prev_prayer r, d)) = athanMs r)
      by congruence.
    clear Heff. rename Heff0 into Heff.
    pose proof (candidates_complete _ _ Hp G Hf) as Hc.
    destruct (List.find (fun p => pr_athan p <=? t) (rev (sort_asc D))) as [r'|] eqn:Hd.
    + destruct (find_started_desc _ _ _ Hsorted Hd) as (Hin' & Hr't & Hmax').
      apply Hmem, in_candidates in Hin' as (p' & d' & Hp' & G' & Hf' & ->).
      pose proof (effective_start_date Hok _ _ Hp' G') as Heff'. rewrite Hf' in Heff'.
      assert (Hle1 : athanMs r <= pr_athan (prev_entry_map parse today (p', d'))).
      { rewrite <- Heff. apply Hmax'; [now apply Hmem|lia]. }
      assert (Hle2 : pr_athan (prev_entry_map parse today (p', d')) <= athanMs r)
        by (apply (Hmax p' _ Hp' Heff' Hr't)).
      lia.
    + apply Hmem, (List.find_none _ _ Hd) in Hc.
      apply Z.leb_gt in Hc. lia.
  - destruct (List.find (fun p => pr_athan p <=? t) (rev (sort_asc D))) as [r'|] eqn:Hd;
      [|exact I].
    destruct (find_started_desc _ _ _ Hsorted Hd) as (Hin' & Hr't & _).
    apply Hmem, in_candidates in Hin' as (p' & d' & Hp' & G' & Hf' & ->).
    pose proof (effective_start_date Hok _ _ Hp' G') as Heff'. rewrite Hf' in Heff'.
    pose proof (prev_ms_none _ _ Hm _ _ Hp' Heff'). lia.
Qed.

End RefinementPrevious.

Ltac leg_ok_tac :=
  cbn [leg_ok PrayerTime.athan PrayerTime.iqamah CombinedPrayerTimes.date];
  repeat split; try exact I; try discriminate; vm_compute; discriminate.

Ltac timeline_ok_tac :=
  let p := fresh "p" in let d := fresh "d" in let H := fresh "H" in
  intros p d H; unfold combined_get in H;
  cbn [CombinedPrayerTimes.fajr CombinedPrayerTimes.sunrise CombinedPrayerTimes.dhuhr
       CombinedPrayerTimes.jumuah1 CombinedPrayerTimes.jumuah2 CombinedPrayerTimes.asr
       CombinedPrayerTimes.maghrib CombinedPrayerTimes.isha] in H;
  repeat (destruct (String.eqb p _); [injection H as <-; leg_ok_tac|]); discriminate.

(** On a Friday whose timeline has [jumuah1] and [jumuah2], at 12:00
    the Date-based [getNextPrayer] on the timeline names [dhuhr] (athan
    12:30 still ahead) while [getNextPrayerMs] on the timestamps parsed
    from the same timeline names [jumuah1]: [parsePrayerTimesToMs]
    leaves [dhuhr] out on such days. *)
Lemma getNextPrayer_friday_dhuhr :
  timeline_ok date_time_utc fri /\
  getNextPrayerMs (parsePrayerTimesToMs date_time_utc fri "2026-01-17")
    (date_time_utc "2026-01-16T12:00") = "jumuah1" /\
  next_prayer (getNextPrayer date_time_utc fri (date_time_utc "2026-01-16T12:00")) = "dhuhr".
Proof.
  split; [unfold fri; timeline_ok_tac|].
  split; vm_compute; reflexivity.
Qed.

(** C10 (counterexample): on the Friday [fri_tie], where [jumuah1] and
    [jumuah2] both start at 12:30, at 13:00 [getPreviousPrayerMs] names
    [jumuah1] (iqamah 13:00), the first of the tied prayers, while
    [getPreviousPrayer] names [jumuah2] (iqamah 12:30), the last one:
    its stable ascending sort keeps the tied entries in order and the
    [reverse] puts the last one first. This holds on the timeline and
    on the view without [dhuhr] alike. *)
Lemma getPreviousPrayer_tie_counterexample :
  timeline_ok date_time_utc fri_tie /\
  option_map prev_prayer
    (getPreviousPrayerMs (parsePrayerTimesToMs date_time_utc fri_tie "2026-01-17")
       (date_time_utc "2026-01-16T13:00")) = Some "jumuah1" /\
  option_map iqamahMs
    (getPreviousPrayerMs (parsePrayerTimesToMs date_time_utc fri_tie "2026-01-17")
       (date_time_utc "2026-01-16T13:00")) = Some (Some (date_time_utc "2026-01-16T13:00")) /\
  option_map pr_prayer
    (getPreviousPrayer date_time_utc (friday_view fri_tie) (date_time_utc "2026-01-16T13:00")) =
    Some "jumuah2" /\
  option_map pr_iqamah
    (getPreviousPrayer date_time_utc (friday_view fri_tie) (date_time_utc "2026-01-16T13:00")) =
    Some (date_time_utc "2026-01-16T12:30") /\
  option_map pr_prayer
    (getPreviousPrayer date_time_utc fri_tie (date_time_utc "2026-01-16T13:00")) =
    Some "jumuah2".
Proof.
  split; [unfold fri_tie; timeline_ok_tac|].
  repeat split; vm_compute; reflexivity.
Qed.

(** C10: for every well-formed timeline (each present leg a non-empty
    time string with a non-zero instant) and every instant, the
    timestamp locators on [parsePrayerTimesToMs] agree with the
    Date-based ones on the timeline as [parsePrayerTimesToMs] sees it
    ([friday_view]: [dhuhr] left out when [jumuah1] has an iqamah):
    [getNextPrayerMs] equals [getNextPrayer(...).prayer];
    [getPreviousPrayerMs] and [getPreviousPrayer] are both absent or
    both present with the same athan instant; and, when no two prayers
    share an effective start, they name the same prayer and, when
    [getPreviousPrayerMs] has an iqamah instant, the same iqamah
    instant. *)
Theorem locators_refinement (parse : string -> Z) (c : CombinedPrayerTimes.t)
    (tomorrow : string) (t : Z) (Hok : timeline_ok parse c) :
  getNextPrayerMs (parsePrayerTimesToMs parse c tomorrow) t =
    next_prayer (getNextPrayer parse (friday_view c) t) /\
  match getPreviousPrayerMs (parsePrayerTimesToMs parse c tomorrow) t,
        getPreviousPrayer parse (friday_view c) t with
  | Some r, Some r' => athanMs r = pr_athan r'
  | None, None => True
  | _, _ => False
  end /\
  ((forall p q s, In p PRAYER_ORDER -> In q PRAYER_ORDER ->
      effective_start (parsePrayerTimesToMs parse c tomorrow) p = Some s ->
      effective_start (parsePrayerTimesToMs parse c tomorrow) q = Some s -> p = q) ->
   match getPreviousPrayerMs (parsePrayerTimesToMs parse c tomorrow) t,
         getPreviousPrayer parse (friday_view c) t with
   | Some r, Some r' =>
       prev_prayer r = pr_prayer r' /\ athanMs r = pr_athan r' /\
       (forall q, iqamahMs r = Some q -> q = pr_iqamah r')
   | None, None => True
   | _, _ => False
   end).
Proof.
  split; [exact (next_refines parse c tomorrow Hok t)|].
  split; [exact (prev_starts parse c tomorrow Hok t)|].
  intros Hdistinct. exact (prev_refines parse c tomorrow Hok t Hdistinct).
Qed.

Lemma locators_refinement_witness :
  getNextPrayerMs (parsePrayerTimesToMs date_time_utc fri "2026-01-17")
    (date_time_utc "2026-01-16T13:10") =
    next_prayer (getNextPrayer date_time_utc (friday_view fri) (date_time_utc "2026-01-16T13:10")) /\
  match getPreviousPrayerMs (parsePrayerTimesToMs date_time_utc fri "2026-01-17")
          (date_time_utc "2026-01-16T13:10"),
        getPreviousPrayer date_time_utc (friday_view fri) (date_time_utc "2026-01-16T13:10") with
  | Some r, Some r' =>
      prev_prayer r = pr_prayer r' /\ athanMs r = pr_athan r' /\
      (forall q, iqamahMs r = Some q -> q = pr_iqamah r')
  | None, None => True
  | _, _ => False
  end.
Proof.
  assert (Hok : timeline_ok date_time_utc fri) by (unfold fri; timeline_ok_tac).
  destruct (locators_refinement date_time_utc fri "2026-01-17"
              (date_time_utc "2026-01-16T13:10") Hok) as (Hnext & _ & Hprev).
  split; [exact Hnext|]. apply Hprev.
  intros p q s Hp Hq H1 H2. cbn [PRAYER_ORDER In] in Hp, Hq.
  repeat destruct Hp as [<-|Hp]; repeat destruct Hq as [<-|Hq]; try contradiction;
    try reflexivity; vm_compute in H1, H2; congruence.
Defined.

(* ------------------------------------------------------------------ *)
(** ** The countdown decision *)

Lemma countdown_target_core parse today tf (pt : ParsedPrayerTimestamps) key d i t :
  pt !! key = Some (parse_details parse today d) ->
  pt !! "isha" = Some (parse_details parse today i) ->
  pt !! "tomorrowFajr" = Some (mkPrayerMs tf None) ->
  leg_ok parse today (PrayerTime.athan d) -> leg_ok parse today (PrayerTime.iqamah d) ->
  leg_ok parse today (PrayerTime.athan i) -> leg_ok parse today (PrayerTime.iqamah i) ->
  (PrayerTime.athan d <> None \/ PrayerTime.iqamah d <> None) ->
  (PrayerTime.athan i <> None \/ PrayerTime.iqamah i <> None) ->
  countdown_target pt key t =
    spec_decide
      (match instant_of parse today (PrayerTime.iqamah i) with
       | Some q => Some q
       | None => instant_of parse today (PrayerTime.athan i)
       end)
      (instant_of parse today (PrayerTime.athan d))
      (instant_of parse today (PrayerTime.iqamah d)) tf t.
Proof.
  intros Hk Hi Hf Ha Hq Hia Hiq Hd Hisha.
  unfold countdown_target. rewrite Hk, Hi, Hf.
  destruct d as [[a|] [q|]]; destruct i as [[ia|] [iq|]];
    cbn [PrayerTime.athan PrayerTime.iqamah leg_ok] in *;
    try (exfalso; destruct Hd as [Hd|Hd]; apply Hd; reflexivity);
    try (exfalso; destruct Hisha as [Hx|Hx]; apply Hx; reflexivity);
    repeat match goal with H : _ /\ _ |- _ => destruct H end;
    unfold skipped, parse_details, fallback_athan, instant_of, spec_decide, nullish,
      parseTimeToMs, str_truthy_opt, truthy_opt;
    cbn [athan iqamah PrayerTime.athan PrayerTime.iqamah];
    repeat match goal with H : ?x <> "" |- _ => rewrite (str_truthy_true x H); clear H end;
    repeat match goal with H : ?x <> 0 |- _ => rewrite (truthy_true x H); clear H end;
    cbn [negb andb orb]; rewrite ?andb_true_r;
    repeat (match goal with |- context [if ?b then _ else _] =>
              lazymatch b with true => fail | false => fail | _ => destruct b end end;
            cbn [negb andb orb]);
    reflexivity.
Qed.

(** C4 (counterexample): on 2026-01-13 at 20:00, after Isha, the
    effect counts down to 06:31 on 2026-01-14 (the day's own fajr
    athan time on tomorrow's date), while tomorrow's fajr athan is
    06:30. *)
Lemma countdown_tomorrow_fajr_counterexample :
  let c := getCombinedPrayerTimes two_days "2026-01-13" in
  let P := parsePrayerTimesToMs date_time_utc c "2026-01-14" in
  let t := date_time_utc "2026-01-13T20:00" in
  let tomorrowFajrAthan :=
    match instant_of date_time_utc "2026-01-14"
            (PrayerTime.athan (CombinedPrayerTimes.fajr (getCombinedPrayerTimes two_days "2026-01-14")))
    with Some a => a | None => 0 end in
  countdown_target P (getNextPrayerMs P t) t <>
    spec_countdown_target date_time_utc (friday_view c) tomorrowFajrAthan (getNextPrayerMs P t) t.
Proof. vm_compute. intros H. discriminate H. Qed.

(** C4: on a well-formed timeline whose Isha has a present leg, for a
    next prayer that has a present leg in the timeline as the
    timestamps see it, the effect's target is chosen first-match: at or
    after the effective Isha instant (iqamah, else athan) the target is
    the day's own fajr athan time on tomorrow's date, to athan; else,
    when the next prayer's athan (its iqamah if the athan is absent) has
    passed and its iqamah is present, its iqamah, to iqamah; else its
    athan (its iqamah if the athan is absent), to athan. *)
Theorem countdown_target_decision (parse : string -> Z) (c : CombinedPrayerTimes.t)
    (tomorrow key : string) (t : Z) (Hok : timeline_ok parse c)
    (Hkey : In key PRAYER_ORDER)
    (Hnext : exists d, combined_get (friday_view c) key = Some d /\
               (PrayerTime.athan d <> None \/ PrayerTime.iqamah d <> None))
    (Hisha : PrayerTime.athan (CombinedPrayerTimes.isha c) <> None \/
             PrayerTime.iqamah (CombinedPrayerTimes.isha c) <> None) :
  countdown_target (parsePrayerTimesToMs parse c tomorrow) key t =
    spec_countdown_target parse (friday_view c)
      (parseTimeToMs parse tomorrow (PrayerTime.athan (CombinedPrayerTimes.fajr c))) key t.
Proof.
  destruct Hnext as (d & Hd & Hleg).
  unfold spec_countdown_target. rewrite Hd, friday_view_date.
  replace (CombinedPrayerTimes.isha (friday_view c)) with (CombinedPrayerTimes.isha c)
    by (unfold friday_view; now destruct (jumuah1Active c)).
  pose proof Hd as Hd'. rewrite friday_view_get in Hd'.
  destruct (String.eqb key "dhuhr" && jumuah1Active c) eqn:Fr.
  { injection Hd' as <-. exfalso. destruct Hleg as [H|H]; apply H; reflexivity. }
  destruct (Hok key d Hd') as [Ha Hq].
  destruct (Hok "isha" (CombinedPrayerTimes.isha c) eq_refl) as [Hia Hiq].
  apply (countdown_target_core parse _ _ _ key d (CombinedPrayerTimes.isha c) t);
    try assumption.
  - rewrite (parsed_lookup parse c tomorrow key Hkey), Fr, Hd'. reflexivity.
  - rewrite (parsed_lookup parse c tomorrow "isha" ltac:(simpl; tauto)). reflexivity.
  - unfold parsePrayerTimesToMs. apply lookup_insert_eq.
Qed.

Lemma countdown_target_decision_witness :
  countdown_target (parsePrayerTimesToMs date_time_utc fri "2026-01-17") "jumuah2"
    (date_time_utc "2026-01-16T13:50") =
  spec_countdown_target date_time_utc (friday_view fri)
    (parseTimeToMs date_time_utc "2026-01-17" (PrayerTime.athan (CombinedPrayerTimes.fajr fri)))
    "jumuah2" (date_time_utc "2026-01-16T13:50").
Proof.
  apply countdown_target_decision.
  - unfold fri; timeline_ok_tac.
  - simpl; tauto.
  - eexists. split; [reflexivity|]. right; discriminate.
  - left; discriminate.
Defined.

(* ------------------------------------------------------------------ *)
(** ** The countdown display *)

Lemma pad_two_digits v : 0 <= v < 100 -> padStart2 (js_String v) = two_digits v.
Proof.
  intros Hv. assert (Hk : exists k, v = Z.of_nat k /\ (k < 100)%nat)
    by (exists (Z.to_nat v); split; lia).
  destruct Hk as (k & -> & Hk).
  do 100 (destruct k as [|k]; [reflexivity|]). lia.
Qed.

Lemma countdown_holding_update p t s : countdown (holding_update p t s) = countdown s.
Proof.
  unfold holding_update.
  destruct (negb (showPrayerNow s) && _).
  - cbn. destruct (prayerNowTimeoutRef s); reflexivity.
  - destruct (showPrayerNow s && _); reflexivity.
Qed.

(** C8: when the effect runs with target [target] at [t], the remaining
    time [floor((target - t) / 1000)] is the number of whole seconds to
    the target, and the countdown shown is [formatTimeToGo] of it plus
    one; [formatTimeToGo n] for [n >= 0] is the hours [floor(n / 3600)]
    (not reduced modulo 24, at least two digits), then the minutes and
    the seconds of [n = 3600 h + 60 m + s] zero-padded to two digits, all
    separated by [:]; below 100 hours every field has exactly two digits;
    [0], [3661] and [90000] give ["00:00:00"], ["01:01:01"] and
    ["25:00:00"]. *)
Theorem countdown_display (pt : ParsedPrayerTimestamps) (key : string)
    (prev : option PreviousPrayerMsResult) (t : Z) (s : HookState) (target : Z) (toIqamah : bool)
    (Htarget : countdown_target pt key t = Some (target, toIqamah))
    (Hmounted : mounted s = true) :
  (1000 * ((target - t) / 1000) <= target - t < 1000 * ((target - t) / 1000 + 1) /\
   countdown (hook_step (EffectRun pt key prev t) s) = formatTimeToGo ((target - t) / 1000 + 1)) /\
  (forall n, 0 <= n ->
     formatTimeToGo n =
       (padStart2 (js_String (n / 3600)) ++ ":" ++ two_digits ((n mod 3600) / 60) ++ ":" ++
        two_digits (n mod 60))%string /\
     n = 3600 * (n / 3600) + 60 * ((n mod 3600) / 60) + n mod 60 /\
     0 <= (n mod 3600) / 60 < 60 /\ 0 <= n mod 60 < 60) /\
  (forall n, 0 <= n < 360000 ->
     formatTimeToGo n =
       (two_digits (n / 3600) ++ ":" ++ two_digits ((n mod 3600) / 60) ++ ":" ++
        two_digits (n mod 60))%string) /\
  formatTimeToGo 0 = "00:00:00" /\ formatTimeToGo 3661 = "01:01:01" /\
  formatTimeToGo 90000 = "25:00:00".
Proof.
  assert (Hfmt : forall n, 0 <= n ->
     formatTimeToGo n =
       (padStart2 (js_String (n / 3600)) ++ ":" ++ two_digits ((n mod 3600) / 60) ++ ":" ++
        two_digits (n mod 60))%string /\
     n = 3600 * (n / 3600) + 60 * ((n mod 3600) / 60) + n mod 60 /\
     0 <= (n mod 3600) / 60 < 60 /\ 0 <= n mod 60 < 60).
  { intros n Hn.
    pose proof (Z.mod_pos_bound n 3600 ltac:(lia)) as B1.
    pose proof (Z.mod_pos_bound n 60 ltac:(lia)) as B2.
    assert (Bm : 0 <= (n mod 3600) / 60 < 60).
    { split; [apply Z.div_pos; lia|]. apply Z.div_lt_upper_bound; lia. }
    split; [|split; [|split; assumption]].
    - unfold formatTimeToGo. rewrite !Z.rem_mod_nonneg by lia.
      rewrite (pad_two_digits ((n mod 3600) / 60)), (pad_two_digits (n mod 60)) by lia.
      reflexivity.
    - pose proof (Z.div_mod n 3600 ltac:(lia)) as E1.
      pose proof (Z.div_mod (n mod 3600) 60 ltac:(lia)) as E2.
      rewrite Z.mod_mod_divide in E2 by (exists 60; reflexivity). lia. }
  split; [|split; [exact Hfmt|split]].
  - split.
    + pose proof (Z.div_mod (target - t) 1000 ltac:(lia)).
      pose proof (Z.mod_pos_bound (target - t) 1000 ltac:(lia)). lia.
    + cbn [hook_step]. rewrite Hmounted. unfold effect_body. rewrite Htarget.
      destruct prev as [p|]; cbn [countdown set_registered];
        [rewrite countdown_holding_update|]; reflexivity.
  - intros n Hn. destruct (Hfmt n ltac:(lia)) as [-> _].
    rewrite pad_two_digits; [reflexivity|].
    split; [apply Z.div_pos; lia|]. apply Z.div_lt_upper_bound; lia.
  - split; [reflexivity|split; reflexivity].
Qed.

Lemma countdown_display_witness :
  countdown (hook_step
    (EffectRun (parsePrayerTimesToMs date_time_utc (getCombinedPrayerTimes two_days "2026-01-13")
                  "2026-01-14") "dhuhr" None (date_time_utc "2026-01-13T12:30"))
    initial_hook_state) = formatTimeToGo (900 + 1).
Proof.
  exact (proj2 (proj1 (countdown_display
           (parsePrayerTimesToMs date_time_utc (getCombinedPrayerTimes two_days "2026-01-13")
              "2026-01-14") "dhuhr" None (date_time_utc "2026-01-13T12:30") initial_hook_state
           (date_time_utc "2026-01-13T12:45") true ltac:(vm_compute; reflexivity) eq_refl))).
Defined.

(* ------------------------------------------------------------------ *)
(** ** The holding timer *)

(** The hook's timer bookkeeping: every outstanding timeout is the one
    held by the ref, there is at most one, none is outstanding when no
    cleanup is registered, and none is registered once unmounted. *)
Definition timer_inv (s : HookState) : Prop :=
  (forall e, In e (timers s) -> prayerNowTimeoutRef s = Some (fst e)) /\
  (length (timers s) <= 1)%nat /\
  (registered_cleanup s = false -> timers s = []) /\
  (mounted s = false -> registered_cleanup s = false).

Lemma filter_all_eq (l : list (nat * Z)) id :
  (forall e, In e l -> fst e = id) ->
  List.filter (fun e => negb (Nat.eqb (fst e) id)) l = [].
Proof.
  induction l as [|e l IH]; simpl; intros H; [reflexivity|].
  rewrite (H e (or_introl eq_refl)), Nat.eqb_refl. simpl.
  apply IH. intros x Hx. apply H. now right.
Qed.

Lemma cleanup_timers s : timer_inv s ->
  timers (effect_cleanup s) = [] /\ registered_cleanup (effect_cleanup s) = false /\
  mounted (effect_cleanup s) = mounted s.
Proof.
  intros (Hown & _ & Hreg & _). unfold effect_cleanup.
  destruct (registered_cleanup s) eqn:R; [|repeat split; auto].
  destruct (prayerNowTimeoutRef s) as [id|] eqn:Hr; cbn; repeat split; try reflexivity.
  - apply filter_all_eq. intros e He. specialize (Hown e He). congruence.
  - destruct (timers s) as [|e l] eqn:Ht; [reflexivity|].
    specialize (Hown e (or_introl eq_refl)). congruence.
Qed.

Lemma holding_update_timers p t s : timers s = [] ->
  timers (holding_update p t s) = [] \/
  (exists d, timers (holding_update p t s) = [(next_timer_id s, d)] /\
             prayerNowTimeoutRef (holding_update p t s) = Some (next_timer_id s)).
Proof.
  intros H. unfold holding_update.
  destruct (negb (showPrayerNow s) && _).
  - right. cbn. destruct (prayerNowTimeoutRef s); cbn; rewrite H; eexists; split; reflexivity.
  - left. destruct (showPrayerNow s && _); exact H.
Qed.

Lemma holding_update_mounted p t s : mounted (holding_update p t s) = mounted s.
Proof.
  unfold holding_update. destruct (negb (showPrayerNow s) && _).
  - cbn. destruct (prayerNowTimeoutRef s); reflexivity.
  - destruct (showPrayerNow s && _); reflexivity.
Qed.

Lemma effect_body_inv pt key prev t s :
  timers s = [] -> mounted s = true -> timer_inv (effect_body pt key prev t s).
Proof.
  intros Ht Hm. unfold effect_body.
  destruct (countdown_target pt key t) as [[target toIq]|].
  - set (s1 := setCountdown _ (setIsCountingToIqamah toIq s)).
    assert (Ht1 : timers s1 = []) by exact Ht.
    assert (Hm1 : mounted s1 = true) by exact Hm.
    assert (H : timers (match prev with Some p => holding_update p t s1 | None => s1 end) = [] \/
      exists id d, timers (match prev with Some p => holding_update p t s1 | None => s1 end) =
                     [(id, d)] /\
        prayerNowTimeoutRef (match prev with Some p => holding_update p t s1 | None => s1 end) =
          Some id).
    { destruct prev as [p|]; [|now left].
      destruct (holding_update_timers p t s1 Ht1) as [H|(d & H1 & H2)]; [now left|].
      right. exists (next_timer_id s1), d. now split. }
    assert (Hm2 : mounted (match prev with Some p => holding_update p t s1 | None => s1 end) = true)
      by (destruct prev; [rewrite holding_update_mounted|]; exact Hm1).
    unfold timer_inv; cbn [timers prayerNowTimeoutRef registered_cleanup mounted set_registered].
    destruct H as [H|(id & d & H1 & H2)].
    + rewrite H. refine (conj _ (conj _ (conj _ _)));
        [intros e []|cbn; lia|discriminate|rewrite Hm2; discriminate].
    + rewrite H1, H2. refine (conj _ (conj _ (conj _ _))).
      * intros e [<-|[]]. reflexivity.
      * cbn; lia.
      * discriminate.
      * rewrite Hm2; discriminate.
  - unfold timer_inv; cbn. rewrite Ht. refine (conj _ (conj _ (conj _ _)));
      [intros e []|cbn; lia|intros _; reflexivity|rewrite Hm; discriminate].
Qed.

Lemma timer_inv_step e s : timer_inv s -> timer_inv (hook_step e s).
Proof.
  intros Hinv. destruct e as [pt key prev t|id|]; cbn [hook_step].
  - destruct (mounted s) eqn:Hm; [|exact Hinv].
    destruct (cleanup_timers s Hinv) as (Ht & _ & Hm').
    apply effect_body_inv; [exact Ht|congruence].
  - unfold timer_fires.
    destruct (existsb (fun e => Nat.eqb (fst e) id) (timers s)) eqn:Ex; [|exact Hinv].
    destruct Hinv as (Hown & Hlen & Hreg & Hmnt).
    apply existsb_exists in Ex as (x & Hx & Hxid). apply Nat.eqb_eq in Hxid.
    assert (Hempty : List.filter (fun e => negb (Nat.eqb (fst e) id)) (timers s) = []).
    { apply filter_all_eq. intros e He. pose proof (Hown e He). pose proof (Hown x Hx).
      congruence. }
    unfold timer_inv; cbn. rewrite Hempty. refine (conj _ (conj _ (conj _ _)));
      [intros e []|cbn; lia|intros _; reflexivity|exact Hmnt].
  - destruct (cleanup_timers s Hinv) as (Ht & Hr & _).
    unfold timer_inv; cbn [set_mounted timers prayerNowTimeoutRef registered_cleanup mounted].
    rewrite Ht, Hr. refine (conj _ (conj _ (conj _ _)));
      [intros e []|cbn; lia|intros _; reflexivity|intros _; reflexivity].
Qed.

Lemma timer_inv_trace evs s : timer_inv s -> forall s', In s' (hook_trace s evs) -> timer_inv s'.
Proof.
  revert s. induction evs as [|e evs IH]; intros s Hs s' Hin; cbn in Hin.
  - destruct Hin as [<-|[]]. exact Hs.
  - destruct Hin as [<-|Hin]; [exact Hs|]. exact (IH _ (timer_inv_step e s Hs) s' Hin).
Qed.

Lemma timer_inv_run evs s : timer_inv s -> timer_inv (hook_run s evs).
Proof.
  revert s. induction evs as [|e evs IH]; intros s Hs; [exact Hs|].
  exact (IH _ (timer_inv_step e s Hs)).
Qed.

Lemma unmounted_step e s : mounted s = false -> mounted (hook_step e s) = false.
Proof.
  intros Hm. destruct e as [pt key prev t|id|]; cbn [hook_step].
  - now rewrite Hm.
  - unfold timer_fires. now destruct (existsb _ _).
  - reflexivity.
Qed.

Lemma unmounted_run evs s : mounted s = false -> mounted (hook_run s evs) = false.
Proof.
  revert s. induction evs as [|e evs IH]; intros s Hm; [exact Hm|].
  exact (IH _ (unmounted_step e s Hm)).
Qed.

Lemma unmount_run evs s : In Unmount evs -> mounted (hook_run s evs) = false.
Proof.
  revert s. induction evs as [|e evs IH]; intros s Hin; [destruct Hin|].
  destruct Hin as [->|Hin].
  - change (mounted (hook_run (hook_step Unmount s) evs) = false).
    apply unmounted_run. reflexivity.
  - exact (IH _ Hin).
Qed.

Lemma timer_inv_initial : timer_inv initial_hook_state.
Proof.
  unfold timer_inv; cbn. refine (conj _ (conj _ (conj _ _)));
    [intros e []|lia|intros _; reflexivity|discriminate].
Qed.

(** C1: whatever the sequence of effect runs, timer expiries and
    unmounting, every state the hook passes through has at most one
    outstanding expiry timer, and it is the one held by
    [prayerNowTimeoutRef] (so arming a new one has cancelled the
    previous one); once the component has unmounted no timer is
    outstanding. *)
Theorem hook_timer_discipline (evs : list HookEvent) :
  (forall s, In s (hook_trace initial_hook_state evs) ->
     (length (timers s) <= 1)%nat /\
     forall e, In e (timers s) -> prayerNowTimeoutRef s = Some (fst e)) /\
  (In Unmount evs -> timers (hook_run initial_hook_state evs) = []).
Proof.
  split.
  - intros s Hs. destruct (timer_inv_trace evs _ timer_inv_initial s Hs) as (Hown & Hlen & _).
    split; assumption.
  - intros Hin. destruct (timer_inv_run evs _ timer_inv_initial) as (_ & _ & Hreg & Hmnt).
    apply Hreg, Hmnt, unmount_run, Hin.
Qed.

Lemma hook_timer_discipline_witness :
  In Unmount ten_cycles /\
  timers (hook_run initial_hook_state ten_cycles) = [] /\
  existsb (fun s => Nat.eqb (length (timers s)) 1) (hook_trace initial_hook_state ten_cycles) = true /\
  next_timer_id (hook_run initial_hook_state ten_cycles) = 11%nat.
Proof.
  assert (H : In Unmount ten_cycles) by (unfold ten_cycles; apply in_or_app; right; now left).
  split; [exact H|]. split; [exact (proj2 (hook_timer_discipline ten_cycles) H)|].
  split; vm_compute; reflexivity.
Defined.

(* ------------------------------------------------------------------ *)
(** ** Formatting, display and date helpers *)

Lemma rem_nonneg_mod a b : 0 <= a -> 0 < b -> Z.rem a b = a mod b.
Proof. intros; apply Z.rem_mod_nonneg; lia. Qed.

(** X1: [formatFriendlyCountdown] collapses negative inputs to ["0s"];
    otherwise it shows hours, minutes and seconds from one hour on,
    minutes and seconds from one minute on, and bare seconds below. *)
Theorem formatFriendlyCountdown_parts (seconds : Z) :
  formatFriendlyCountdown seconds =
    if seconds <? 0 then "0s"
    else if 3600 <=? seconds then
      (js_String (seconds / 3600) ++ "h " ++ js_String (seconds mod 3600 / 60) ++ "m " ++
       js_String (seconds mod 60) ++ "s")%string
    else if 60 <=? seconds then
      (js_String (seconds / 60) ++ "m " ++ js_String (seconds mod 60) ++ "s")%string
    else (js_String seconds ++ "s")%string.
Proof.
  unfold formatFriendlyCountdown.
  destruct (Z.ltb_spec seconds 0) as [Hneg|Hnn]; [reflexivity|].
  rewrite !rem_nonneg_mod by lia.
  destruct (Z.leb_spec 3600 seconds) as [Hh|Hh].
  - replace (0 <? seconds / 3600) with true; [reflexivity|].
    symmetry; apply Z.ltb_lt. apply Z.div_str_pos; lia.
  - replace (0 <? seconds / 3600) with false
      by (symmetry; apply Z.ltb_ge; rewrite Z.div_small; lia).
    rewrite (Z.mod_small seconds 3600) by lia.
    destruct (Z.leb_spec 60 seconds) as [Hm|Hm].
    + replace (0 <? seconds / 60) with true; [reflexivity|].
      symmetry; apply Z.ltb_lt. apply Z.div_str_pos; lia.
    + replace (0 <? seconds / 60) with false
        by (symmetry; apply Z.ltb_ge; rewrite Z.div_small; lia).
      rewrite Z.mod_small by lia. reflexivity.
Qed.

Definition digit_chars : list ascii := ["0";"1";"2";"3";"4";"5";"6";"7";"8";"9"]%char.

Lemma char_between_cases lo hi c :
  char_between lo hi c = true ->
  In c (List.filter (char_between lo hi) digit_chars) \/ is_digit c = false.
Proof.
  intros H. destruct c as [[] [] [] [] [] [] [] []];
    try (right; reflexivity); left; apply List.filter_In; split; auto; cbn; tauto.
Qed.

Lemma is_digit_cases c : is_digit c = true -> In c digit_chars.
Proof.
  intros H. destruct c as [[] [] [] [] [] [] [] []]; try discriminate H; cbn; tauto.
Qed.

Ltac ascii_cases :=
  let c := fresh "c" in let H := fresh "H" in
  intros c H; destruct c as [[] [] [] [] [] [] [] []]; try discriminate H; cbn; tauto.

Lemma char_01 c : char_between "0" "1" c = true -> In c ["0";"1"]%char.
Proof. revert c; ascii_cases. Qed.
Lemma char_03 c : char_between "0" "3" c = true -> In c ["0";"1";"2";"3"]%char.
Proof. revert c; ascii_cases. Qed.
Lemma char_05_not_colon c : char_between "0" "5" c = true -> Ascii.eqb c ":" = false.
Proof. intros H; destruct c as [[] [] [] [] [] [] [] []]; try discriminate H; reflexivity. Qed.
Lemma digit_not_colon c : is_digit c = true -> Ascii.eqb c ":" = false.
Proof. intros H; destruct c as [[] [] [] [] [] [] [] []]; try discriminate H; reflexivity. Qed.

Lemma split_time h1 h2 m1 m2 :
  Ascii.eqb h1 ":" = false -> Ascii.eqb h2 ":" = false ->
  Ascii.eqb m1 ":" = false -> Ascii.eqb m2 ":" = false ->
  js_split ":" (String h1 (String h2 (String ":" (String m1 (String m2 ""))))) =
    [String h1 (String h2 ""); String m1 (String m2 "")].
Proof. intros H1 H2 H3 H4. simpl. rewrite H1, H2, H3, H4. reflexivity. Qed.

(** X2: on a time string accepted by [timeStringSchema] ([HH:MM], hours
    00-23), [formatTime] shows the hour on the 12-hour clock (12 for 00
    and 12, no leading zero) followed by [":"] and the original
    minutes. *)
Theorem formatTime_schema_time (s : string) (Hs : time_string_ok s = true) :
  digits_at s 0 2 < 24 /\
  formatTime (Some s) =
    (js_String (if (digits_at s 0 2 mod 12 =? 0)%Z then 12 else digits_at s 0 2 mod 12) ++
     ":" ++ substring 3 2 s)%string.
Proof.
  destruct s as [|h1 [|h2 [|col [|m1 [|m2 [|x r]]]]]]; cbn -[char_between is_digit] in Hs;
    try discriminate Hs.
  apply andb_prop in Hs as [Hs Hm2]. apply andb_prop in Hs as [Hs Hm1].
  apply andb_prop in Hs as [H12 Hc]. apply Ascii.eqb_eq in Hc. subst col.
  pose proof (char_05_not_colon _ Hm1) as E1. pose proof (digit_not_colon _ Hm2) as E2.
  unfold formatTime, convertTo12HourFormat.
  apply orb_prop in H12 as [H12|H12]; apply andb_prop in H12 as [Ha Hb].
  - apply char_01 in Ha. apply is_digit_cases in Hb.
    destruct Ha as [<-|[<-|[]]]; repeat (destruct Hb as [<-|Hb]; [
      rewrite split_time by (reflexivity || assumption); split; vm_compute; reflexivity|]);
      destruct Hb.
  - apply Ascii.eqb_eq in Ha. subst h1. apply char_03 in Hb.
    repeat (destruct Hb as [<-|Hb]; [
      rewrite split_time by (reflexivity || assumption); split; vm_compute; reflexivity|]);
      destruct Hb.
Qed.

(** X3: [getPrayerDisplayState]: the current prayer's row is ["now"] at
    every instant; without a current prayer (missing or empty) no row
    is ["past"]; a row without a start time is never ["past"]; and once
    a row is ["past"] it stays ["past"] at every later instant. *)
Theorem getPrayerDisplayState_props (parse : string -> Z) (prayer : string)
    (c : CombinedPrayerTimes.t) :
  (forall t, getPrayerDisplayState parse prayer c t (Some prayer) = DisplayNow) /\
  (forall t cp, cp = None \/ cp = Some "" ->
     getPrayerDisplayState parse prayer c t cp <> DisplayPast) /\
  (forall t cp d, combined_get c prayer = Some d ->
     str_truthy_opt (nullish (PrayerTime.athan d) (PrayerTime.iqamah d)) = false ->
     getPrayerDisplayState parse prayer c t cp <> DisplayPast) /\
  (forall t t' cp, t <= t' ->
     getPrayerDisplayState parse prayer c t cp = DisplayPast ->
     getPrayerDisplayState parse prayer c t' cp = DisplayPast).
Proof.
  unfold getPrayerDisplayState.
  refine (conj _ (conj _ (conj _ _))).
  - intros t. now rewrite String.eqb_refl.
  - intros t cp [->| ->]; [destruct (combined_get c prayer) as [d|]; [|discriminate]|].
    + destruct (negb _); [discriminate|]. cbn. discriminate.
    + destruct (String.eqb "" prayer); [discriminate|].
      destruct (combined_get c prayer) as [d|]; [|discriminate].
      destruct (negb _); [discriminate|]. cbn. discriminate.
  - intros t cp d Hd Hs. destruct (match cp with Some p => String.eqb p prayer | None => false end);
      [discriminate|]. rewrite Hd, Hs. discriminate.
  - intros t t' cp Htt.
    destruct (match cp with Some p => String.eqb p prayer | None => false end); [discriminate|].
    destruct (combined_get c prayer) as [d|]; [|discriminate].
    destruct (negb _); [discriminate|].
    destruct (str_truthy_opt cp); [|discriminate]. cbn.
    destruct (Z.leb_spec (parse (CombinedPrayerTimes.date c ++ "T" ++
                 template (nullish (PrayerTime.athan d) (PrayerTime.iqamah d)))%string) t);
      [|discriminate].
    intros _. replace (_ <=? t') with true; [reflexivity|]. symmetry; apply Z.leb_le; lia.
Qed.

(** X4: the Date-based [isWithinPrayerHoldingPeriod], applied with
    per-prayer durations to the [previousPrayer] object the page-state
    hook builds, agrees with the hook's own timestamp check when the
    previous prayer has a non-zero iqamah instant; when it has none,
    the Date-based check measures the window from the athan instant
    while the timestamp check is always false. *)
Theorem isWithinPrayerHoldingPeriod_hook_object (r : PreviousPrayerMsResult) (t : Z)
    (durations : option PrayerHoldingDurations) :
  (forall q, iqamahMs r = Some q -> q <> 0 ->
     isWithinPrayerHoldingPeriod (previousPrayer_of (Some r)) t (HoldFlag true) durations =
     isWithinPrayerHoldingPeriodMs (iqamahMs r) t (DurPrayer (prev_prayer r)) durations) /\
  (iqamahMs r = None ->
     isWithinPrayerHoldingPeriod (previousPrayer_of (Some r)) t (HoldFlag true) durations =
       holding_window (athanMs r) t (getPrayerHoldingDuration (prev_prayer r) durations) /\
     isWithinPrayerHoldingPeriodMs (iqamahMs r) t (DurPrayer (prev_prayer r)) durations = false) /\
  isWithinPrayerHoldingPeriod (previousPrayer_of None) t (HoldFlag true) durations = false.
Proof.
  destruct r as [p a [q|]]; cbn [previousPrayer_of isWithinPrayerHoldingPeriod
    isWithinPrayerHoldingPeriodMs iqamahMs athanMs prev_prayer pr_iqamah pr_prayer];
    refine (conj _ (conj _ eq_refl)).
  - intros q' [= <-] Hq. now rewrite (truthy_true q Hq).
  - discriminate.
  - discriminate.
  - intros _. split; reflexivity.
Qed.

Lemma truthy_false z : truthy z = false -> z = 0.
Proof. unfold truthy. destruct (Z.eqb_spec z 0); [auto|discriminate]. Qed.

(** X5: before the effective Isha instant, the target the page-state
    hook's timer effect counts down to, for the next prayer found by
    [getNextPrayerMs], is never in the past: it is at or after the
    current instant (strictly after when counting to an iqamah), so the
    number of seconds passed to [formatTimeToGo] is at least 1. *)
Theorem countdown_target_not_past (pt : ParsedPrayerTimestamps) (t target : Z)
    (toIqamah : bool) (Ht : 0 <= t) (Hbefore : t < ishaTimeMs pt)
    (Htarget : countdown_target pt (getNextPrayerMs pt t) t = Some (target, toIqamah)) :
  t <= target /\ (toIqamah = true -> t < target) /\
  1 <= calculateCountdownSeconds target t + 1.
Proof.
  assert (Hgoal : t <= target /\ (toIqamah = true -> t < target)).
  2:{ split; [exact (proj1 Hgoal)|]. split; [exact (proj2 Hgoal)|].
      unfold calculateCountdownSeconds. pose proof (Z.div_pos (target - t) 1000). lia. }
  unfold getNextPrayerMs in Htarget. rewrite next_loop_find in Htarget.
  destruct (List.find (next_qualifies pt t) PRAYER_ORDER) as [p|] eqn:Hf.
  - apply find_some in Hf as [_ Hq]. unfold next_qualifies in Hq.
    unfold countdown_target in Htarget.
    destruct (pt !! p) as [[a q]|] eqn:Hp; [|discriminate Hq].
    fold (ishaTimeMs pt) in Htarget.
    replace (ishaTimeMs pt <=? t) with false in Htarget
      by (symmetry; apply Z.leb_gt; exact Hbefore).
    unfold skipped, fallback_athan, has_present_leg in *; cbn [athan iqamah] in *.
    destruct (truthy a) eqn:Ta; destruct q as [q|]; cbn [truthy_opt] in *;
      try destruct (truthy q) eqn:Tq; cbn [negb andb orb] in *;
      try discriminate Htarget; try discriminate Hq;
      repeat match goal with
      | H : context [?x <? ?y] |- _ => destruct (Z.ltb_spec x y); cbn [andb orb] in *
      end;
      try discriminate Hq;
      injection Htarget as <- <-; split; try lia; intros; try discriminate; try lia.
  - pose proof (find_none _ _ Hf "isha" ltac:(cbn; tauto)) as Hi.
    unfold next_qualifies in Hi. unfold ishaTimeMs in Hbefore.
    destruct (pt !! "isha") as [[a q]|]; [|lia].
    unfold has_present_leg in Hi; cbn [athan iqamah] in *.
    destruct q as [q|]; cbn [truthy_opt] in Hi.
    + destruct (truthy q) eqn:Tq; [|apply truthy_false in Tq; lia].
      rewrite orb_true_r in Hi. cbn [andb] in Hi.
      apply orb_false_elim in Hi as [_ Hi]. apply Z.ltb_ge in Hi. lia.
    + destruct (truthy a) eqn:Ta; [|apply truthy_false in Ta; lia].
      cbn [orb andb] in Hi. rewrite orb_false_r in Hi. apply Z.ltb_ge in Hi. lia.
Qed.

(** X6: the page-state flags: [hasIqamah] is true exactly when the date
    has both an athan and an iqamah record; [jumuah1HasIqamah] exactly
    when it has an athan record and an iqamah record with a [jumuah1]
    time; and [jumuah1HasIqamah] is true exactly when the pre-parsed
    timestamps leave [dhuhr] out. *)
Theorem page_flags (data : PrayerData) (dateString : string) (parse : string -> Z)
    (tomorrow : string) :
  let c := getCombinedPrayerTimes data dateString in
  (hasIqamah c = true <->
     findAthanByDate data dateString <> None /\ findIqamahByDate data dateString <> None) /\
  (jumuah1HasIqamah c = true <->
     findAthanByDate data dateString <> None /\
     exists i, findIqamahByDate data dateString = Some i /\ IqamahEntry.jumuah1 i <> None) /\
  (parsePrayerTimesToMs parse c tomorrow !! "dhuhr" = None <-> jumuah1HasIqamah c = true).
Proof.
  intros c. refine (conj _ (conj _ _)).
  - subst c. unfold getCombinedPrayerTimes.
    destruct (findAthanByDate data dateString) as [a|];
      destruct (findIqamahByDate data dateString) as [i|]; cbn;
      split; intros H; try discriminate H; try (destruct H; congruence); auto;
      split; discriminate.
  - subst c. unfold getCombinedPrayerTimes.
    destruct (findAthanByDate data dateString) as [a|];
      destruct (findIqamahByDate data dateString) as [i|]; cbn.
    + destruct (IqamahEntry.jumuah1 i) as [j|] eqn:Hj; cbn; split; intros H.
      * split; [discriminate|]. exists i. split; [reflexivity|]. congruence.
      * reflexivity.
      * discriminate H.
      * destruct H as [_ [i' [[= <-] Hi]]]. congruence.
    + split; [discriminate|]. intros [_ [i' [Hi _]]]. discriminate Hi.
    + split; [discriminate|]. intros [H _]. congruence.
    + split; [discriminate|]. intros [H _]. congruence.
  - rewrite (parsed_lookup parse c tomorrow "dhuhr" ltac:(cbn; tauto)).
    change (jumuah1HasIqamah c) with (jumuah1Active c). cbn [String.eqb andb].
    destruct (jumuah1Active c); split; (reflexivity || discriminate).
Qed.

Fixpoint no_char (c : ascii) (s : string) : bool :=
  match s with
  | EmptyString => true
  | String x rest => negb (Ascii.eqb x c) && no_char c rest
  end.

Lemma split_head (c : ascii) (a b : string) :
  no_char c a = true ->
  match js_split c (a ++ String c b) with p :: _ => p | [] => "" end = a.
Proof.
  induction a as [|x a IH]; intros H.
  - cbn [append]. simpl js_split. rewrite (Ascii.eqb_refl c). reflexivity.
  - cbn [no_char] in H. apply andb_prop in H as [Hx Ha].
    apply negb_true_iff in Hx. cbn [append]. simpl js_split. rewrite Hx.
    specialize (IH Ha). destruct (js_split c (a ++ String c b)) as [|p ps]; cbn in IH |- *;
      congruence.
Qed.

Fixpoint all_days (f : Z -> bool) (start : Z) (n : nat) : bool :=
  match n with
  | O => true
  | S k => f start && all_days f (start + 1) k
  end.

Lemma all_days_spec f n : forall start d,
  all_days f start n = true -> start <= d < start + Z.of_nat n -> f d = true.
Proof.
  induction n as [|n IH]; intros start d H Hd; [lia|].
  cbn [all_days] in H. apply andb_prop in H as [H1 H2].
  destruct (Z.eq_dec d start) as [->|Hne]; [exact H1|].
  apply (IH (start + 1)); [exact H2|lia].
Qed.

Lemma getDateString_day t :
  no_char "T" (iso_date_part (t / 86400000)) = true ->
  getDateString t = iso_date_part (t / 86400000).
Proof. intros H. unfold getDateString, toISOString. apply split_head, H. Qed.

Definition day_2025 : Z := 20089.

Definition day_ok (d : Z) : bool :=
  no_char "T" (iso_date_part d) &&
  (date_time_utc (iso_date_part d ++ "T00:00") =? d * 86400000).

Definition supported_day_ok (d : Z) : bool :=
  day_ok d && date_string_ok (iso_date_part d) &&
  isSupportedYear (parse_year (iso_date_part d)).

Lemma supported_days_checked : all_days supported_day_ok day_2025 730 = true.
Proof. vm_compute. reflexivity. Qed.

(** X7: for every instant of the supported years 2025 and 2026,
    [getDateString] gives a string accepted by [dateStringSchema] whose
    year is supported, naming the calendar day (UTC) that contains the
    instant, and [getDateStringFromDate] agrees with [getDateString]. *)
Theorem getDateString_supported (t : Z)
    (Hlo : date_time_utc "2025-01-01T00:00" <= t) (Hhi : t < date_time_utc "2027-01-01T00:00") :
  date_string_ok (getDateString t) = true /\
  isSupportedYear (parse_year (getDateString t)) = true /\
  date_time_utc (getDateString t ++ "T00:00") <= t <
    date_time_utc (getDateString t ++ "T00:00") + 86400000 /\
  getDateStringFromDate t = getDateString t.
Proof.
  assert (Hfrom : getDateStringFromDate t = getDateString t) by reflexivity.
  rewrite Hfrom.
  replace (date_time_utc "2025-01-01T00:00") with (day_2025 * 86400000) in Hlo
    by (vm_compute; reflexivity).
  replace (date_time_utc "2027-01-01T00:00") with ((day_2025 + 730) * 86400000) in Hhi
    by (vm_compute; reflexivity).
  set (d := t / 86400000).
  assert (Hd : day_2025 <= d < day_2025 + Z.of_nat 730).
  { subst d. split.
    - apply Z.div_le_lower_bound; lia.
    - apply Z.div_lt_upper_bound; lia. }
  assert (Ht : d * 86400000 <= t < d * 86400000 + 86400000).
  { subst d. pose proof (Z.mul_div_le t 86400000 ltac:(lia)).
    pose proof (Z.mod_pos_bound t 86400000 ltac:(lia)).
    pose proof (Z.div_mod t 86400000 ltac:(lia)). lia. }
  pose proof (all_days_spec _ _ _ _ supported_days_checked Hd) as Hok.
  unfold supported_day_ok, day_ok in Hok.
  apply andb_prop in Hok as [Hok Hyear]. apply andb_prop in Hok as [Hok Hfmt].
  apply andb_prop in Hok as [HT1 Hm1].
  apply Z.eqb_eq in Hm1.
  rewrite (getDateString_day t HT1). fold d.
  rewrite Hm1. refine (conj Hfmt (conj Hyear (conj _ eq_refl))); lia.
Qed.

(* ------------------------------------------------------------------ *)
(** ** The simulated clock *)

Section SimulatedClock.
Import SimulatedTime.

Lemma run_app p s l1 l2 : run p s (l1 ++ l2) = run p (run p s l1) l2.
Proof. unfold run. apply fold_left_app. Qed.

Lemma run_cons p s e l : run p s (e :: l) = run p (step p e s) l.
Proof. reflexivity. Qed.

Definition sim_inv (p : bool) (s : t) : Prop :=
  1 <= speed s <= 3600 /\ speedRef s = speed s /\ isSimulatingRef s = isSimulating s /\
  (isSimulating s = true <-> simulatedTimeRef s <> None).

Lemma sim_inv_step p e s : sim_inv p s -> sim_inv p (step p e s).
Proof.
  intros (Hsp & Href & Hsim & Hnone).
  destruct e; simpl;
    unfold setSimulatedTime, setSpeed, jumpForward, reset, effect_run, tick;
    destruct p; simpl; try (repeat split; simpl; auto; lia);
    unfold sim_inv; simpl.
  all: try (repeat split; simpl; try lia; try congruence; intuition congruence).
  all: try (destruct (isSimulatingRef s) eqn:E1, (simulatedTimeRef s) eqn:E2; simpl;
            try destruct (_ <? 500); simpl; repeat split; try lia; try congruence;
            intuition congruence).
Qed.

Lemma interval_bounds p s : 1 <= speed s -> 16 <= interval p s <= 1000.
Proof.
  intros H. unfold interval. destruct (negb p && isSimulating s); [|lia].
  assert (0 <= 1000 / speed s <= 1000).
  { split; [apply Z.div_pos; lia|]. apply Z.div_le_upper_bound; nia. }
  lia.
Qed.

(** X8: Whatever the controls and ticks, the speed stays within [1, 3600],
    the refs mirror the state ([speedRef] = [speed], [isSimulatingRef] =
    [isSimulating]), a simulated time is held exactly while simulating,
    and the tick interval stays between 16 ms and 1 s. *)
Theorem useSimulatedTime_invariant (isProduction : bool) (now0 : Z) (evs : list event) :
  let s := run isProduction (initial now0) evs in
  1 <= speed s <= 3600 /\ speedRef s = speed s /\ isSimulatingRef s = isSimulating s /\
  (isSimulating s = true <-> simulatedTimeRef s <> None) /\
  16 <= interval isProduction s <= 1000.
Proof.
  intros s.
  assert (sim_inv isProduction s) as (H1 & H2 & H3 & H4).
  { subst s. assert (sim_inv isProduction (initial now0)) as H0.
    { unfold sim_inv; simpl; repeat split; try lia; intuition congruence. }
    revert H0. generalize (initial now0). induction evs as [|e evs IH]; intros s0 H0.
    - exact H0.
    - rewrite run_cons. apply IH, sim_inv_step, H0. }
  pose proof (interval_bounds isProduction s ltac:(lia)).
  repeat split; try lia; tauto.
Qed.

Lemma last_tick_time_cons t0 e l :
  last_tick_time t0 (e :: l) =
  last_tick_time (match e with Tick n | EffectRun n => n | _ => t0 end) l.
Proof. reflexivity. Qed.

Lemma late_ticks_cons n0 e l :
  late_ticks n0 (e :: l) =
  (match e with Tick n | EffectRun n => if 500 <=? n - n0 then 1 else 0 | _ => 0 end)
  + late_ticks n0 l.
Proof.
  unfold late_ticks. destruct e; simpl; try reflexivity;
  destruct (500 <=? _ - n0); simpl length; lia.
Qed.

(** X9: In production every control is a no-op: from the first render, the
    hook never reports a simulation, keeps speed 1 and no simulated
    time, and its clock is the real time of the last tick. *)
Theorem useSimulatedTime_production (now0 : Z) (evs : list event) :
  let s := run true (initial now0) evs in
  reported_isSimulating true s = false /\ isSimulating s = false /\ speed s = 1 /\
  simulatedTimeRef s = None /\ currentTime s = last_tick_time now0 evs.
Proof.
  intros s. subst s.
  enough (forall s0, isSimulating s0 = false -> speed s0 = 1 -> simulatedTimeRef s0 = None ->
    let s := run true s0 evs in
    isSimulating s = false /\ speed s = 1 /\ simulatedTimeRef s = None /\
    currentTime s = last_tick_time (currentTime s0) evs) as H.
  { destruct (H (initial now0) eq_refl eq_refl eq_refl) as (H1 & H2 & H3 & H4).
    unfold reported_isSimulating. simpl. repeat split; assumption. }
  induction evs as [|e evs IH]; intros s0 H1 H2 H3.
  - simpl. auto.
  - rewrite run_cons, last_tick_time_cons.
    destruct e; apply IH; simpl; assumption.
Qed.

Lemma simulating_ticks n0 x evs s :
  forallb clock_event evs = true ->
  isSimulatingRef s = true -> isSimulating s = true -> simulatedTimeRef s = Some x ->
  currentTime s = x -> lastManualSetRef s = n0 ->
  currentTime (run false s evs) = x + 1000 * late_ticks n0 evs /\
  simulatedTimeRef (run false s evs) = Some (currentTime (run false s evs)) /\
  isSimulating (run false s evs) = true.
Proof.
  revert x s. induction evs as [|e evs IH]; intros x s Hev H1 H2 H3 H4 H5.
  - simpl. unfold late_ticks. simpl. rewrite H4, H3. repeat split; auto; lia.
  - simpl in Hev. apply andb_prop in Hev as [He Hev].
    rewrite run_cons, late_ticks_cons.
    destruct e as [| m | | | now | now]; try discriminate He.
    + destruct (IH x (step false (SetSpeed m) s) Hev) as (A & B & C);
        try (simpl; auto; fail); try (split; [rewrite A; lia | split; assumption]).
    + destruct (now - n0 <? 500) eqn:E.
      * assert ((500 <=? now - n0) = false) as Hl. { apply Z.leb_gt. apply Z.ltb_lt in E. lia. }
        assert (step false (Tick now) s = s) as Hs.
        { simpl. unfold tick. rewrite H1, H3, H5, E. reflexivity. }
        rewrite Hs, Hl. destruct (IH x s Hev) as (A & B & C);
          try (auto; fail); try (split; [rewrite A; lia | split; assumption]).
      * assert ((500 <=? now - n0) = true) as Hl. { apply Z.leb_le. apply Z.ltb_ge in E. lia. }
        rewrite Hl.
        destruct (IH (x + 1000) (step false (Tick now) s) Hev) as (A & B & C);
          try (unfold step, tick; rewrite ?H1, ?H3, ?H5, ?E; simpl; auto; fail);
          try (split; [rewrite A; lia | split; assumption]).
    + destruct (now - n0 <? 500) eqn:E.
      * assert ((500 <=? now - n0) = false) as Hl. { apply Z.leb_gt. apply Z.ltb_lt in E. lia. }
        rewrite Hl.
        destruct (IH x (step false (EffectRun now) s) Hev) as (A & B & C);
          try (unfold step, effect_run, tick; simpl; rewrite ?H1, ?H3, ?H5, ?E; simpl; auto; fail);
          try (split; [rewrite A; lia | split; assumption]).
      * assert ((500 <=? now - n0) = true) as Hl. { apply Z.leb_le. apply Z.ltb_ge in E. lia. }
        rewrite Hl.
        destruct (IH (x + 1000) (step false (EffectRun now) s) Hev) as (A & B & C);
          try (unfold step, effect_run, tick; simpl; rewrite ?H1, ?H3, ?H5, ?E; simpl; auto; fail);
          try (split; [rewrite A; lia | split; assumption]).
Qed.

(** X10: In development, after [setSimulatedTime(time)] at real time [n0]
    (or [jumpForward(minutes)] at [n0]), ticks and speed changes move the
    simulated clock by exactly one second per tick that comes 500 ms or
    more after [n0], whatever the speed; earlier ticks leave it alone. *)
Theorem useSimulatedTime_manual_then_ticks (s : t) (n0 time minutes : Z) (evs : list event)
    (Hevs : forallb clock_event evs = true) :
  let s1 := run false (setSimulatedTime false n0 time s) evs in
  let s2 := run false (jumpForward false n0 minutes s) evs in
  let base := match simulatedTimeRef s with Some b => b | None => n0 end in
  currentTime s1 = time + 1000 * late_ticks n0 evs /\ reported_isSimulating false s1 = true /\
  currentTime s2 = base + minutes * 60000 + 1000 * late_ticks n0 evs /\
  reported_isSimulating false s2 = true.
Proof.
  intros s1 s2 base.
  destruct (simulating_ticks n0 time evs (setSimulatedTime false n0 time s) Hevs)
    as (A1 & _ & C1); try reflexivity.
  destruct (simulating_ticks n0 (base + minutes * 60 * 1000) evs (jumpForward false n0 minutes s) Hevs)
    as (A2 & _ & C2); try reflexivity.
  unfold reported_isSimulating. subst s1 s2. rewrite A1, A2, C1, C2.
  repeat split; lia.
Qed.

(** X11: [jumpForward] composes additively: two jumps land where one jump by
    the sum lands, so jumping back by the same number of minutes
    returns to the time the first jump started from. *)
Theorem jumpForward_compose (s : t) (n1 n2 a b : Z) :
  currentTime (jumpForward false n2 b (jumpForward false n1 a s)) =
    currentTime (jumpForward false n1 (a + b) s) /\
  simulatedTimeRef (jumpForward false n2 b (jumpForward false n1 a s)) =
    simulatedTimeRef (jumpForward false n1 (a + b) s) /\
  currentTime (jumpForward false n2 (- a) (jumpForward false n1 a s)) =
    match simulatedTimeRef s with Some t0 => t0 | None => n1 end.
Proof.
  unfold jumpForward; simpl.
  destruct (simulatedTimeRef s); repeat split; try apply (f_equal Some); lia.
Qed.

(** X12: [reset()] in development returns to real time: afterwards the
    simulation is off, the speed is 1, and ticks and speed changes keep
    the clock at the real time of the last tick. *)
Theorem reset_real_time (s : t) (now : Z) (evs : list event)
    (Hevs : forallb clock_event evs = true) :
  let s' := run false (reset false now s) evs in
  reported_isSimulating false s' = false /\ simulatedTimeRef s' = None /\
  currentTime s' = last_tick_time now evs /\
  speed (reset false now s) = 1.
Proof.
  intros s'. subst s'.
  enough (forall s0, isSimulatingRef s0 = false -> isSimulating s0 = false ->
    simulatedTimeRef s0 = None ->
    let s := run false s0 evs in
    isSimulating s = false /\ simulatedTimeRef s = None /\
    currentTime s = last_tick_time (currentTime s0) evs) as H.
  { destruct (H (reset false now s) eq_refl eq_refl eq_refl) as (H1 & H2 & H3).
    unfold reported_isSimulating. rewrite H1. simpl. auto. }
  induction evs as [|e evs IH]; intros s0 H1 H2 H3.
  - simpl. auto.
  - simpl in Hevs. apply andb_prop in Hevs as [He Hevs].
    rewrite run_cons, last_tick_time_cons.
    destruct e as [| m | | | n | n]; try discriminate He.
    + apply (IH Hevs (step false (SetSpeed m) s0)); assumption.
    + pose proof (IH Hevs (step false (Tick n) s0)) as H.
      unfold step, tick in H |- *. rewrite H1 in H |- *. simpl in H |- *. apply H; auto.
    + pose proof (IH Hevs (step false (EffectRun n) s0)) as H.
      unfold step, effect_run, tick in H |- *. simpl in H |- *. rewrite H1 in H |- *.
      simpl in H |- *. apply H; auto.
Qed.

End SimulatedClock.

(* ------------------------------------------------------------------ *)
(** ** DevTools event navigation *)

Section DevToolsNavigation.
Import DevTools.
Variable parse : string -> option Z.
Variable zone : TimeZone.

Lemma insert_event_perm e l : Permutation (insert_event e l) (e :: l).
Proof.
  induction l as [|x r IH]; simpl; [reflexivity|].
  destruct (ms e <=? ms x); [reflexivity|].
  rewrite IH. apply perm_swap.
Qed.

Lemma sort_events_perm l : Permutation (sort_events l) l.
Proof.
  induction l as [|x r IH]; simpl; [reflexivity|].
  rewrite insert_event_perm, IH. reflexivity.
Qed.

Lemma insert_event_sorted e l :
  Sorted (fun a b => ms a <= ms b) l -> Sorted (fun a b => ms a <= ms b) (insert_event e l).
Proof.
  induction l as [|x r IH]; intros Hs; simpl.
  - repeat constructor.
  - destruct (ms e <=? ms x) eqn:E.
    + constructor; [exact Hs|]. constructor. apply Z.leb_le, E.
    + apply Sorted_inv in Hs as [Hr Hh]. constructor; [apply IH, Hr|].
      apply Z.leb_gt in E. destruct r as [|y r']; simpl.
      * constructor. lia.
      * inversion Hh; subst. destruct (ms e <=? ms y); constructor; lia.
Qed.

Lemma sort_events_sorted l : Sorted (fun a b => ms a <= ms b) (sort_events l).
Proof. induction l; simpl; [constructor|]. apply insert_event_sorted; assumption. Qed.

Lemma insert_event_stable k e l :
  List.filter (fun x => ms x =? k) (insert_event e l) = List.filter (fun x => ms x =? k) (e :: l).
Proof.
  induction l as [|x r IH]; [reflexivity|].
  cbn [insert_event]. destruct (ms e <=? ms x) eqn:E; [reflexivity|].
  apply Z.leb_gt in E. cbn [List.filter]. cbn [List.filter] in IH. rewrite IH.
  destruct (ms e =? k) eqn:Ek, (ms x =? k) eqn:Exk; try reflexivity.
  apply Z.eqb_eq in Ek, Exk. lia.
Qed.

Lemma sort_events_stable k l :
  List.filter (fun x => ms x =? k) (sort_events l) = List.filter (fun x => ms x =? k) l.
Proof.
  induction l as [|x r IH]; simpl; [reflexivity|].
  rewrite insert_event_stable. simpl. rewrite IH. reflexivity.
Qed.

(** X13: The [orderedEvents] list holds exactly the valid events that were
    pushed (none with an Invalid Date), sorted by time; events at the
    same time keep the order in which they were pushed. *)
Theorem orderedEvents_sorted (prayerTimes : option PrayerTimesProp) (dateString : option string) :
  let evs := orderedEvents parse prayerTimes dateString in
  let pushed := match prayerTimes, dateString with
                | Some p, Some ds => if str_truthy ds then pushed_events parse p ds else []
                | _, _ => []
                end in
  Sorted (fun a b => ms a <= ms b) evs /\
  Permutation evs (List.filter valid pushed) /\
  Forall (fun e => valid e = true) evs /\
  (forall k, List.filter (fun e => ms e =? k) evs =
             List.filter (fun e => ms e =? k) (List.filter valid pushed)).
Proof.
  intros evs pushed.
  assert (evs = sort_events (List.filter valid pushed)) as Hevs.
  { subst evs pushed. unfold orderedEvents.
    destruct prayerTimes, dateString; try reflexivity. destruct (str_truthy s); reflexivity. }
  rewrite Hevs. split; [apply sort_events_sorted|]. split; [apply sort_events_perm|].
  split; [|intros k; apply sort_events_stable].
  apply List.Forall_forall. intros e He. apply (Permutation_in _ (sort_events_perm _)) in He.
  apply filter_In in He. tauto.
Qed.

Lemma addEvent_name ds nm ts lbl e : In e (addEvent parse ds nm ts lbl) -> name e = nm.
Proof.
  unfold addEvent. destruct ts as [t0|]; [|simpl; tauto].
  destruct (str_truthy t0); simpl; [|tauto]. intros [<-|[]]. reflexivity.
Qed.

Lemma orderedEvents_in prayerTimes dateString e :
  In e (orderedEvents parse prayerTimes dateString) ->
  exists p ds, prayerTimes = Some p /\ dateString = Some ds /\ In e (pushed_events parse p ds).
Proof.
  unfold orderedEvents. destruct prayerTimes as [p|], dateString as [ds|]; simpl; try tauto.
  destruct (str_truthy ds); simpl; [|tauto].
  intros He. apply (Permutation_in _ (sort_events_perm _)) in He.
  apply filter_In in He. exists p, ds. tauto.
Qed.

(** X14: On a Friday ([jumuah1.iqamah] set) the navigation lists Jumuah 1
    and 2 instead of the Dhuhr iqamah; on other days it has no Jumuah
    event. *)
Theorem orderedEvents_friday (p : PrayerTimesProp) (dateString : option string) :
  let names := map name (orderedEvents parse (Some p) dateString) in
  (str_truthy_opt (iqamah_of (jumuah1 p)) = true -> ~ In "dhuhr-iqamah" names) /\
  (str_truthy_opt (iqamah_of (jumuah1 p)) = false ->
     ~ In "jumuah1" names /\ ~ In "jumuah2" names).
Proof.
  intros names.
  assert (forall nm, In nm names ->
    exists e ds, name e = nm /\ In e (pushed_events parse p ds)) as Hn.
  { intros nm Hin. subst names. apply in_map_iff in Hin as [e [<- He]].
    apply orderedEvents_in in He as (p' & ds & Hp & _ & He). injection Hp as <-.
    exists e, ds. auto. }
  split; intros Hj.
  - intros Hin. destruct (Hn _ Hin) as (e & ds & Hname & He).
    unfold pushed_events in He. rewrite Hj in He.
    repeat rewrite in_app_iff in He.
    repeat match type of He with
           | _ \/ _ => destruct He as [He|He]
           end;
      apply addEvent_name in He; rewrite He in Hname; discriminate Hname.
  - split; intros Hin; destruct (Hn _ Hin) as (e & ds & Hname & He);
      unfold pushed_events in He; rewrite Hj in He;
      repeat rewrite in_app_iff in He;
      repeat match type of He with
             | _ \/ _ => destruct He as [He|He]
             end;
      apply addEvent_name in He; rewrite He in Hname; discriminate Hname.
Qed.

Lemma scan_down_spec evs now i : (i <= length evs)%nat ->
  (scan_down evs now i = -1 /\
   forall k e, (k < i)%nat -> nth_error evs k = Some e -> now < ms e - 5000) \/
  (exists k e, scan_down evs now i = Z.of_nat k /\ (k < i)%nat /\ nth_error evs k = Some e /\
     ms e - 5000 <= now /\
     forall k' e', (k < k' < i)%nat -> nth_error evs k' = Some e' -> now < ms e' - 5000).
Proof.
  induction i as [|i IH]; intros Hi.
  - left. split; [reflexivity|]. intros k e Hk. lia.
  - simpl. destruct (nth_error evs i) as [e|] eqn:Ei.
    2: { apply nth_error_None in Ei. lia. }
    destruct (ms e - 5000 <=? now) eqn:E.
    + right. exists i, e. split; [reflexivity|]. split; [lia|]. split; [exact Ei|].
      split; [apply Z.leb_le, E|]. intros k' e' Hk'. lia.
    + apply Z.leb_gt in E. destruct (IH ltac:(lia)) as [[H1 H2]|(k & e0 & H1 & H2 & H3 & H4 & H5)].
      * left. split; [exact H1|]. intros k e' Hk He'.
        destruct (Nat.eq_dec k i) as [->|Hne]; [congruence|]. apply (H2 k e'); auto; lia.
      * right. exists k, e0. split; [exact H1|]. split; [lia|]. split; [exact H3|].
        split; [exact H4|].
        intros k' e' Hk' He'. destruct (Nat.eq_dec k' i) as [->|Hne]; [congruence|].
        apply (H5 k' e'); auto; lia.
Qed.

(** X15: [getCurrentEventIndex] is -1 when every event is more than 5 s
    ahead of the current time, and otherwise the last index whose event
    is at most 5 s ahead (whether or not the list is sorted). *)
Theorem getCurrentEventIndex_spec (evs : list Event) (now : Z) :
  let i := getCurrentEventIndex evs now in
  (i = -1 /\ forall e, In e evs -> now < ms e - 5000) \/
  (0 <= i < Z.of_nat (length evs) /\
   exists e, nth_error evs (Z.to_nat i) = Some e /\ ms e - 5000 <= now /\
   forall j e', i < j -> nth_error evs (Z.to_nat j) = Some e' -> now < ms e' - 5000).
Proof.
  intros i. subst i. unfold getCurrentEventIndex.
  destruct (length evs =? 0)%nat eqn:E0.
  { left. split; [reflexivity|]. apply Nat.eqb_eq, length_zero_iff_nil in E0. subst. simpl; tauto. }
  destruct (scan_down_spec evs now (length evs) (le_n _)) as [[H1 H2]|(k & e & H1 & H2 & H3 & H4 & H5)].
  - left. split; [exact H1|]. intros e He.
    destruct (In_nth_error _ _ He) as [k Hk]. apply (H2 k e); auto.
    apply nth_error_Some. congruence.
  - right. rewrite H1. split; [lia|]. exists e. rewrite Nat2Z.id. split; [exact H3|].
    split; [exact H4|].
    intros j e' Hj Hj'. apply (H5 (Z.to_nat j) e'); auto.
    split; [lia|]. apply nth_error_Some. congruence.
Qed.

Lemma index_ge evs t k e :
  nth_error evs k = Some e -> ms e - 5000 <= t -> Z.of_nat k <= getCurrentEventIndex evs t.
Proof.
  intros Hk He. destruct (getCurrentEventIndex_spec evs t) as [[_ H]|(Hb & e0 & H0 & H1 & H2)].
  - apply nth_error_In in Hk. specialize (H e Hk). lia.
  - destruct (Z_le_gt_dec (Z.of_nat k) (getCurrentEventIndex evs t)) as [|Hgt]; [assumption|].
    specialize (H2 (Z.of_nat k) e ltac:(lia)). rewrite Nat2Z.id in H2. specialize (H2 Hk). lia.
Qed.

Lemma orderedEvents_dateString prayerTimes dateString :
  orderedEvents parse prayerTimes dateString <> [] -> str_truthy_opt dateString = true.
Proof.
  unfold orderedEvents. destruct prayerTimes, dateString as [ds|]; try congruence.
  simpl. destruct (str_truthy ds); congruence.
Qed.

Lemma sorted_adjacent (l : list Event) k a b :
  Sorted (fun x y => ms x <= ms y) l -> nth_error l k = Some a -> nth_error l (S k) = Some b ->
  ms a <= ms b.
Proof.
  revert k. induction l as [|x r IH]; intros k Hs Ha Hb; [destruct k; discriminate|].
  apply Sorted_inv in Hs as [Hr Hh]. destruct k as [|k].
  - simpl in Ha, Hb. injection Ha as <-. destruct r as [|y r]; [discriminate|].
    simpl in Hb. injection Hb as <-. inversion Hh; assumption.
  - simpl in Ha, Hb. exact (IH k Hr Ha Hb).
Qed.

(** X16: Away from the last event, "next event" sets the clock to 5 s
    before the following event: a time strictly later than now, at
    which the current event index has moved forward. *)
Theorem handleNextEvent_forward (prayerTimes : option PrayerTimesProp) (dateString : option string)
    (now : Z)
    (Hmid : getCurrentEventIndex (orderedEvents parse prayerTimes dateString) now <
            Z.of_nat (length (orderedEvents parse prayerTimes dateString)) - 1) :
  let evs := orderedEvents parse prayerTimes dateString in
  let i := getCurrentEventIndex evs now in
  let t' := event_ms evs (i + 1) - 5000 in
  handleNextEvent parse zone prayerTimes dateString now = NavSet (Some t') /\
  now < t' /\ i + 1 <= getCurrentEventIndex evs t'.
Proof.
  intros evs i t'. fold evs in Hmid. fold i in Hmid.
  assert (-1 <= i) as Hi.
  { subst i. destruct (getCurrentEventIndex_spec evs now) as [[-> _]|[H _]]; lia. }
  assert (evs <> []) as Hne. { intros E. rewrite E in Hmid. simpl in Hmid. lia. }
  assert (exists e, nth_error evs (Z.to_nat (i + 1)) = Some e) as [e He].
  { destruct (nth_error evs (Z.to_nat (i + 1))) eqn:E; [eauto|].
    apply nth_error_None in E. subst evs. lia. }
  split.
  - unfold handleNextEvent. fold evs. fold i.
    rewrite (orderedEvents_dateString _ _ Hne). simpl.
    destruct (length evs =? 0)%nat eqn:E0; [apply Nat.eqb_eq, length_zero_iff_nil in E0; contradiction|].
    simpl. destruct (Z.of_nat (length evs) - 1 <=? i) eqn:E; [apply Z.leb_le in E; lia|].
    reflexivity.
  - assert (t' = ms e - 5000) as Ht. { subst t'. unfold event_ms. rewrite He. reflexivity. }
    split.
    + destruct (getCurrentEventIndex_spec evs now) as [[_ H]|(_ & _ & _ & _ & H)].
      * rewrite Ht. apply H, (nth_error_In _ _ He).
      * rewrite Ht. apply (H (i + 1) e); [lia|exact He].
    + pose proof (index_ge evs t' _ e He ltac:(lia)). rewrite Z2Nat.id in H by lia. exact H.
Qed.

(** X17: Past the first event, "previous event" sets the clock to 5 s
    before the preceding event, never later than now; the index then
    drops by one, except when that event is at the same time as the
    current one, where the index stays (the button does not move). *)
Theorem handlePrevEvent_back (prayerTimes : option PrayerTimesProp) (dateString : option string)
    (now : Z)
    (Hmid : 0 < getCurrentEventIndex (orderedEvents parse prayerTimes dateString) now) :
  let evs := orderedEvents parse prayerTimes dateString in
  let i := getCurrentEventIndex evs now in
  let t' := event_ms evs (i - 1) - 5000 in
  handlePrevEvent parse zone prayerTimes dateString now = NavSet (Some t') /\
  t' <= now /\
  getCurrentEventIndex evs t' = (if event_ms evs (i - 1) <? event_ms evs i then i - 1 else i).
Proof.
  intros evs i t'.
  destruct (getCurrentEventIndex_spec evs now) as [[Hm _]|(Hb & ei & Hei & Hein & Hlater)];
    [fold evs i in Hmid, Hm; lia|].
  fold evs i in Hb, Hei, Hein, Hlater, Hmid.
  assert (evs <> []) as Hne. { intros E. rewrite E in Hb. simpl in Hb. lia. }
  assert (exists e, nth_error evs (Z.to_nat (i - 1)) = Some e) as [e He].
  { destruct (nth_error evs (Z.to_nat (i - 1))) eqn:E; [eauto|].
    apply nth_error_None in E. lia. }
  assert (Hsorted : Sorted (fun a b => ms a <= ms b) evs).
  { destruct (orderedEvents_sorted prayerTimes dateString) as [H _]. exact H. }
  assert (ms e <= ms ei) as Hle.
  { apply (sorted_adjacent evs (Z.to_nat (i - 1))); auto.
    replace (S (Z.to_nat (i - 1))) with (Z.to_nat i) by lia. exact Hei. }
  assert (t' = ms e - 5000) as Ht. { subst t'. unfold event_ms. rewrite He. reflexivity. }
  assert (event_ms evs (i - 1) = ms e) as Hme. { unfold event_ms. rewrite He. reflexivity. }
  assert (event_ms evs i = ms ei) as Hmi. { unfold event_ms. rewrite Hei. reflexivity. }
  split; [|split].
  - unfold handlePrevEvent. fold evs. fold i.
    rewrite (orderedEvents_dateString _ _ Hne). simpl.
    destruct (length evs =? 0)%nat eqn:E0; [apply Nat.eqb_eq, length_zero_iff_nil in E0; contradiction|].
    simpl. destruct (i <=? 0) eqn:E; [apply Z.leb_le in E; lia|].
    reflexivity.
  - lia.
  - rewrite Hme, Hmi.
    pose proof (index_ge evs t' _ e He ltac:(lia)) as Hge. rewrite Z2Nat.id in Hge by lia.
    assert (getCurrentEventIndex evs t' <= i) as Hle'.
    { destruct (getCurrentEventIndex_spec evs t') as [[-> _]|(_ & ej & Hej & Hejt & _)]; [lia|].
      destruct (Z_le_gt_dec (getCurrentEventIndex evs t') i) as [|Hgt]; [assumption|].
      specialize (Hlater (getCurrentEventIndex evs t') ej ltac:(lia) Hej). lia. }
    destruct (ms e <? ms ei) eqn:Elt.
    + apply Z.ltb_lt in Elt.
      destruct (Z.eq_dec (getCurrentEventIndex evs t') i) as [Heq|]; [|lia].
      destruct (getCurrentEventIndex_spec evs t') as [[Hx _]|(_ & ej & Hej & Hejt & _)]; [lia|].
      rewrite Heq, Hei in Hej. injection Hej as <-. lia.
    + apply Z.ltb_ge in Elt.
      pose proof (index_ge evs t' _ ei Hei ltac:(lia)) as Hge'. rewrite Z2Nat.id in Hge' by lia.
      lia.
Qed.

End DevToolsNavigation.

(* ------------------------------------------------------------------ *)
(** ** Instances *)

Lemma formatTime_schema_time_witness : formatTime (Some "13:05") = "1:05".
Proof. rewrite (proj2 (formatTime_schema_time "13:05" eq_refl)). reflexivity. Defined.

Lemma countdown_target_not_past_witness :
  let t := date_time_utc "2026-01-13T12:30" in
  let target := date_time_utc "2026-01-13T12:45" in
  t <= target /\ (true = true -> t < target) /\ 1 <= calculateCountdownSeconds target t + 1.
Proof.
  exact (countdown_target_not_past
           (parsePrayerTimesToMs date_time_utc (getCombinedPrayerTimes two_days "2026-01-13")
              "2026-01-14")
           (date_time_utc "2026-01-13T12:30") (date_time_utc "2026-01-13T12:45") true
           ltac:(apply Z.leb_le; vm_compute; reflexivity)
           ltac:(apply Z.ltb_lt; vm_compute; reflexivity)
           ltac:(vm_compute; reflexivity)).
Defined.

Lemma getDateString_supported_witness :
  getDateString (date_time_utc "2026-01-16T13:45") = "2026-01-16" /\
  date_time_utc ("2026-01-16" ++ "T00:00") <= date_time_utc "2026-01-16T13:45".
Proof.
  assert (getDateString (date_time_utc "2026-01-16T13:45") = "2026-01-16") as E
    by (vm_compute; reflexivity).
  split; [exact E|].
  destruct (getDateString_supported (date_time_utc "2026-01-16T13:45")
              ltac:(apply Z.leb_le; vm_compute; reflexivity)
              ltac:(apply Z.ltb_lt; vm_compute; reflexivity)) as (_ & _ & [H _] & _).
  rewrite E in H. exact H.
Defined.

Lemma useSimulatedTime_manual_then_ticks_witness :
  SimulatedTime.currentTime
    (SimulatedTime.run false (SimulatedTime.setSimulatedTime false 1000 5000 (SimulatedTime.initial 0))
       [SimulatedTime.EffectRun 1010; SimulatedTime.Tick 1200; SimulatedTime.SetSpeed 60;
        SimulatedTime.Tick 1516; SimulatedTime.Tick 1532]) = 7000.
Proof.
  rewrite (proj1 (useSimulatedTime_manual_then_ticks (SimulatedTime.initial 0) 1000 5000 10
    [SimulatedTime.EffectRun 1010; SimulatedTime.Tick 1200; SimulatedTime.SetSpeed 60;
     SimulatedTime.Tick 1516; SimulatedTime.Tick 1532] eq_refl)).
  reflexivity.
Defined.

Lemma reset_real_time_witness :
  SimulatedTime.currentTime
    (SimulatedTime.run false
       (SimulatedTime.reset false 100
          (SimulatedTime.setSimulatedTime false 0 5000 (SimulatedTime.initial 0)))
       [SimulatedTime.EffectRun 100; SimulatedTime.SetSpeed 5; SimulatedTime.Tick 1100]) = 1100.
Proof.
  rewrite (proj1 (proj2 (proj2 (reset_real_time
    (SimulatedTime.setSimulatedTime false 0 5000 (SimulatedTime.initial 0)) 100
    [SimulatedTime.EffectRun 100; SimulatedTime.SetSpeed 5; SimulatedTime.Tick 1100] eq_refl)))).
  reflexivity.
Defined.

(** A Friday's panel data, with [new Date(`${d}T${t}:00`)] read by
    [date_time_utc] on its first 16 characters. *)
Definition friday_panel : DevTools.PrayerTimesProp :=
  DevTools.mkProp (Some (PrayerTime.mk (Some "06:00") (Some "07:30")))
    (Some (PrayerTime.mk (Some "07:45") None))
    (Some (PrayerTime.mk (Some "12:10") (Some "12:40")))
    (Some (PrayerTime.mk (Some "14:30") (Some "15:00")))
    (Some (PrayerTime.mk (Some "16:20") None))
    (Some (PrayerTime.mk (Some "18:00") (Some "18:15")))
    (Some (PrayerTime.mk None (Some "13:00")))
    (Some (PrayerTime.mk None (Some "13:45"))).

Definition panel_parse (s : string) : option Z := Some (date_time_utc (substring 0 16 s)).

Lemma handleNextEvent_forward_witness :
  DevTools.handleNextEvent panel_parse utc_zone (Some friday_panel) (Some "2026-01-16")
    (date_time_utc "2026-01-16T13:00") = DevTools.NavSet (Some (date_time_utc "2026-01-16T13:45" - 5000)).
Proof.
  rewrite (proj1 (handleNextEvent_forward panel_parse utc_zone (Some friday_panel) (Some "2026-01-16")
    (date_time_utc "2026-01-16T13:00") ltac:(apply Z.ltb_lt; vm_compute; reflexivity))).
  vm_compute. reflexivity.
Defined.

Lemma handlePrevEvent_back_witness :
  DevTools.handlePrevEvent panel_parse utc_zone (Some friday_panel) (Some "2026-01-16")
    (date_time_utc "2026-01-16T13:00") = DevTools.NavSet (Some (date_time_utc "2026-01-16T12:10" - 5000)).
Proof.
  rewrite (proj1 (handlePrevEvent_back panel_parse utc_zone (Some friday_panel) (Some "2026-01-16")
    (date_time_utc "2026-01-16T13:00") ltac:(apply Z.ltb_lt; vm_compute; reflexivity))).
  vm_compute. reflexivity.
Defined.
